(** * radiodigger: now-playing state, session store and player control

    A shallow embedding of [radiodigger.py].  Python values are modelled as
    follows:

    - a [str] is the list of its Unicode code points ([list N]);
    - [None]-able values are [option]s, with Python truthiness written out;
    - a [dict] with string keys is a [gmap] over code-point lists;
    - the observable effects of a call (lock operations, file-system
      operations, subprocess and playback-engine calls) are appended, in
      program order, to the [log] of a [World], whose [fs] component holds
      the file contents those operations produce;
    - a call that may raise returns a [res].

    File-system calls are taken to succeed, except that opening a missing
    file for reading raises and that writing a text the locale's encoder
    rejects raises.  Python's [json] module, [str.lower], [int] on a [str],
    curses and the libvlc player are outside the repository: the first three
    are section variables, the terminal of a frame is a [Term], the player
    is the stand-in [Engine.t].  The metadata thread
    and the main thread are interleaved by an explicit scheduler ([step]).
    Floats are IEEE 754 binary64 values ([spec_float]). *)

From Stdlib Require Import ZArith NArith List Bool Lia String Ascii.
From Stdlib Require Import Floats.SpecFloat.
From stdpp Require Import base option list gmap.

Local Open Scope Z_scope.

#[local] Set Warnings "-register-all".

(** ** Python strings *)

Abbreviation str := (list N).

Module Py.

(** An ASCII literal as a [str]. *)
Definition lit (s : string) : str :=
  map N_of_ascii (list_ascii_of_string s).

(** U+2014 EM DASH. *)
Definition em_dash : N := 8212%N.

(** [str.isspace] on one code point: the table of CPython's
    [_PyUnicode_IsWhitespace]. *)
Definition is_space (c : N) : bool :=
  ((9 <=? c) && (c <=? 13) || (28 <=? c) && (c <=? 32)
   || (c =? 133) || (c =? 160) || (c =? 5760)
   || (8192 <=? c) && (c <=? 8202)
   || (c =? 8232) || (c =? 8233) || (c =? 8239) || (c =? 8287)
   || (c =? 12288))%N.

Fixpoint lstrip (s : str) : str :=
  match s with
  | c :: s' => if is_space c then lstrip s' else s
  | [] => []
  end.

Definition rstrip (s : str) : str := rev (lstrip (rev s)).

(** [s.strip()] *)
Definition strip (s : str) : str := rstrip (lstrip s).

(** Truth value of a [str]: non-empty. *)
Definition truthy (s : str) : bool :=
  match s with [] => false | _ => true end.

(** Truth value of an optional [str] ([None] is false). *)
Definition truthy_opt (o : option str) : bool :=
  match o with Some s => truthy s | None => false end.

(** [x or d] for an optional [str] [x] and a [str] [d]. *)
Definition or_else (o : option str) (d : str) : str :=
  match o with
  | Some s => if truthy s then s else d
  | None => d
  end.

(** [a == b] on [str]. *)
Definition eqb (a b : str) : bool := bool_decide (a = b).

(** [s[:n]] for [n >= 0]. *)
Definition prefix (n : nat) (s : str) : str := take n s.

(** [max(lo, min(hi, n))] on integers, as [clamp] uses them. *)
Definition min (a b : Z) : Z := if b <? a then b else a.
Definition max (a b : Z) : Z := if a <? b then b else a.

End Py.

(** ** Paths (module constants) *)

(** [os.path.expanduser] is not modelled: the home directory is written [~]. *)
Definition CONFIG_DIR : str := Py.lit "~/.config/radiodigger".
Definition CACHE_DIR : str := Py.lit "~/.cache/radiodigger".
Definition path_join (d f : str) : str := d ++ Py.lit "/" ++ f.
Definition FAV_FILE : str := path_join CONFIG_DIR (Py.lit "favorites.json").
Definition STATE_FILE : str := path_join CONFIG_DIR (Py.lit "state.json").
Definition VOL_FILE : str := path_join CONFIG_DIR (Py.lit "volumes.json").
Definition NOWPLAY_FILE : str := path_join CACHE_DIR (Py.lit "now_playing.txt").

(** ** Effects *)

(** Primitive file-system operations, at the granularity the source issues
    them: [open(p, "w")] truncates, each [write] appends, [os.replace]
    renames atomically. *)
Inductive fs_op :=
| OpMakedirs (d : str)
| OpOpenTrunc (p : str)
| OpAppend (p : str) (chunk : str)
| OpReplace (src dst : str).

(** Calls into the playback engine (libvlc's media player). *)
Inductive engine_call :=
| CallStop
| CallLoad (url : str)
| CallPlay
| CallSetVolume (v : Z)
| CallToggleMute.

Inductive event :=
| EvAcquire                      (* [with self.lock:] entered *)
| EvRelease                      (* [with self.lock:] left *)
| EvFs (o : fs_op)
| EvRun (argv : list str)        (* [subprocess.run] *)
| EvEngine (c : engine_call)
| EvWhich (name : str).          (* [shutil.which]: a search of PATH *)

Definition apply_op (o : fs_op) (fs : gmap (list N) (list N)) : gmap (list N) (list N) :=
  match o with
  | OpMakedirs _ => fs
  | OpOpenTrunc p => <[p := []]> fs
  | OpAppend p chunk => <[p := default [] (fs !! p) ++ chunk]> fs
  | OpReplace src dst =>
      match fs !! src with
      | Some c => <[dst := c]> (delete src fs)
      | None => fs
      end
  end.

(** What the process finds around it. *)
Record Env := mkEnv {
  env_tmux : bool;               (* "TMUX" in os.environ *)
  which_tmux : bool;             (* shutil.which("tmux") finds an executable *)
  encodes : str -> bool          (* the locale's encoder accepts the text *)
}.

Record World := {
  fs : gmap (list N) (list N);   (* path -> file content *)
  env : Env;
  log : list event               (* effects so far, oldest first *)
}.

(** The UTF-8 encoder rejects the surrogates U+D800 to U+DFFF only. *)
Definition utf8_encodes (s : str) : bool :=
  forallb (fun c => negb ((55296 <=? c)%N && (c <=? 57343)%N)) s.

(** A world in a UTF-8 locale, inside tmux with tmux installed ([tm]) or
    outside tmux without it. *)
Definition mkWorld (f : gmap (list N) (list N)) (tm : bool) (l : list event) : World :=
  {| fs := f; env := mkEnv tm tm utf8_encodes; log := l |}.

Definition emit (e : event) (w : World) : World :=
  {| fs := match e with EvFs o => apply_op o (fs w) | _ => fs w end;
     env := env w;
     log := log w ++ [e] |}.

Definition emit_all (es : list event) (w : World) : World :=
  fold_left (fun w e => emit e w) es w.

(** [clamp(n, lo, hi)] *)
Definition clamp (n lo hi : Z) : Z := Py.max lo (Py.min hi n).

(** ** class NowPlaying *)

Module NowPlaying.

Record t := mk {
  station_name : str;
  stationuuid : option str;
  line : str;
  history : list str;          (* newest first *)
  max_history : nat
}.

(** [__init__] *)
Definition init : t :=
  {| station_name := [Py.em_dash];
     stationuuid := None;
     line := [Py.em_dash];
     history := [];
     max_history := 200 |}.

(** The text written to the now-playing file and to tmux. *)
Definition out (self : t) : str :=
  Py.strip (station_name self ++ Py.lit " :: " ++ line self).

(** [_write_nowplay]: the events it issues, in order.  [open(.., "w")]
    truncates the file; the [write] raises when the encoder rejects the
    text, which the [except] swallows, leaving the file empty.  [which] is
    called only when [TMUX] is set, [subprocess.run] only when it finds
    tmux. *)
Definition write_nowplay_events (self : t) (e : Env) : list event :=
  let text := out self ++ Py.lit (String "010" EmptyString) in
  [EvFs (OpMakedirs CACHE_DIR);
   EvFs (OpOpenTrunc NOWPLAY_FILE)]
  ++ (if encodes e text then [EvFs (OpAppend NOWPLAY_FILE text)] else [])
  ++ (if env_tmux e
      then EvWhich (Py.lit "tmux")
           :: (if which_tmux e
               then [EvRun [Py.lit "tmux"; Py.lit "set"; Py.lit "-gq";
                            Py.lit "@radiodigger_now_playing"; Py.prefix 200 (out self)]]
               else [])
      else []).

Definition _write_nowplay (self : t) (w : World) : World :=
  emit_all (write_nowplay_events self (env w)) w.

(** [set_station] *)
Definition set_station (name : option str) (uuid : option str)
    (self : t) (w : World) : t * World :=
  let w := emit EvAcquire w in
  let self := {| station_name := Py.or_else name (Py.lit "Unknown");
                 stationuuid := uuid;
                 line := line self;
                 history := history self;
                 max_history := max_history self |} in
  let w := _write_nowplay self w in
  (self, emit EvRelease w).

(** [update_line] *)
Definition update_line (text : option str) (self : t) (w : World) : t * World :=
  let l := Py.strip (Py.or_else text []) in
  if negb (Py.truthy l) then (self, w)
  else
    let w := emit EvAcquire w in
    if negb (Py.eqb l (line self)) then
      let self := {| station_name := station_name self;
                     stationuuid := stationuuid self;
                     line := l;
                     history := take (max_history self) (l :: history self);
                     max_history := max_history self |} in
      let w := _write_nowplay self w in
      (self, emit EvRelease w)
    else (self, emit EvRelease w).

(** [snapshot] *)
Definition snapshot (self : t) (w : World) : (str * str * list str) * World :=
  let w := emit EvAcquire w in
  ((station_name self, line self, history self), emit EvRelease w).

End NowPlaying.

(** A run of [update_line] calls, oldest first. *)
Definition update_lines (texts : list (option str))
    (st : NowPlaying.t * World) : NowPlaying.t * World :=
  fold_left (fun st text => NowPlaying.update_line text (fst st) (snd st)) texts st.

Definition world0 : World := mkWorld ∅ false [].

Definition A_dash_B : str := Py.lit "A " ++ [Py.em_dash] ++ Py.lit " B".

(** ** Exceptions *)

(** The outcome of a call that may raise an [Exception]. *)
Inductive res (A : Type) :=
| Ret (a : A)
| Raise.
Arguments Ret {A} a.
Arguments Raise {A}.

#[global] Instance res_ret : MRet res := fun A a => Ret a.
#[global] Instance res_bind : MBind res := fun A B k r =>
  match r with Ret a => k a | Raise => Raise end.

(** [try: body / except Exception: handler] *)
Definition try_except {A} (body handler : res A) : res A :=
  match body with Ret a => Ret a | Raise => handler end.

(** ** JSON values and the session store *)

Inductive json :=
| JNull
| JBool (b : bool)
| JInt (z : Z)
| JFloat (f : spec_float)
| JStr (s : str)
| JList (l : list json)
| JDict (d : gmap (list N) json).

Definition json_of_opt_str (o : option str) : json :=
  match o with Some s => JStr s | None => JNull end.

(** The default of the session-state file. *)
Definition STATE_DEFAULT : json :=
  JDict (<[Py.lit "last_stationuuid" := JNull]>
         (<[Py.lit "show_history" := JBool true]> ∅)).


Section Store.

(** Python's [json] module is outside the repository: [json_loads] is
    [json.load] on a file's text ([Raise] on a decode error), and
    [json_dumps data] the chunks that [json.dump(data, f, indent=2)]
    writes, in order. *)
Variable json_loads : str -> res json.
Variable json_dumps : json -> list str.

(** [with open(path) as f:] followed by reading [f]. *)
Definition open_read (path : str) (w : World) : res str :=
  match fs w !! path with
  | Some c => Ret c
  | None => Raise
  end.

(** [load_json] *)
Definition load_json (path : str) (default : json) (w : World) : res json :=
  try_except (c ← open_read path w; json_loads c) (Ret default).

(** [save_json]: the file-system operations it issues, in order. *)
Definition save_json_ops (path : str) (data : json) : list fs_op :=
  let tmp := path ++ Py.lit ".tmp" in
  [OpOpenTrunc tmp] ++ map (OpAppend tmp) (json_dumps data)
  ++ [OpReplace tmp path].

Definition save_json (path : str) (data : json) (w : World) : World :=
  emit_all (map EvFs (save_json_ops path data)) w.

(** [ensure_dirs] *)
Definition ensure_file (pd : str * json) (w : World) : World :=
  match fs w !! pd.1 with
  | Some _ => w
  | None =>
      emit_all (map EvFs ([OpOpenTrunc pd.1]
                          ++ map (OpAppend pd.1) (json_dumps pd.2))) w
  end.

Definition ensure_dirs (w : World) : World :=
  let w := emit (EvFs (OpMakedirs CONFIG_DIR)) w in
  let w := emit (EvFs (OpMakedirs CACHE_DIR)) w in
  fold_left (fun w pd => ensure_file pd w)
    [(FAV_FILE, JDict ∅); (STATE_FILE, STATE_DEFAULT); (VOL_FILE, JDict ∅)] w.

(** The three loads of [Player.__init__] and [station_browser]. *)
Definition load_favorites (w : World) : res json := load_json FAV_FILE (JDict ∅) w.
Definition load_volumes (w : World) : res json := load_json VOL_FILE (JDict ∅) w.
Definition load_state (w : World) : res json := load_json STATE_FILE STATE_DEFAULT w.

(** [state.get("last_stationuuid")] on a loaded value; [Raise] when the
    value is no dict. *)
Definition dict_get (key : str) (v : json) : res json :=
  match v with
  | JDict d => Ret (default JNull (d !! key))
  | _ => Raise
  end.

(** [autostart_last] *)
Definition autostart_last (w : World) : res json :=
  state ← load_json STATE_FILE (JDict (<[Py.lit "last_stationuuid" := JNull]> ∅)) w;
  dict_get (Py.lit "last_stationuuid") state.

End Store.

(** A file system stopped after the first [k] of a call's operations: what
    a concurrent reader, or a reader after a crash, can find. *)
Definition run_ops (ops : list fs_op) (f : gmap (list N) (list N)) : gmap (list N) (list N) :=
  fold_left (fun f o => apply_op o f) ops f.

(** [os.path.dirname]: everything before the last slash. *)
Fixpoint drop_to_slash (r : str) : str :=
  match r with
  | c :: r' => if (c =? 47)%N then r' else drop_to_slash r'
  | [] => []
  end.
Definition dirname (p : str) : str := rev (drop_to_slash (rev p)).

(** ** The playback engine *)

(** The tags [media.get_meta] returns. *)
Record Meta := mkMeta {
  artist : option str;
  title : option str;
  now_playing : option str;
  description : option str
}.

(** libvlc's media player is outside the repository.  This stand-in keeps
    the state the program can observe; while [faulty] every call raises,
    which is what the source's [try]/[except] wrappers guard against. *)
Module Engine.

Record t := mk {
  media : option str;      (* the loaded URL *)
  meta : Meta;             (* what the stream announces *)
  playing : bool;
  volume : Z;              (* [audio_get_volume]; libvlc reports -1 without audio output *)
  muted : bool;
  faulty : bool
}.

Definition guard {A} (e : t) (a : A) : res A :=
  if faulty e then Raise else Ret a.

Definition stop (e : t) : res t :=
  guard e (mk (media e) (meta e) false (volume e) (muted e) (faulty e)).
Definition is_playing (e : t) : res bool := guard e (playing e).
Definition audio_get_volume (e : t) : res Z := guard e (volume e).
Definition audio_set_volume (v : Z) (e : t) : res t :=
  guard e (mk (media e) (meta e) (playing e) v (muted e) (faulty e)).
Definition audio_toggle_mute (e : t) : res t :=
  guard e (mk (media e) (meta e) (playing e) (volume e) (negb (muted e)) (faulty e)).
(** [media_new(url)] then [set_media(media)] *)
Definition set_media (url : str) (e : t) : res t :=
  guard e (mk (Some url) (meta e) (playing e) (volume e) (muted e) (faulty e)).
Definition play (e : t) : res t :=
  guard e (mk (media e) (meta e) true (volume e) (muted e) (faulty e)).
Definition get_media (e : t) : res (option str) := guard e (media e).
Definition get_meta (e : t) : res Meta := guard e (meta e).

(** The stream announces new tags. *)
Definition announce (m : Meta) (e : t) : t :=
  mk (media e) m (playing e) (volume e) (muted e) (faulty e).

End Engine.

Module Station.
(** A station of the search result; [None] is an absent or null field. *)
Record t := mk {
  name : option str;
  stationuuid : option str;
  url_resolved : option str;
  country : option str
}.
End Station.

(** ** class Player *)

(** The line the metadata loop resolves from the tags of the current media. *)
Definition resolve_now (m : Meta) : str :=
  let artist := Py.or_else (artist m) [] in
  let title := Py.or_else (title m) [] in
  if Py.truthy artist && Py.truthy title then
    artist ++ Py.lit " " ++ [Py.em_dash] ++ Py.lit " " ++ title
  else if Py.truthy title then title
  else
    let np := Py.or_else (now_playing m) [] in
    let desc := Py.or_else (description m) [] in
    if Py.truthy np then np
    else if Py.truthy desc then desc
    else Py.lit "Stream (no metadata)".

Module Player.

Record t := mk {
  player : Engine.t;
  now : NowPlaying.t;                (* shared with the main loop *)
  volumes : gmap (list N) Z;         (* stationuuid -> 0..100 *)
  state : gmap (list N) json;
  _stop_flag : bool
}.

Definition with_player (e : Engine.t) (self : t) : t :=
  mk e (now self) (volumes self) (state self) (_stop_flag self).
Definition with_now (n : NowPlaying.t) (self : t) : t :=
  mk (player self) n (volumes self) (state self) (_stop_flag self).
Definition with_volumes (v : gmap (list N) Z) (self : t) : t :=
  mk (player self) (now self) v (state self) (_stop_flag self).
Definition with_state (s : gmap (list N) json) (self : t) : t :=
  mk (player self) (now self) (volumes self) s (_stop_flag self).
Definition with_stop_flag (b : bool) (self : t) : t :=
  mk (player self) (now self) (volumes self) (state self) b.

(** [try: self.player.f(...) / except Exception: pass] *)
Definition guarded (c : engine_call) (f : Engine.t -> res Engine.t)
    (self : t) (w : World) : t * World :=
  (match f (player self) with
   | Ret e => with_player e self
   | Raise => self
   end, emit (EvEngine c) w).

Definition stop (self : t) (w : World) : t * World :=
  guarded CallStop Engine.stop self w.

Definition is_playing (self : t) : bool :=
  match Engine.is_playing (player self) with Ret b => b | Raise => false end.

Definition get_volume (self : t) : Z :=
  match Engine.audio_get_volume (player self) with Ret v => v | Raise => 0 end.

Definition set_volume (vol : Z) (self : t) (w : World) : t * World :=
  let vol := clamp vol 0 100 in
  guarded (CallSetVolume vol) (Engine.audio_set_volume vol) self w.

Definition toggle_mute (self : t) (w : World) : t * World :=
  guarded CallToggleMute Engine.audio_toggle_mute self w.

Section WithJson.

Variable json_dumps : json -> list str.

Definition save_station_volume (uuid : option str) (self : t) (w : World)
    : t * World :=
  match uuid with
  | Some u =>
      if Py.truthy u then
        let self := with_volumes (<[u := get_volume self]> (volumes self)) self in
        (self, save_json json_dumps VOL_FILE (JDict (JInt <$> volumes self)) w)
      else (self, w)
  | None => (self, w)
  end.

(** The volume branch of [play_station]. *)
Definition apply_station_volume (uuid : option str) (self : t) (w : World)
    : t * World :=
  match (if Py.truthy_opt uuid then volumes self !! default [] uuid else None) with
  | Some v => set_volume v self w
  | None =>
      if get_volume self <=? 0 then set_volume 70 self w else (self, w)
  end.

(** [play_station] *)
Definition play_station (station : Station.t) (self : t) (w : World)
    : res bool * t * World :=
  let url := Station.url_resolved station in
  if negb (Py.truthy_opt url) then (Ret false, self, w)
  else
    let url := default [] url in
    let name := Some (default (Py.lit "Unknown") (Station.name station)) in
    let stationuuid := Station.stationuuid station in
    let '(self, w) := stop self w in
    let '(n, w) := NowPlaying.set_station name stationuuid (now self) w in
    let self := with_now n self in
    let w := emit (EvEngine (CallLoad url)) w in
    match Engine.set_media url (player self) with
    | Raise => (Raise, self, w)
    | Ret e =>
        let self := with_player e self in
        let w := emit (EvEngine CallPlay) w in
        match Engine.play (player self) with
        | Raise => (Raise, self, w)
        | Ret e =>
            let self := with_player e self in
            let '(self, w) := apply_station_volume stationuuid self w in
            let self :=
              with_state (<[Py.lit "last_stationuuid" := json_of_opt_str stationuuid]>
                          (state self)) self in
            let w := save_json json_dumps STATE_FILE (JDict (state self)) w in
            (Ret true, self, w)
        end
    end.

End WithJson.

(** [shutdown], statement by statement. *)
Definition shutdown_set_flag (self : t) : t := with_stop_flag true self.
Definition shutdown (self : t) (w : World) : t * World :=
  stop (shutdown_set_flag self) w.

(** The [try] block of [_meta_loop] up to the resolved line: [Ret None]
    when no media is loaded, [Raise] when an engine call fails. *)
Definition meta_poll (self : t) : res (option str) :=
  m ← Engine.get_media (player self);
  match m with
  | Some _ => tags ← Engine.get_meta (player self); mret (Some (resolve_now tags))
  | None => mret None
  end.

(** [self.now.update_line(now)] *)
Definition meta_update (line : str) (self : t) (w : World) : t * World :=
  let '(n, w) := NowPlaying.update_line (Some line) (now self) w in
  (with_now n self, w).

(** One iteration's body of [_meta_loop] (without the sleep). *)
Definition meta_tick (self : t) (w : World) : t * World :=
  match meta_poll self with
  | Ret (Some line) => meta_update line self w
  | Ret None | Raise => (self, w)
  end.

End Player.

(** ** The metadata thread and the main thread, interleaved *)

(** Where the metadata thread is in [_meta_loop]. *)
Inductive poller_pc :=
| PCheck                 (* at [while not self._stop_flag] *)
| PPoll                  (* in the loop body, before the engine is asked *)
| PUpdate (line : str)   (* before [self.now.update_line(now)] *)
| PSleep                 (* in [time.sleep(1.5)] *)
| PDone.                 (* the loop has ended; the thread is over *)

(** Where the main thread is in [player.shutdown()]. *)
Inductive main_pc :=
| MRunning               (* [shutdown] not called yet *)
| MFlagSet               (* [_stop_flag] stored; before [self.stop()] *)
| MReturned.             (* [shutdown] has returned *)

Record Sys := mkSys {
  sys_player : Player.t;
  sys_world : World;
  sys_poller : poller_pc;
  sys_main : main_pc
}.

(** Who moves next. *)
Inductive actor :=
| Poller
| Main
| Stream (m : Meta).      (* the stream announces new tags *)

Definition poller_step (s : Sys) : Sys :=
  let p := sys_player s in
  let w := sys_world s in
  match sys_poller s with
  | PCheck =>
      mkSys p w (if Player._stop_flag p then PDone else PPoll) (sys_main s)
  | PPoll =>
      mkSys p w (match Player.meta_poll p with
                 | Ret (Some line) => PUpdate line
                 | Ret None | Raise => PSleep
                 end) (sys_main s)
  | PUpdate line =>
      let '(p, w) := Player.meta_update line p w in
      mkSys p w PSleep (sys_main s)
  | PSleep => mkSys p w PCheck (sys_main s)
  | PDone => s
  end.

Definition main_step (s : Sys) : Sys :=
  match sys_main s with
  | MRunning =>
      mkSys (Player.shutdown_set_flag (sys_player s)) (sys_world s)
            (sys_poller s) MFlagSet
  | MFlagSet =>
      let '(p, w) := Player.stop (sys_player s) (sys_world s) in
      mkSys p w (sys_poller s) MReturned
  | MReturned => s
  end.

Definition step (a : actor) (s : Sys) : Sys :=
  match a with
  | Poller => poller_step s
  | Main => main_step s
  | Stream m =>
      mkSys (Player.with_player (Engine.announce m (Player.player (sys_player s)))
                                (sys_player s))
            (sys_world s) (sys_poller s) (sys_main s)
  end.

Definition run (sched : list actor) (s : Sys) : Sys :=
  fold_left (fun s a => step a s) sched s.

(** The state [Player.__init__] leaves: flag clear, thread started. *)
Definition sys_start (p : Player.t) (w : World) : Sys :=
  mkSys (Player.with_stop_flag false p) w PCheck MRunning.

(** How many [update_line] calls the metadata thread makes along a
    schedule. *)
Fixpoint poller_updates (sched : list actor) (s : Sys) : nat :=
  match sched with
  | [] => 0
  | a :: sched' =>
      (match a, sys_poller s with
       | Poller, PUpdate _ => 1
       | _, _ => 0
       end + poller_updates sched' (step a s))%nat
  end.

(** How many moves of the metadata thread a schedule holds. *)
Definition is_poller (a : actor) : bool :=
  match a with Poller => true | _ => false end.
Definition poller_moves (sched : list actor) : nat :=
  length (List.filter is_poller sched).

(** ** Python floats *)

(** A [float] is an IEEE 754 binary64 value. *)
Module PyFloat.

Definition prec : Z := 53.
Definition emax : Z := 1024.

(** [float(z)], exact for [|z| <= 2^53]. *)
Definition of_Z (z : Z) : spec_float := binary_normalize prec emax z 0 false.

Definition mul : spec_float -> spec_float -> spec_float := SFmul prec emax.
Definition add : spec_float -> spec_float -> spec_float := SFadd prec emax.
Definition div : spec_float -> spec_float -> spec_float := SFdiv prec emax.

(** [a / b] on integers with [|a|, |b| <= 2^53] and [b] not zero. *)
Definition truediv (a b : Z) : spec_float := div (of_Z a) (of_Z b).

(** [int(x)]: truncation toward zero; raises on infinities and NaN. *)
Definition to_int (x : spec_float) : res Z :=
  match x with
  | S754_zero _ => Ret 0
  | S754_finite s m e =>
      let a := if 0 <=? e then Z.pos m * 2 ^ e else Z.pos m / 2 ^ (- e) in
      Ret (if s then - a else a)
  | S754_infinity _ | S754_nan => Raise
  end.

Definition ltb : spec_float -> spec_float -> bool := SFltb.

(** [min(a, b)] and [max(a, b)] of the builtins, on two floats. *)
Definition min (a b : spec_float) : spec_float := if ltb b a then b else a.
Definition max (a b : spec_float) : spec_float := if ltb a b then b else a.

(** [max(vols)] on a non-empty list. *)
Definition max_list (x : spec_float) (xs : list spec_float) : spec_float :=
  fold_left max xs x.

(** [clamp(v, 0.0, 1.0)] *)
Definition clamp01 (v : spec_float) : spec_float :=
  max (of_Z 0) (min (of_Z 1) v).

(** The literals [0.6] and [0.4]. *)
Definition c06 : spec_float := truediv 6 10.
Definition c04 : spec_float := truediv 4 10.

End PyFloat.

(** ** class PulseVU and the VU line of [station_browser] *)

(** [target.volume]: with a [values] list, or only [value_flat]. *)
Inductive PulseVolume :=
| VolValues (values : list spec_float)
| VolFlat (value_flat : spec_float).

(** A sink input as [sink_input_list] reports it. *)
Record SinkInput := mkSinkInput {
  application_name : option str;             (* proplist "application.name" *)
  application_process_binary : option str;   (* proplist "application.process.binary" *)
  sink_volume : PulseVolume
}.

(** [needle in hay] *)
Fixpoint starts_with (needle hay : str) : bool :=
  match needle, hay with
  | [], _ => true
  | a :: needle', b :: hay' => (a =? b)%N && starts_with needle' hay'
  | _ :: _, [] => false
  end.

Fixpoint contains (needle hay : str) : bool :=
  starts_with needle hay
  || match hay with
     | [] => false
     | _ :: hay' => contains needle hay'
     end.

Module PulseVU.

Record t := mk {
  ok : bool;
  _last_level : Z
}.

Section WithLower.

(** [str.lower], from the interpreter's Unicode tables. *)
Variable lower : str -> str.

(** The test of the sink-input loop. *)
Definition is_vlc (si : SinkInput) : bool :=
  let app := lower (Py.or_else (application_name si) []) in
  let binname := lower (Py.or_else (application_process_binary si) []) in
  contains (Py.lit "vlc") app || contains (Py.lit "vlc") binname
  || contains (Py.lit "libvlc") app.

(** The [try] block of [level] once a target is found. *)
Definition smoothed (last : Z) (target : SinkInput) : res Z :=
  let vols := match sink_volume target with
              | VolValues values => values
              | VolFlat value_flat => [value_flat]
              end in
  let v := match vols with
           | x :: xs => PyFloat.max_list x xs
           | [] => PyFloat.of_Z 0
           end in
  let v := PyFloat.clamp01 v in
  lvl ← PyFloat.to_int (PyFloat.mul v (PyFloat.of_Z 30));
  PyFloat.to_int (PyFloat.add (PyFloat.mul (PyFloat.of_Z last) PyFloat.c06)
                              (PyFloat.mul (PyFloat.of_Z lvl) PyFloat.c04)).

(** [level]; [inputs] is what [self._pulse.sink_input_list()] gives
    ([Raise] when the call fails). *)
Definition level (self : t) (inputs : res (list SinkInput)) : option Z * t :=
  if negb (ok self) then (None, self)
  else
    match (l ← inputs;
           match List.find is_vlc l with
           | None => mret None
           | Some target => new ← smoothed (_last_level self) target; mret (Some new)
           end) with
    | Ret (Some new) => (Some new, mk (ok self) new)
    | Ret None | Raise => (None, self)
    end.

End WithLower.

End PulseVU.

(** [vu_width = min(30, max(10, w - 20))] for a terminal [w] columns wide. *)
Definition vu_width (w : Z) : Z := Py.min 30 (Py.max 10 (w - 20)).

(** [int((player.get_volume() / 100) * vu_width)] *)
Definition vu_base (p : Player.t) (width : Z) : res Z :=
  PyFloat.to_int (PyFloat.mul (PyFloat.truediv (Player.get_volume p) 100)
                              (PyFloat.of_Z width)).

(** The level [station_browser] draws, given what [vu.level()] returned. *)
Definition vu_level (w : Z) (probe : option Z) (p : Player.t) : res Z :=
  let width := vu_width w in
  lvl ← match probe with
        | Some l => mret l
        | None => base ← vu_base p width; mret (if Player.is_playing p then base else 0)
        end;
  mret (clamp lvl 0 width).

(** One frame's VU computation: the probe, then the level. *)
Definition vu_frame (lower : str -> str) (w : Z) (vu : PulseVU.t)
    (inputs : res (list SinkInput)) (p : Player.t) : res Z * PulseVU.t :=
  let '(probe, vu) := PulseVU.level lower vu inputs in
  (vu_level w probe p, vu).

(** ** Trace predicates and statements in the spec's words *)

(** Some file, subprocess or engine operation happens between an acquire
    and the matching release. *)
Fixpoint io_under_lock_from (held : bool) (l : list event) : bool :=
  match l with
  | [] => false
  | EvAcquire :: l' => io_under_lock_from true l'
  | EvRelease :: l' => io_under_lock_from false l'
  | (EvFs _ | EvRun _ | EvEngine _ | EvWhich _) :: l' => held || io_under_lock_from held l'
  end.
Definition io_under_lock (l : list event) : bool := io_under_lock_from false l.

(** The spec's [updateLine]: the head is [history[0]]. *)
Definition spec_updateLine (text : str) (self : NowPlaying.t) : NowPlaying.t :=
  let l := Py.strip text in
  if negb (Py.truthy l) || bool_decide (head (NowPlaying.history self) = Some l)
  then self
  else NowPlaying.mk (NowPlaying.station_name self) (NowPlaying.stationuuid self)
         l (take 200 (l :: NowPlaying.history self)) (NowPlaying.max_history self).

(** The spec's extraction precedence: the first non-empty candidate, else
    the placeholder. *)
Fixpoint first_non_empty (candidates : list str) (placeholder : str) : str :=
  match candidates with
  | c :: cs => if Py.truthy c then c else first_non_empty cs placeholder
  | [] => placeholder
  end.

Definition spec_candidates (m : Meta) : list str :=
  let a := default [] (artist m) in
  let t := default [] (title m) in
  [ (if Py.truthy a && Py.truthy t
     then a ++ Py.lit " " ++ [Py.em_dash] ++ Py.lit " " ++ t else []);
    t;
    default [] (now_playing m);
    default [] (description m) ].

(** A file-free, quiet world with one engine for the examples. *)
Definition meta0 : Meta := mkMeta None None None None.
Definition engine0 : Engine.t := Engine.mk None meta0 false 0 false false.
Definition player0 : Player.t := Player.mk engine0 NowPlaying.init ∅ ∅ false.
Definition station_abc : Station.t :=
  Station.mk (Some (Py.lit "Radio X")) (Some (Py.lit "abc")) (Some (Py.lit "http://x")) None.

(** No two neighbours of a list are equal. *)
Definition adjacent_distinct (h : list (list N)) : Prop :=
  ∀ i a b, h !! i = Some a → h !! S i = Some b → a ≠ b.

(** What every reachable [NowPlaying] satisfies. *)
Record history_inv (self : NowPlaying.t) : Prop := {
  inv_max : NowPlaying.max_history self = 200%nat;
  inv_len : (length (NowPlaying.history self) ≤ 200)%nat;
  inv_adj : adjacent_distinct (NowPlaying.history self);
  inv_head : NowPlaying.history self ≠ [] →
             NowPlaying.history self !! 0%nat = Some (NowPlaying.line self)
}.

(** A file that is missing, or whose text [json.load] rejects. *)
Definition unreadable (json_loads : str -> res json) (w : World) (path : str) : Prop :=
  fs w !! path = None ∨ ∃ c, fs w !! path = Some c ∧ json_loads c = Raise.

(** A stand-in for [json.load] that accepts the text [{}] alone. *)
Definition loads_empty_dict (c : str) : res json :=
  if bool_decide (c = Py.lit "{}") then Ret (JDict ∅) else Raise.

(** A stand-in for [json.dump] that writes the value's kind in one chunk. *)
Definition dumps_kind (v : json) : list str :=
  [match v with
   | JNull => Py.lit "null"
   | JBool _ => Py.lit "bool"
   | JInt _ | JFloat _ => Py.lit "number"
   | JStr _ => Py.lit "string"
   | JList _ => Py.lit "list"
   | JDict _ => Py.lit "dict"
   end].

(** The engine calls of a log, in order. *)
Definition engine_calls (l : list event) : list engine_call :=
  omap (λ e, match e with EvEngine c => Some c | _ => None end) l.

(** How many moves the metadata thread still makes at most once the stop
    flag is set, and how many [update_line] calls among them. *)
Definition moves_left (pc : poller_pc) : nat :=
  match pc with
  | PDone => 0
  | PCheck => 1
  | PSleep => 2
  | PUpdate _ => 3
  | PPoll => 4
  end.

Definition updates_left (pc : poller_pc) : nat :=
  match pc with
  | PPoll | PUpdate _ => 1
  | PCheck | PSleep | PDone => 0
  end.

(** The spec's fallback level, [round((volume / 100) * width)]: the integer
    nearest to [volume * width / 100], halves up. *)
Definition spec_fallback_level (volume width : Z) : Z :=
  (2 * volume * width + 100) / 200.

(** The float computation of [vu_base] against exact integer division, at
    one volume and one width. *)
Definition vu_base_exact_at (v wd : Z) : bool :=
  match PyFloat.to_int (PyFloat.mul (PyFloat.truediv v 100) (PyFloat.of_Z wd)) with
  | Ret z => z =? v * wd / 100
  | Raise => false
  end.

(** ** Runs of now-playing operations *)

(** A call on the shared [NowPlaying]. *)
Inductive np_op :=
| NpUpdate (text : option str)
| NpSetStation (name uuid : option str).

Definition np_apply (o : np_op) (st : NowPlaying.t * World) : NowPlaying.t * World :=
  match o with
  | NpUpdate text => NowPlaying.update_line text st.1 st.2
  | NpSetStation name uuid => NowPlaying.set_station name uuid st.1 st.2
  end.

Definition np_run (ops : list np_op) (st : NowPlaying.t * World) : NowPlaying.t * World :=
  fold_left (λ st o, np_apply o st) ops st.

(** The texts of the [update_line] calls of a run. *)
Definition updates_of (ops : list np_op) : list (option str) :=
  omap (λ o, match o with NpUpdate text => Some text | NpSetStation _ _ => None end) ops.

(** The now-playing file holds the line of the current state, or nothing
    when the encoder rejected that line. *)
Definition nowplay_text (self : NowPlaying.t) (e : Env) : str :=
  let text := NowPlaying.out self ++ [10%N] in
  if encodes e text then text else [].

Definition nowplay_synced (self : NowPlaying.t) (w : World) : Prop :=
  fs w !! NOWPLAY_FILE = Some (nowplay_text self (env w)).

(** The argument vectors of the subprocess calls of a log, in order. *)
Definition run_calls (l : list event) : list (list str) :=
  omap (λ e, match e with EvRun argv => Some argv | _ => None end) l.

(** The file-system operations of a log, in order. *)
Definition fs_ops (l : list event) : list fs_op :=
  omap (λ e, match e with EvFs o => Some o | _ => None end) l.

(** A stand-in for [json.load] given by a table of texts. *)
Definition loads_table (tbl : list (str * json)) (c : str) : res json :=
  match List.find (λ e : str * json, bool_decide (e.1 = c)) tbl with
  | Some e => Ret e.2
  | None => Raise
  end.

(** A printer and a parser that tell the empty map from other maps, for
    the examples of a first run. *)
Definition dumps_shape (v : json) : list str :=
  match v with
  | JDict d => if bool_decide (d = ∅) then [Py.lit "{"; Py.lit "}"] else [Py.lit "dict"]
  | _ => [Py.lit "other"]
  end.

Definition loads_shape (c : str) : res json :=
  loads_table [(Py.lit "{}", JDict ∅); (Py.lit "dict", STATE_DEFAULT)] c.

(** The largest channel volume of a sink input, as [level] reads it
    ([0.0] without channels). *)
Definition sink_raw (target : SinkInput) : spec_float :=
  match match sink_volume target with
        | VolValues values => values
        | VolFlat value_flat => [value_flat]
        end with
  | x :: xs => PyFloat.max_list x xs
  | [] => PyFloat.of_Z 0
  end.

(** The smoothing step of [level]: [int(last * 0.6 + lvl * 0.4)]. *)
Definition smooth (last lvl : Z) : res Z :=
  PyFloat.to_int (PyFloat.add (PyFloat.mul (PyFloat.of_Z last) PyFloat.c06)
                              (PyFloat.mul (PyFloat.of_Z lvl) PyFloat.c04)).

(** The readings of successive [level] calls; [polls] holds what
    [sink_input_list] gives at each call. *)
Fixpoint level_run (lower : str -> str) (vu : PulseVU.t)
    (polls : list (res (list SinkInput))) : list (option Z) :=
  match polls with
  | [] => []
  | inputs :: polls' =>
      (PulseVU.level lower vu inputs).1
      :: level_run lower (PulseVU.level lower vu inputs).2 polls'
  end.

(** A poll whose first VLC sink input has a channel at 1.0 or above. *)
Definition full_volume_poll (lower : str -> str) (inputs : res (list SinkInput)) : Prop :=
  ∃ l target, inputs = Ret l
    ∧ List.find (PulseVU.is_vlc lower) l = Some target
    ∧ PyFloat.ltb (sink_raw target) (PyFloat.of_Z 1) = false.

(** A VLC sink input at full volume, for the examples. *)
Definition sink_vlc_full : SinkInput :=
  mkSinkInput (Some (Py.lit "vlc")) None (VolValues [PyFloat.of_Z 1; PyFloat.of_Z 1]).

(** ** The station browser: state and keys *)

(** [len(l)] and [l[i]] ([IndexError] out of range; a negative index counts
    from the end). *)
Definition py_len {A} (l : list A) : Z := Z.of_nat (length l).

Definition py_index {A} (l : list A) (i : Z) : res A :=
  let j := if i <? 0 then i + py_len l else i in
  if (0 <=? j) && (j <? py_len l)
  then match l !! Z.to_nat j with Some x => Ret x | None => Raise end
  else Raise.

(** The index and element of the first hit of a [for i, x in enumerate(l)]
    search that breaks on [f x]. *)
Fixpoint first_hit {A} (f : A -> bool) (l : list A) (i : Z) : option (Z * A) :=
  match l with
  | [] => None
  | x :: l' => if f x then Some (i, x) else first_hit f l' (i + 1)
  end.

(** Key codes of the [curses] module, and [ord] of the keys the browser
    tests. *)
Definition KEY_DOWN : Z := 258.
Definition KEY_UP : Z := 259.
Definition KEY_NPAGE : Z := 338.
Definition KEY_PPAGE : Z := 339.

Definition key_in (key : Z) (ks : list Z) : bool := existsb (Z.eqb key) ks.

(** [key in range(ord("1"), ord("9") + 1)] *)
Definition is_slot_key (key : Z) : bool := (49 <=? key) && (key <? 57 + 1).

(** [chr(key)] *)
Definition chr (key : Z) : str := [Z.to_N key].

(** Truth value of a JSON value. *)
Definition json_truthy (v : json) : bool :=
  match v with
  | JNull => false
  | JBool b => b
  | JInt z => negb (z =? 0)
  | JFloat f => match f with S754_zero _ => false | _ => true end
  | JStr s => Py.truthy s
  | JList l => match l with [] => false | _ => true end
  | JDict d => negb (bool_decide (d = ∅))
  end.

(** [st.get("stationuuid") == v] for a JSON value [v]. *)
Definition uuid_is (v : json) (st : Station.t) : bool :=
  match Station.stationuuid st, v with
  | Some u, JStr s => bool_decide (u = s)
  | None, JNull => true
  | _, _ => false
  end.

(** [l[a:b]] and [l[:b]] with Python's treatment of negative and
    out-of-range bounds. *)
Definition py_bound (len i : Z) : Z :=
  if i <? 0 then Z.max 0 (i + len) else Z.min i len.

Definition py_slice {A} (l : list A) (a b : Z) : list A :=
  take (Z.to_nat (py_bound (py_len l) b - py_bound (py_len l) a))
       (drop (Z.to_nat (py_bound (py_len l) a)) l).

Definition py_slice_to {A} (l : list A) (b : Z) : list A := py_slice l 0 b.

(** [int(v)] for a JSON value; [int_of_str] is the builtin on a [str].
    [None], lists and dicts raise [TypeError], infinities and NaN raise. *)
Definition py_int (int_of_str : str -> res Z) (v : json) : res Z :=
  match v with
  | JInt z => Ret z
  | JBool b => Ret (if b then 1 else 0)
  | JFloat f => PyFloat.to_int f
  | JStr s => int_of_str s
  | JNull | JList _ | JDict _ => Raise
  end.

(** [su in v] for a [str] [su]: a key of a dict, an element of a list, a
    substring of a string; the other JSON values are not iterable. *)
Definition json_in (su : str) (v : json) : res bool :=
  match v with
  | JDict d => Ret (bool_decide (is_Some (d !! su)))
  | JList l => Ret (existsb (λ x, match x with JStr s => Py.eqb s su | _ => false end) l)
  | JStr s => Ret (contains su s)
  | JNull | JBool _ | JInt _ | JFloat _ => Raise
  end.

(** [v[su]] for a [str] [su]: only a dict is indexed by a string. *)
Definition json_getitem (su : str) (v : json) : res json :=
  match v with
  | JDict d => match d !! su with Some x => Ret x | None => Raise end
  | _ => Raise
  end.

(** Every value of the volumes map is one [int] accepts. *)
Definition volumes_numeric (int_of_str : str -> res Z) (v : json) : Prop :=
  ∃ d, v = JDict d ∧ ∀ k x, d !! k = Some x → ∃ n, py_int int_of_str x = Ret n.

(** The fallback of the VU line returns at one volume and one width. *)
Definition vu_base_returns_at (v wd : Z) : bool :=
  match PyFloat.to_int (PyFloat.mul (PyFloat.truediv v 100) (PyFloat.of_Z wd)) with
  | Ret _ => true
  | Raise => false
  end.

(** ** The terminal *)

(** What one pass of the browser's loop gets from outside; curses and
    PulseAudio are not part of the repository. *)
Record Term := mkTerm {
  addstr_ok : Z -> Z -> str -> bool;   (* [addstr(y, x, s)] is accepted; if not it raises [curses.error] *)
  maxyx : Z * Z;                        (* [getmaxyx()]: rows, columns *)
  getch : Z;                            (* the key [getch()] returns *)
  getch_goto : Z;                       (* the key it returns after [g] *)
  sink_inputs : res (list SinkInput)    (* [sink_input_list()] *)
}.

Definition BANNER : list str :=
  [ ([9608; 9608; 9608; 9608; 9608; 9608; 9559; 32; 32; 9608; 9608; 9608;
    9608; 9608; 9559; 32; 9608; 9608; 9608; 9608; 9608; 9608; 9559; 32;
    9608; 9608; 9559; 32; 9608; 9608; 9608; 9608; 9608; 9608; 9559; 32]%N);
    ([9608; 9608; 9556; 9552; 9552; 9608; 9608; 9559; 9608; 9608; 9556; 9552;
    9552; 9608; 9608; 9559; 9608; 9608; 9556; 9552; 9552; 9608; 9608; 9559;
    9608; 9608; 9553; 9608; 9608; 9556; 9552; 9552; 9552; 9552; 9565; 32]%N);
    ([9608; 9608; 9608; 9608; 9608; 9608; 9556; 9565; 9608; 9608; 9608; 9608;
    9608; 9608; 9608; 9553; 9608; 9608; 9553; 32; 32; 9608; 9608; 9553;
    9608; 9608; 9553; 9608; 9608; 9553; 32; 32; 9608; 9608; 9608; 9559]%N);
    ([9608; 9608; 9556; 9552; 9552; 9608; 9608; 9559; 9608; 9608; 9556; 9552;
    9552; 9608; 9608; 9553; 9608; 9608; 9553; 32; 32; 9608; 9608; 9553;
    9608; 9608; 9553; 9608; 9608; 9553; 32; 32; 32; 9608; 9608; 9553]%N);
    ([9608; 9608; 9553; 32; 32; 9608; 9608; 9553; 9608; 9608; 9553; 32; 32;
    9608; 9608; 9553; 9608; 9608; 9608; 9608; 9608; 9608; 9556; 9565; 9608;
    9608; 9553; 9562; 9608; 9608; 9608; 9608; 9608; 9608; 9556; 9565]%N);
    ([9562; 9552; 9565; 32; 32; 9562; 9552; 9565; 9562; 9552; 9565; 32; 32;
    9562; 9552; 9565; 9562; 9552; 9552; 9552; 9552; 9552; 9565; 32; 9562;
    9552; 9565; 32; 9562; 9552; 9552; 9552; 9552; 9552; 9565; 32]%N);
    Py.lit "        R A D I O   D I G G E R      " ].

(** [draw_banner]: one [addstr] per line, at row [i] and column 2, none of
    them guarded. *)
Fixpoint addstr_lines (t : Term) (i : Z) (lines : list str) : res unit :=
  match lines with
  | [] => Ret tt
  | line :: lines' =>
      if addstr_ok t i 2 line then addstr_lines t (i + 1) lines' else Raise
  end.

Definition draw_banner (t : Term) : res unit := addstr_lines t 0 BANNER.

(** A terminal of [h] rows and [w] columns of single-width cells that does
    not scroll: a text is accepted when it starts inside the window and
    ends before the last cell.  No sink inputs are reported. *)
Definition screen (h w key k2 : Z) : Term :=
  mkTerm (λ y x s, (0 <=? y) && (y <? h) && (0 <=? x) && (x <? w)
                   && (y * w + x + py_len s <? h * w))
         (h, w) key k2 (Ret []).

Module Browser.

(** The locals of [station_browser] that outlive a frame. *)
Record t := mk {
  selected : Z;
  offset : Z;
  show_history : bool;
  hist_sel : Z;
  hist_scroll : Z;
  favs : gmap (list N) (list N);     (* slot "1".."9" -> stationuuid *)
  volumes : json;                    (* what [load_json(VOL_FILE, {})] gave *)
  state : gmap (list N) json
}.

(** How a frame ends: the loop goes on, [return], or [SystemExit]. *)
Inductive outcome := Continue | Back | Quit.

(** [list_h] of a frame on a terminal [h] rows high ([len(BANNER)] is 7). *)
Definition list_h (h : Z) (show : bool) : Z :=
  let top := 7 + 1 in
  let history_h := if show then 10 else 0 in
  Py.max 5 (h - top - 6 - history_h).

(** The clamping of the history selection while a frame is drawn. *)
Definition render_clamp (h : Z) (n_hist : Z) (b : t) : t :=
  if show_history b then
    let box_h := Py.min 10 (h - 2) in
    mk (selected b) (offset b) (show_history b)
       (clamp (hist_sel b) 0 (Py.max 0 (n_hist - 1)))
       (clamp (hist_scroll b) 0 (Py.max 0 (n_hist - (box_h - 2))))
       (favs b) (volumes b) (state b)
  else b.

Definition with_nav (sel off : Z) (b : t) : t :=
  mk sel off (show_history b) (hist_sel b) (hist_scroll b) (favs b) (volumes b) (state b).

Definition with_hist (sel scroll : Z) (b : t) : t :=
  mk (selected b) (offset b) (show_history b) sel scroll (favs b) (volumes b) (state b).

Section WithJson.

Variable json_loads : str -> res json.
Variable json_dumps : json -> list str.

(** The volume keys: [set_volume(get_volume() + d)], then the selected
    station's volume is saved and the volumes file read again. *)
Definition volume_key (d : Z) (stations : list Station.t) (b : t)
    (p : Player.t) (w : World) : res (outcome * t * Player.t * World) :=
  let '(p, w) := Player.set_volume (Player.get_volume p + d) p w in
  st ← py_index stations (selected b);
  let '(p, w) := Player.save_station_volume json_dumps (Station.stationuuid st) p w in
  vols ← load_json json_loads VOL_FILE (JDict ∅) w;
  mret (Continue,
        mk (selected b) (offset b) (show_history b) (hist_sel b) (hist_scroll b)
           (favs b) vols (state b), p, w).

(** The search of the goto-favorite branch. *)
Definition goto (target : str) (stations : list Station.t) (b : t) : t :=
  match first_hit (λ st, bool_decide (Station.stationuuid st = Some target)) stations 0 with
  | Some (i, _) => with_nav i (Py.max 0 (i - 3)) b
  | None => b
  end.

(** The [if]/[elif] chain on the key of a frame; [k2] is the key read after
    [g], [n_hist] the length of the frame's history snapshot. *)
Definition on_key (lh n_hist : Z) (key k2 : Z) (stations : list Station.t)
    (b : t) (p : Player.t) (w : World) : res (outcome * t * Player.t * World) :=
  if (key =? KEY_UP) && (0 <? selected b) then
    let sel := selected b - 1 in
    mret (Continue, with_nav sel (if sel <? offset b then offset b - 1 else offset b) b, p, w)
  else if (key =? KEY_DOWN) && (selected b <? py_len stations - 1) then
    let sel := selected b + 1 in
    mret (Continue, with_nav sel (if offset b + lh <=? sel then offset b + 1 else offset b) b, p, w)
  else if key_in key [10; 13] then
    st ← py_index stations (selected b);
    match Player.play_station json_dumps st p w with
    | (Ret _, p, w) => mret (Continue, b, p, w)
    | (Raise, _, _) => Raise
    end
  else if key_in key [115; 83] then           (* s S *)
    let '(p, w) := Player.stop p w in mret (Continue, b, p, w)
  else if key_in key [109; 77] then           (* m M *)
    let '(p, w) := Player.toggle_mute p w in mret (Continue, b, p, w)
  else if key_in key [43; 61] then            (* + = *)
    volume_key 5 stations b p w
  else if key_in key [45; 95] then            (* - _ *)
    volume_key (-5) stations b p w
  else if key_in key [104; 72] then           (* h H *)
    let show := negb (show_history b) in
    let st := <[Py.lit "show_history" := JBool show]> (state b) in
    mret (Continue,
          mk (selected b) (offset b) show (hist_sel b) (hist_scroll b)
             (favs b) (volumes b) st,
          p, save_json json_dumps STATE_FILE (JDict st) w)
  else if show_history b && (key =? KEY_PPAGE) then
    mret (Continue,
          with_hist (clamp (hist_sel b + 5) 0 (Py.max 0 (n_hist - 1)))
                    (clamp (hist_scroll b + 5) 0 (Py.max 0 (n_hist - 1))) b, p, w)
  else if show_history b && (key =? KEY_NPAGE) then
    mret (Continue,
          with_hist (clamp (hist_sel b - 5) 0 (Py.max 0 (n_hist - 1)))
                    (clamp (hist_scroll b - 5) 0 (Py.max 0 (n_hist - 1))) b, p, w)
  else if is_slot_key key then
    st ← py_index stations (selected b);
    match Station.stationuuid st with
    | Some su =>
        if Py.truthy su then
          let fv := <[chr key := su]> (favs b) in
          mret (Continue,
                mk (selected b) (offset b) (show_history b) (hist_sel b)
                   (hist_scroll b) fv (volumes b) (state b),
                p, save_json json_dumps FAV_FILE (JDict (JStr <$> fv)) w)
        else mret (Continue, b, p, w)
    | None => mret (Continue, b, p, w)
    end
  else if key_in key [103; 71] then           (* g G *)
    if is_slot_key k2 then
      match favs b !! chr k2 with
      | Some target =>
          if Py.truthy target then mret (Continue, goto target stations b, p, w)
          else mret (Continue, b, p, w)
      | None => mret (Continue, b, p, w)
      end
    else mret (Continue, b, p, w)
  else if key_in key [98; 66] then            (* b B *)
    let '(p, w) := Player.stop p w in mret (Back, b, p, w)
  else if key_in key [113; 81] then           (* q Q *)
    mret (Quit, b, p, w)
  else mret (Continue, b, p, w).

(** The autostart of [main]: the first station of the result with the
    uuid played last is played. *)
Definition autostart (last : json) (stations : list Station.t)
    (p : Player.t) (w : World) : res (Player.t * World) :=
  if json_truthy last then
    match List.find (uuid_is last) stations with
    | Some st =>
        match Player.play_station json_dumps st p w with
        | (Ret _, p, w) => mret (p, w)
        | (Raise, _, _) => Raise
        end
    | None => mret (p, w)
    end
  else mret (p, w).

End WithJson.

Section Frame.

Variable json_loads : str -> res json.
Variable json_dumps : json -> list str.
Variable lower : str -> str.
Variable int_of_str : str -> res Z.

(** The volume mark of a station row:
    [if su and su in volumes: volmark = f" (vol {int(volumes[su])}%)"]. *)
Definition volmark (vols : json) (st : Station.t) : res (option Z) :=
  match Station.stationuuid st with
  | Some su =>
      if Py.truthy su then
        found ← json_in su vols;
        if found : bool then
          v ← json_getitem su vols;
          n ← py_int int_of_str v;
          mret (Some n)
        else mret None
      else mret None
  | None => mret None
  end.

(** The loop over the rows of [stations[offset:offset + list_h]]; the
    [addstr] of a row is guarded, its volume mark is not. *)
Fixpoint draw_rows (vols : json) (view : list Station.t) : res unit :=
  match view with
  | [] => Ret tt
  | st :: view' => _ ← volmark vols st; draw_rows vols view'
  end.

(** One pass of the [while True] loop.  The screen is not part of the
    state, and every [addstr] but the banner's is guarded, so of the
    drawing the pass keeps what can raise or change state: the banner, the
    volume marks of the rows, the snapshot, the VU reading and its level,
    and the clamping of the history selection; then the key.  [clear],
    [getmaxyx], [refresh] and [getch] are taken to return. *)
Definition frame (t : Term) (stations : list Station.t)
    (b : Browser.t) (vu : PulseVU.t) (p : Player.t) (w : World)
    : res (outcome * Browser.t * PulseVU.t * Player.t * World) :=
  _ ← draw_banner t;
  let '(h, wd) := maxyx t in
  let lh := list_h h (show_history b) in
  _ ← draw_rows (volumes b) (py_slice stations (offset b) (offset b + lh));
  let '((_, _, history), w) := NowPlaying.snapshot (Player.now p) w in
  let '(lvl, vu) := vu_frame lower wd vu (sink_inputs t) p in
  _ ← lvl;
  let b := render_clamp h (py_len history) b in
  r ← on_key json_loads json_dumps lh (py_len history) (getch t) (getch_goto t)
             stations b p w;
  let '(o, b, p, w) := r in
  mret (o, b, vu, p, w).

End Frame.

(** The selection is a valid index and the window starts at a valid row. *)
Definition nav_ok (stations : list Station.t) (b : t) : Prop :=
  0 ≤ selected b < py_len stations ∧ 0 ≤ offset b.

(** The selected station is among the rows drawn: [stations[offset:offset + lh]]. *)
Definition visible (lh : Z) (b : t) : Prop :=
  offset b ≤ selected b < offset b + lh.

End Browser.

(** [station_browser]: the state at entry, and the loop over the frames;
    a frame is given by what the terminal and PulseAudio answer during
    it. *)
Definition browser_start (favs : gmap (list N) (list N)) (volumes : json)
    (state : gmap (list N) json) : Browser.t :=
  Browser.mk 0 0
    (match state !! Py.lit "show_history" with
     | Some v => json_truthy v
     | None => true
     end) 0 0 favs volumes state.

Fixpoint station_browser (json_loads : str -> res json) (json_dumps : json -> list str)
    (lower : str -> str) (int_of_str : str -> res Z)
    (frames : list Term) (stations : list Station.t)
    (b : Browser.t) (vu : PulseVU.t) (p : Player.t) (w : World)
    : res (Browser.outcome * Browser.t * PulseVU.t * Player.t * World) :=
  match frames with
  | [] => Ret (Browser.Continue, b, vu, p, w)
  | t :: frames' =>
      match Browser.frame json_loads json_dumps lower int_of_str t stations b vu p w with
      | Ret (Browser.Continue, b, vu, p, w) =>
          station_browser json_loads json_dumps lower int_of_str frames' stations b vu p w
      | r => r
      end
  end.

(** What a pass of the loop needs in order to return, and keeps. *)
Record frame_ok (int_of_str : str -> res Z) (stations : list Station.t)
    (b : Browser.t) (p : Player.t) : Prop := {
  ok_nav : Browser.nav_ok stations b;
  ok_engine : Engine.faulty (Player.player p) = false;
  ok_volume : -100 ≤ Engine.volume (Player.player p) ≤ 100;
  ok_volumes : volumes_numeric int_of_str (Browser.volumes b)
}.

(** ** Drawing: the status bar and the history box *)

(** [s.ljust(width)] and [c * n]. *)
Definition ljust (width : Z) (s : str) : str :=
  s ++ replicate (Z.to_nat (width - py_len s)) 32%N.

Definition py_repeat (c : N) (n : Z) : str := replicate (Z.to_nat n) c.

(** One [addstr] call: row, column, text, and whether the attribute has
    [A_REVERSE] or [A_BOLD]. *)
Record draw := mkDraw {
  d_y : Z;
  d_x : Z;
  d_text : str;
  d_reverse : bool;
  d_bold : bool
}.

(** [status_bar]: the [addstr] it attempts on a terminal of [h] rows and
    [w] columns, if any. *)
Definition status_bar (h w : Z) (text : str) : option draw :=
  if (h <? 1) || (w <? 2) then None
  else
    let line := py_slice_to text (Py.max 0 (w - 1)) in
    Some (mkDraw (h - 1) 0 (ljust (w - 1) line) true false).

(** [range(a, b)] *)
Definition py_range (a b : Z) : list Z :=
  map (λ i, a + Z.of_nat i) (seq 0 (Z.to_nat (b - a))).

(** The rows of [enumerate(view)] in [draw_history_box]. *)
Fixpoint history_rows (view : list str) (i : Z) (selected box_y box_w scroll : Z)
    : list draw :=
  match view with
  | [] => []
  | line :: view' =>
      mkDraw (box_y + 1 + i) 4 (ljust (box_w - 4) (py_slice_to line (box_w - 4)))
             (scroll + i =? selected) false
      :: history_rows view' (i + 1) selected box_y box_w scroll
  end.

(** [draw_history_box]: the [addstr] calls it attempts, in order. *)
Definition draw_history_box (history : list str)
    (selected box_y box_h box_w scroll : Z) : list draw :=
  [mkDraw box_y 2 ([9484%N] ++ py_repeat 9472 (box_w - 2) ++ [9488%N]) false false]
  ++ map (λ i, mkDraw (box_y + i) 2
                 ([9474%N] ++ py_repeat 32 (box_w - 2) ++ [9474%N]) false false)
         (py_range 1 (box_h - 1))
  ++ [mkDraw (box_y + box_h - 1) 2
        ([9492%N] ++ py_repeat 9472 (box_w - 2) ++ [9496%N]) false false;
      mkDraw box_y 4 (Py.lit "Metadata History") false true]
  ++ history_rows (py_slice history scroll (scroll + (box_h - 2))) 0
       selected box_y box_w scroll.

(** * Properties *)

(** ** Now-playing history *)

Section History.

Implicit Types (self : NowPlaying.t) (h : list (list N)).

Lemma adjacent_distinct_take n h :
  adjacent_distinct h → adjacent_distinct (take n h).
Proof.
  intros Hh i a b Ha Hb.
  apply lookup_take_Some in Ha as [Ha _], Hb as [Hb _]. eauto.
Qed.

Lemma adjacent_distinct_cons a h :
  (∀ b, h !! 0%nat = Some b → a ≠ b) →
  adjacent_distinct h → adjacent_distinct (a :: h).
Proof.
  intros Hhd Hh [|i] x y Hx Hy; simpl in *.
  - injection Hx as <-. eauto.
  - eauto.
Qed.

Lemma history_inv_init : history_inv NowPlaying.init.
Proof.
  split; simpl; [done | lia | | done].
  intros i a b Ha; by destruct i.
Qed.

Lemma update_line_inv text self w :
  history_inv self → history_inv (NowPlaying.update_line text self w).1.
Proof.
  intros [Hmax Hlen Hadj Hhead]. unfold NowPlaying.update_line.
  destruct (Py.truthy _) eqn:Hl; simpl; [|done].
  unfold Py.eqb. case_bool_decide as Heq; simpl; [done|].
  split; simpl.
  - done.
  - rewrite Hmax, length_take. lia.
  - rewrite Hmax. apply (adjacent_distinct_take 200).
    apply adjacent_distinct_cons; [|done].
    intros b Hb. rewrite Hhead in Hb; [congruence|].
    intros E. by rewrite E in Hb.
  - rewrite Hmax. done.
Qed.

Lemma update_lines_inv texts st :
  history_inv st.1 → history_inv (update_lines texts st).1.
Proof.
  revert st. induction texts as [|text texts IH]; intros st Hst; [done|].
  simpl. apply IH. by apply update_line_inv.
Qed.

End History.

(** C1: after any run of [update_line] calls on a fresh [NowPlaying], the
    history holds at most 200 entries, no two neighbouring entries are equal,
    and the current line is the newest entry whenever the history is not
    empty. *)
Theorem C1_history_bounded_deduplicated (texts : list (option (list N))) (w : World) :
  let self := (update_lines texts (NowPlaying.init, w)).1 in
  (length (NowPlaying.history self) ≤ 200)%nat
  ∧ (∀ i a b, NowPlaying.history self !! i = Some a →
              NowPlaying.history self !! S i = Some b → a ≠ b)
  ∧ (NowPlaying.history self ≠ [] →
     NowPlaying.history self !! 0%nat = Some (NowPlaying.line self)).
Proof.
  destruct (update_lines_inv texts (NowPlaying.init, w) history_inv_init)
    as [_ Hlen Hadj Hhead].
  auto.
Qed.

Lemma truthy_false (l : list N) : Py.truthy l = false ↔ l = [].
Proof. by destruct l. Qed.

Lemma update_line_noop text self w :
  let l := Py.strip (Py.or_else text []) in
  l = [] ∨ l = NowPlaying.line self →
  (NowPlaying.update_line text self w).1 = self
  ∧ fs (NowPlaying.update_line text self w).2 = fs w.
Proof.
  intros l Hl. unfold NowPlaying.update_line. fold l.
  destruct (Py.truthy l) eqn:Ht; simpl; [|done].
  destruct Hl as [-> | Hl]; [done|].
  unfold Py.eqb. by rewrite bool_decide_eq_true_2.
Qed.

Lemma update_line_change text self w :
  let l := Py.strip (Py.or_else text []) in
  l ≠ [] → l ≠ NowPlaying.line self →
  (NowPlaying.update_line text self w).1
  = NowPlaying.mk (NowPlaying.station_name self) (NowPlaying.stationuuid self)
      l (take (NowPlaying.max_history self) (l :: NowPlaying.history self))
      (NowPlaying.max_history self).
Proof.
  intros l Hne Hline. unfold NowPlaying.update_line. fold l.
  destruct (Py.truthy l) eqn:Ht; simpl.
  - unfold Py.eqb. by rewrite bool_decide_eq_false_2.
  - by apply truthy_false in Ht.
Qed.

Lemma or_else_nil (text : list N) : Py.or_else (Some text) [] = text.
Proof. by destruct text. Qed.

Lemma update_line_spec_nonempty (text : list N) self w :
  history_inv self → NowPlaying.history self ≠ [] →
  (NowPlaying.update_line (Some text) self w).1 = spec_updateLine text self.
Proof.
  intros [Hmax _ _ Hhead] Hne. specialize (Hhead Hne).
  unfold spec_updateLine.
  destruct (decide (Py.strip text = [] ∨ Py.strip text = NowPlaying.line self))
    as [Hl|Hl].
  - pose proof (update_line_noop (Some text) self w) as Hn.
    rewrite or_else_nil in Hn. destruct (Hn Hl) as [-> _].
    destruct Hl as [-> | Hl]; [done|].
    rewrite head_lookup, Hhead, Hl, bool_decide_eq_true_2 by done.
    by rewrite orb_true_r.
  - pose proof (update_line_change (Some text) self w) as Hc.
    rewrite or_else_nil in Hc. rewrite Hc, Hmax by tauto.
    destruct (Py.truthy _) eqn:Ht; [|apply truthy_false in Ht; tauto].
    rewrite head_lookup, Hhead, bool_decide_eq_false_2; [done|].
    intros E. apply Hl. right. congruence.
Qed.

(** C2, as the code has it: [update_line] leaves the state and the files
    alone exactly when the stripped text is empty or equals the current
    line, which is the placeholder while the history is empty and
    [history[0]] afterwards; otherwise the stripped text becomes the current
    line and the new first entry of the history, cut to 200 entries.  Two
    calls with the same text on a fresh state leave one entry, and the
    placeholder itself is dropped on a fresh state. *)
Theorem C2_update_line_cases :
  (∀ (text : option (list N)) (self : NowPlaying.t) (w : World),
     NowPlaying.max_history self = 200%nat →
     let l := Py.strip (Py.or_else text []) in
     let r := NowPlaying.update_line text self w in
     (l = [] ∨ l = NowPlaying.line self → r.1 = self ∧ fs r.2 = fs w)
     ∧ (l ≠ [] → l ≠ NowPlaying.line self →
        r.1 ≠ self
        ∧ r.1 = NowPlaying.mk (NowPlaying.station_name self)
                  (NowPlaying.stationuuid self) l
                  (take 200 (l :: NowPlaying.history self)) 200))
  ∧ (∀ (texts : list (option (list N))) (text : list N) (w w' : World),
       let self := (update_lines texts (NowPlaying.init, w)).1 in
       NowPlaying.history self ≠ [] →
       (NowPlaying.update_line (Some text) self w').1 = spec_updateLine text self)
  ∧ NowPlaying.history
      (update_lines [Some A_dash_B; Some A_dash_B] (NowPlaying.init, world0)).1
    = [A_dash_B]
  ∧ NowPlaying.update_line (Some [Py.em_dash]) NowPlaying.init world0
    = (NowPlaying.init, mkWorld ∅ false [EvAcquire; EvRelease]).
Proof.
  split; [|split; [|split; vm_compute; reflexivity]].
  - intros text self w Hmax l r. split.
    + apply update_line_noop.
    + intros Hne Hline. subst r.
      rewrite (update_line_change text self w Hne Hline), Hmax.
      split; [|done].
      intros E. apply Hline. by rewrite <- E.
  - intros texts text w w' self Hne.
    apply update_line_spec_nonempty; [|done].
    apply (update_lines_inv texts (NowPlaying.init, w)), history_inv_init.
Qed.

(** C2 as stated fails where the history is empty and the text is the
    placeholder: the spec's head is [history[0]], so its "otherwise" branch
    would record the placeholder, while the code compares with the current
    line and drops it. *)
Lemma C2_placeholder_is_dropped :
  NowPlaying.history (NowPlaying.update_line (Some [Py.em_dash]) NowPlaying.init world0).1 = []
  ∧ NowPlaying.history (spec_updateLine [Py.em_dash] NowPlaying.init) = [[Py.em_dash]]
  ∧ (NowPlaying.update_line (Some [Py.em_dash]) NowPlaying.init world0).1
    ≠ spec_updateLine [Py.em_dash] NowPlaying.init.
Proof.
  split; [|split]; [vm_compute; reflexivity ..|].
  intros E. apply (f_equal NowPlaying.history) in E. vm_compute in E. discriminate.
Qed.

(** ** Effects of the now-playing operations *)

Lemma log_emit_all es w : log (emit_all es w) = log w ++ es.
Proof.
  revert w. induction es as [|e es IH]; intros w; simpl.
  - by rewrite app_nil_r.
  - rewrite IH. simpl. by rewrite <- app_assoc.
Qed.

Lemma fs_emit_all_fs ops w :
  fs (emit_all (map EvFs ops) w) = run_ops ops (fs w).
Proof. revert w. induction ops as [|o ops IH]; intros w; simpl; [done|by rewrite IH]. Qed.

(** C5, as the code has it: [snapshot] holds the lock without any file,
    subprocess or engine operation, and so does [update_line] when the
    stripped text is the current line; with an empty stripped text
    [update_line] returns without taking the lock.  [set_station] always,
    and [update_line] exactly when it changes the line, write the
    now-playing file while the lock is held: between acquiring and
    releasing it they create the cache directory, open and truncate the
    file, write the text unless the encoder rejects it, and, when [TMUX] is
    set, search PATH for tmux and run it if it is found. *)
Theorem C5_lock_sections (self : NowPlaying.t) (f : gmap (list N) (list N))
    (e : Env) (name uuid text : option (list N)) :
  let w := {| fs := f; env := e; log := [] |} in
  let l := Py.strip (Py.or_else text []) in
  let write (s : NowPlaying.t) :=
    [EvFs (OpMakedirs CACHE_DIR); EvFs (OpOpenTrunc NOWPLAY_FILE)]
    ++ (if encodes e (NowPlaying.out s ++ [10%N])
        then [EvFs (OpAppend NOWPLAY_FILE (NowPlaying.out s ++ [10%N]))]
        else [])
    ++ (if env_tmux e
        then EvWhich (Py.lit "tmux")
             :: (if which_tmux e
                 then [EvRun [Py.lit "tmux"; Py.lit "set"; Py.lit "-gq";
                              Py.lit "@radiodigger_now_playing";
                              Py.prefix 200 (NowPlaying.out s)]]
                 else [])
        else []) in
  (NowPlaying.snapshot self w).2
  = {| fs := f; env := e; log := [EvAcquire; EvRelease] |}
  ∧ io_under_lock (log (NowPlaying.snapshot self w).2) = false
  ∧ log (NowPlaying.set_station name uuid self w).2
    = [EvAcquire] ++ write (NowPlaying.set_station name uuid self w).1 ++ [EvRelease]
  ∧ io_under_lock (log (NowPlaying.set_station name uuid self w).2) = true
  ∧ (l = [] → NowPlaying.update_line text self w = (self, w))
  ∧ (l ≠ [] → l = NowPlaying.line self →
     NowPlaying.update_line text self w
     = (self, {| fs := f; env := e; log := [EvAcquire; EvRelease] |}))
  ∧ (l ≠ [] → l ≠ NowPlaying.line self →
     log (NowPlaying.update_line text self w).2
     = [EvAcquire] ++ write (NowPlaying.update_line text self w).1 ++ [EvRelease])
  ∧ io_under_lock (log (NowPlaying.update_line text self w).2)
    = negb (bool_decide (l = [] ∨ l = NowPlaying.line self)).
Proof.
  intros w l write.
  assert (∀ s, NowPlaying.write_nowplay_events s e = write s) as Hwrite by done.
  assert (∀ s, io_under_lock ([EvAcquire] ++ write s ++ [EvRelease]) = true) as Hio by done.
  assert (∀ s, log (emit EvRelease (NowPlaying._write_nowplay s (emit EvAcquire w)))
               = [EvAcquire] ++ write s ++ [EvRelease]) as Hlog.
  { intros s. unfold NowPlaying._write_nowplay.
    cbn [log emit env]. rewrite log_emit_all. cbn [log emit env].
    by rewrite Hwrite. }
  split; [done|]. split; [done|].
  split; [apply Hlog|]. split.
  { unfold NowPlaying.set_station. cbn [snd]. rewrite Hlog. apply Hio. }
  unfold NowPlaying.update_line. fold l.
  destruct (Py.truthy l) eqn:Ht; cbn [negb].
  - assert (l ≠ []) as Hne by (intros E; by rewrite E in Ht).
    unfold Py.eqb. case_bool_decide as Heq; cbn [negb].
    + split; [done|]. split; [done|]. split; [done|].
      by rewrite bool_decide_eq_true_2 by auto.
    + split; [done|]. split; [done|]. split; [intros _ _; apply Hlog|].
      rewrite bool_decide_eq_false_2 by tauto.
      cbn [snd]. rewrite Hlog. apply Hio.
  - apply truthy_false in Ht.
    split; [done|]. split; [done|]. split; [done|].
    by rewrite bool_decide_eq_true_2 by auto.
Qed.

(** C5 as stated fails: the first [update_line] of the program, with
    ["Ready"], creates the cache directory and writes the now-playing file
    between acquiring and releasing the lock. *)
Lemma C5_file_write_under_lock :
  let w' := (NowPlaying.update_line (Some (Py.lit "Ready")) NowPlaying.init world0).2 in
  log w'
  = [EvAcquire;
     EvFs (OpMakedirs CACHE_DIR);
     EvFs (OpOpenTrunc NOWPLAY_FILE);
     EvFs (OpAppend NOWPLAY_FILE
             ([Py.em_dash] ++ Py.lit " :: Ready" ++ [10%N]));
     EvRelease]
  ∧ io_under_lock (log w') = true.
Proof. split; vm_compute; reflexivity. Qed.

(** ** The session store *)

Section StoreProps.

Variable json_dumps : json → list (list N).

Lemma tmp_ne_path (path : list N) : path ++ Py.lit ".tmp" ≠ path.
Proof.
  intros E. apply (f_equal length) in E. rewrite length_app in E.
  simpl in E. lia.
Qed.

Lemma run_ops_app a b f : run_ops (a ++ b) f = run_ops b (run_ops a f).
Proof. apply fold_left_app. Qed.

(** Operations on the temporary file leave every other path alone. *)
Lemma run_ops_other tmp path ops f :
  Forall (λ o, o = OpOpenTrunc tmp ∨ ∃ c, o = OpAppend tmp c) ops →
  tmp ≠ path → run_ops ops f !! path = f !! path.
Proof.
  intros Hops Hne. revert f.
  induction Hops as [|o ops [-> | [c ->]] _ IH]; intros f; simpl; [done| |];
    rewrite IH; simpl; by rewrite lookup_insert_ne.
Qed.

Lemma run_ops_appends tmp chunks f c0 :
  f !! tmp = Some c0 →
  run_ops (map (OpAppend tmp) chunks) f !! tmp = Some (c0 ++ concat chunks).
Proof.
  revert f c0. induction chunks as [|c chunks IH]; intros f c0 Hf; simpl.
  - by rewrite app_nil_r.
  - rewrite (IH _ (c0 ++ c)).
    + by rewrite <- app_assoc.
    + rewrite Hf. simpl. by rewrite lookup_insert_eq.
Qed.

Lemma save_json_prefix path data f k :
  (k < length (save_json_ops json_dumps path data))%nat →
  run_ops (take k (save_json_ops json_dumps path data)) f !! path = f !! path.
Proof.
  unfold save_json_ops. intros Hk.
  rewrite app_assoc, length_app in Hk. simpl in Hk.
  rewrite app_assoc, take_app_le by (simpl; lia).
  apply (run_ops_other (path ++ Py.lit ".tmp")); [|apply tmp_ne_path].
  apply Forall_take, Forall_app. split.
  - repeat constructor.
  - apply Forall_forall. intros o Ho.
    apply list_elem_of_fmap in Ho as [c [-> _]]. eauto.
Qed.

Lemma save_json_complete path data f :
  run_ops (save_json_ops json_dumps path data) f !! path
  = Some (concat (json_dumps data)).
Proof.
  unfold save_json_ops. rewrite app_assoc, run_ops_app. simpl.
  pose proof (run_ops_appends (path ++ Py.lit ".tmp") (json_dumps data)
                (<[path ++ Py.lit ".tmp" := []]> f) [] (lookup_insert_eq _ _ _)) as Ht.
  simpl in Ht. rewrite Ht. by rewrite lookup_insert_eq.
Qed.

Lemma fs_save_json path data w :
  fs (save_json json_dumps path data w) !! path = Some (concat (json_dumps data)).
Proof. unfold save_json. rewrite fs_emit_all_fs. apply save_json_complete. Qed.

Lemma fs_emit_makedirs d w : fs (emit (EvFs (OpMakedirs d)) w) = fs w.
Proof. done. Qed.

Lemma ensure_file_same pd w :
  fs (ensure_file json_dumps pd w) !! pd.1
  = Some (default (concat (json_dumps pd.2)) (fs w !! pd.1)).
Proof.
  unfold ensure_file. destruct (fs w !! pd.1) as [c|] eqn:Hc; [done|].
  rewrite fs_emit_all_fs, run_ops_app.
  rewrite (run_ops_appends pd.1 (json_dumps pd.2) _ []); [done|].
  simpl. by rewrite lookup_insert_eq.
Qed.

Lemma ensure_file_other pd w path :
  pd.1 ≠ path → fs (ensure_file json_dumps pd w) !! path = fs w !! path.
Proof.
  intros Hne. unfold ensure_file. destruct (fs w !! pd.1); [done|].
  rewrite fs_emit_all_fs. apply (run_ops_other pd.1); [|done].
  apply Forall_app. split; [repeat constructor|].
  apply Forall_forall. intros o Ho.
  apply list_elem_of_fmap in Ho as [c [-> _]]. eauto.
Qed.

(** [ensure_dirs] keeps a file that exists and writes the default into one
    that does not. *)
Lemma ensure_dirs_files w :
  let w' := ensure_dirs json_dumps w in
  fs w' !! FAV_FILE
  = Some (default (concat (json_dumps (JDict ∅))) (fs w !! FAV_FILE))
  ∧ fs w' !! STATE_FILE
    = Some (default (concat (json_dumps STATE_DEFAULT)) (fs w !! STATE_FILE))
  ∧ fs w' !! VOL_FILE
    = Some (default (concat (json_dumps (JDict ∅))) (fs w !! VOL_FILE)).
Proof.
  assert (FAV_FILE ≠ STATE_FILE) as H1 by (intros E; vm_compute in E; discriminate).
  assert (FAV_FILE ≠ VOL_FILE) as H2 by (intros E; vm_compute in E; discriminate).
  assert (STATE_FILE ≠ VOL_FILE) as H3 by (intros E; vm_compute in E; discriminate).
  unfold ensure_dirs. simpl fold_left.
  set (w0 := emit _ (emit _ w)).
  assert (fs w0 = fs w) as Hw0 by done.
  split; [|split].
  - rewrite !ensure_file_other by (simpl; congruence).
    rewrite (ensure_file_same (FAV_FILE, JDict ∅)). simpl. by rewrite ?Hw0.
  - rewrite ensure_file_other by (simpl; congruence).
    rewrite (ensure_file_same (STATE_FILE, STATE_DEFAULT)). simpl.
    rewrite ensure_file_other by (simpl; congruence). by rewrite ?Hw0.
  - rewrite (ensure_file_same (VOL_FILE, JDict ∅)). simpl.
    rewrite !ensure_file_other by (simpl; congruence). by rewrite ?Hw0.
Qed.

End StoreProps.

(** C6: [save_json] writes the serialized data to [path + ".tmp"], a file of
    the same directory, and renames it over the target as its last
    operation; stopped after any number [k] of its operations, the target
    holds what it held before when an operation is still to come, and the
    whole serialized data when none is. *)
Theorem C6_save_json_atomic (json_dumps : json → list (list N))
    (path : list N) (data : json) (w : World) (k : nat) :
  let ops := save_json_ops json_dumps path data in
  let seen := run_ops (take k ops) (fs w) in
  dirname (path ++ Py.lit ".tmp") = dirname path
  ∧ (∃ writes, ops = writes ++ [OpReplace (path ++ Py.lit ".tmp") path]
       ∧ Forall (λ o, o = OpOpenTrunc (path ++ Py.lit ".tmp")
                      ∨ ∃ c, o = OpAppend (path ++ Py.lit ".tmp") c) writes)
  ∧ fs (save_json json_dumps path data w) = run_ops ops (fs w)
  ∧ ((k < length ops)%nat → seen !! path = fs w !! path)
  ∧ ((length ops ≤ k)%nat → seen !! path = Some (concat (json_dumps data))).
Proof.
  intros ops seen. repeat split.
  - unfold dirname. rewrite rev_app_distr. reflexivity.
  - exists ([OpOpenTrunc (path ++ Py.lit ".tmp")]
            ++ map (OpAppend (path ++ Py.lit ".tmp")) (json_dumps data)).
    split; [by rewrite <- app_assoc|].
    apply Forall_app. split; [repeat constructor|].
    apply Forall_forall. intros o Ho.
    apply list_elem_of_fmap in Ho as [c [-> _]]. eauto.
  - apply fs_emit_all_fs.
  - apply save_json_prefix.
  - intros Hk. subst seen. rewrite take_ge by done. apply save_json_complete.
Qed.

Lemma load_json_unreadable json_loads w path default :
  unreadable json_loads w path → load_json json_loads path default w = Ret default.
Proof.
  unfold load_json, open_read. intros [-> | [c [-> Hc]]]; simpl; [done|].
  by rewrite Hc.
Qed.

Lemma autostart_last_unreadable json_loads w :
  unreadable json_loads w STATE_FILE → autostart_last json_loads w = Ret JNull.
Proof.
  intros H. unfold autostart_last. rewrite load_json_unreadable by done.
  reflexivity.
Qed.

(** C7: [load_json] never raises; for a file that is missing or does not
    parse it returns the default it was given, which is the empty map for
    the favorites and the volumes file and
    [{"last_stationuuid": null, "show_history": true}] for the state file;
    a file that parses is returned as parsed. *)
Theorem C7_load_json_never_raises (json_loads : list N → res json) (w : World) :
  (∀ path default, ∃ v, load_json json_loads path default w = Ret v)
  ∧ (∀ path default, unreadable json_loads w path →
       load_json json_loads path default w = Ret default)
  ∧ (∀ path default c v, fs w !! path = Some c → json_loads c = Ret v →
       load_json json_loads path default w = Ret v)
  ∧ (unreadable json_loads w FAV_FILE → load_favorites json_loads w = Ret (JDict ∅))
  ∧ (unreadable json_loads w VOL_FILE → load_volumes json_loads w = Ret (JDict ∅))
  ∧ (unreadable json_loads w STATE_FILE →
       load_state json_loads w
       = Ret (JDict (<[Py.lit "last_stationuuid" := JNull]>
                     (<[Py.lit "show_history" := JBool true]> ∅))))
  ∧ (unreadable json_loads w STATE_FILE →
       autostart_last json_loads w
       = dict_get (Py.lit "last_stationuuid") STATE_DEFAULT).
Proof.
  repeat split; [| | | | | |apply autostart_last_unreadable].
  - intros path default. unfold load_json, open_read.
    destruct (fs w !! path) as [c|]; simpl; [|eauto].
    destruct (json_loads c); simpl; eauto.
  - intros path default. apply load_json_unreadable.
  - intros path default c v Hc Hv. unfold load_json, open_read.
    rewrite Hc. simpl. by rewrite Hv.
  - apply load_json_unreadable.
  - apply load_json_unreadable.
  - apply load_json_unreadable.
Qed.

(** A corrupt favorites file, and a missing state file seen by
    [autostart_last]. *)
Example corrupt_favorites_load :
  load_favorites loads_empty_dict (mkWorld {[FAV_FILE := Py.lit "{oops"]} false [])
  = Ret (JDict ∅).
Proof. vm_compute. reflexivity. Qed.

(** ** The metadata loop *)

Lemma resolve_now_first_non_empty (m : Meta) :
  resolve_now m
  = first_non_empty (spec_candidates m) (Py.lit "Stream (no metadata)").
Proof.
  destruct m as [[[|a0 a]|] [[|t0 t]|] [[|n0 n]|] [[|d0 d]|]]; reflexivity.
Qed.

(** C8: with a media loaded and the engine answering, one iteration of the
    metadata loop resolves the line as the first non-empty of: artist, an em
    dash and title (when both are present), the title, the now-playing tag,
    the description tag; else the placeholder ["Stream (no metadata)"]; and
    hands exactly that string to [update_line]. *)
Theorem C8_metadata_precedence (p : Player.t) (w : World) (url : list N) :
  Engine.faulty (Player.player p) = false →
  Engine.media (Player.player p) = Some url →
  let m := Engine.meta (Player.player p) in
  let r := NowPlaying.update_line (Some (resolve_now m)) (Player.now p) w in
  resolve_now m
  = first_non_empty (spec_candidates m) (Py.lit "Stream (no metadata)")
  ∧ Player.meta_tick p w = (Player.with_now r.1 p, r.2).
Proof.
  intros Hok Hmedia m r. split; [apply resolve_now_first_non_empty|].
  unfold Player.meta_tick, Player.meta_poll, Engine.get_media, Engine.get_meta,
    Engine.guard, Player.meta_update.
  rewrite Hok, Hmedia. simpl. fold m. subst r.
  by destruct (NowPlaying.update_line _ _ _).
Qed.

Lemma C8_metadata_precedence_witness :
  let p := Player.with_player
             (Engine.mk (Some (Py.lit "http://x"))
                (mkMeta (Some (Py.lit "A")) (Some (Py.lit "B")) None None)
                true 50 false false) player0 in
  resolve_now (Engine.meta (Player.player p)) = A_dash_B
  ∧ NowPlaying.history (Player.now (Player.meta_tick p world0).1) = [A_dash_B].
Proof.
  intros p.
  destruct (C8_metadata_precedence p world0 (Py.lit "http://x") eq_refl eq_refl)
    as [H1 H2].
  split.
  - rewrite H1. vm_compute. reflexivity.
  - rewrite H2. vm_compute. reflexivity.
Defined.

(** ** Playing a station *)

(** C10: for a station without a resolved URL (absent, null or empty),
    [play_station] returns [False] and leaves the player, the now-playing
    state, the engine, the files and the effect log as they were. *)
Theorem C10_play_station_without_url (json_dumps : json → list (list N))
    (station : Station.t) (p : Player.t) (w : World) :
  Py.truthy_opt (Station.url_resolved station) = false →
  Player.play_station json_dumps station p w = (Ret false, p, w).
Proof. intros H. unfold Player.play_station. by rewrite H. Qed.

Lemma C10_play_station_without_url_witness :
  Player.play_station dumps_kind
    (Station.mk (Some (Py.lit "Radio X")) (Some (Py.lit "abc")) (Some []) None)
    player0 world0
  = (Ret false, player0, world0).
Proof. apply C10_play_station_without_url. reflexivity. Defined.

Section PlayStation.

Variable json_dumps : json → list (list N).

Lemma play_station_ok (station : Station.t) (p : Player.t) (w : World) (url : list N) :
  Station.stationuuid station = Some (Py.lit "abc") →
  Station.url_resolved station = Some url → url ≠ [] →
  Engine.faulty (Player.player p) = false →
  let out := Player.play_station json_dumps station p w in
  out.1.1 = Ret true
  ∧ Player.state out.1.2 !! Py.lit "last_stationuuid" = Some (JStr (Py.lit "abc"))
  ∧ fs out.2 !! STATE_FILE = Some (concat (json_dumps (JDict (Player.state out.1.2))))
  ∧ Player.get_volume out.1.2
    = match Player.volumes p !! Py.lit "abc" with
      | Some v => clamp v 0 100
      | None => if Engine.volume (Player.player p) <=? 0 then 70
                else Engine.volume (Player.player p)
      end.
Proof.
  intros Huuid Hurl Hne Hok.
  destruct p as [[media meta playing vol muted faulty] now vols st flag].
  simpl in Hok. subst faulty.
  unfold Player.play_station. rewrite Hurl, Huuid.
  destruct url as [|c url]; [done|].
  Local Opaque emit save_json NowPlaying.set_station clamp.
  simpl.
  destruct (NowPlaying.set_station _ _ _ _) as [n w0].
  unfold Player.apply_station_volume, Player.with_player, Player.with_now. simpl.
  unfold Player.get_volume, Player.set_volume, Player.guarded,
    Player.with_state, Player.with_player. simpl.
  destruct (vols !! Py.lit "abc") as [v|] eqn:Hv; simpl.
  - by rewrite lookup_insert_eq, fs_save_json.
  - destruct (vol <=? 0) eqn:Hvol; simpl.
    + by rewrite lookup_insert_eq, fs_save_json.
    + by rewrite lookup_insert_eq, fs_save_json.
  Local Transparent emit save_json NowPlaying.set_station clamp.
Qed.

End PlayStation.

(** C3, as the code has it: for a station with uuid ["abc"] and a non-empty
    resolved URL, on an engine that answers, [play_station] returns [True],
    stores ["abc"] as [last_stationuuid] and saves the state file; the volume
    afterwards is the persisted volume of ["abc"] clamped to 0..100 when there
    is one, else 70 when the engine reported a volume of 0 or below, else the
    engine's volume unchanged.  With no persisted volume and engine volume 0
    the volume afterwards is 70. *)
Theorem C3_play_station_volume (json_dumps : json → list (list N))
    (station : Station.t) (p : Player.t) (w : World) (url : list N) :
  Station.stationuuid station = Some (Py.lit "abc") →
  Station.url_resolved station = Some url → url ≠ [] →
  Engine.faulty (Player.player p) = false →
  let out := Player.play_station json_dumps station p w in
  let v0 := Engine.volume (Player.player p) in
  out.1.1 = Ret true
  ∧ Player.state out.1.2 !! Py.lit "last_stationuuid" = Some (JStr (Py.lit "abc"))
  ∧ fs out.2 !! STATE_FILE = Some (concat (json_dumps (JDict (Player.state out.1.2))))
  ∧ Player.get_volume out.1.2
    = match Player.volumes p !! Py.lit "abc" with
      | Some v => clamp v 0 100
      | None => if v0 <=? 0 then 70 else v0
      end
  ∧ (Player.volumes p !! Py.lit "abc" = None → v0 = 0 →
     Player.get_volume out.1.2 = 70).
Proof.
  intros Huuid Hurl Hne Hok out v0.
  destruct (play_station_ok json_dumps station p w url Huuid Hurl Hne Hok)
    as (Hret & Hstate & Hfile & Hvol).
  split; [done|]. split; [done|]. split; [done|]. split; [done|].
  intros Hnone Hzero. fold out in Hvol. rewrite Hvol, Hnone.
  fold v0. by rewrite Hzero.
Qed.

Lemma C3_play_station_volume_witness :
  let out := Player.play_station dumps_kind station_abc player0 world0 in
  out.1.1 = Ret true
  ∧ Player.state out.1.2 !! Py.lit "last_stationuuid" = Some (JStr (Py.lit "abc"))
  ∧ fs out.2 !! STATE_FILE = Some (Py.lit "dict")
  ∧ Player.get_volume out.1.2 = 70.
Proof.
  intros out.
  destruct (C3_play_station_volume dumps_kind station_abc player0 world0
              (Py.lit "http://x") eq_refl eq_refl ltac:(discriminate) eq_refl)
    as (Hret & Hstate & Hfile & _ & Hvol).
  split; [exact Hret|]. split; [exact Hstate|].
  split; [|exact (Hvol eq_refl eq_refl)].
  fold out in Hfile. rewrite Hfile. reflexivity.
Defined.

(** C3 as stated fails: the default is not tied to an engine volume of
    exactly 0.  An engine that reports -1 (libvlc without an audio output)
    is set to 70 as well. *)
Lemma C3_default_at_negative_volume :
  let p := Player.with_player (Engine.mk None meta0 false (-1) false false) player0 in
  let out := Player.play_station dumps_kind station_abc p world0 in
  Player.get_volume p = -1
  ∧ Player.volumes p !! Py.lit "abc" = None
  ∧ engine_calls (log out.2)
    = [CallStop; CallLoad (Py.lit "http://x"); CallPlay; CallSetVolume 70]
  ∧ Player.get_volume out.1.2 = 70.
Proof. split; [|split; [|split]]; vm_compute; reflexivity. Qed.

(** ** Shutdown and the metadata thread *)

Section Threads.

Implicit Types (s : Sys) (a : actor) (sched : list actor).

Lemma stop_keeps_flag (p : Player.t) w :
  Player._stop_flag (Player.stop p w).1 = Player._stop_flag p.
Proof.
  unfold Player.stop, Player.guarded. simpl.
  by destruct (Engine.stop (Player.player p)).
Qed.

Lemma meta_update_keeps_flag line (p : Player.t) w :
  Player._stop_flag (Player.meta_update line p w).1 = Player._stop_flag p.
Proof.
  unfold Player.meta_update. by destruct (NowPlaying.update_line _ _ _).
Qed.

Lemma step_keeps_flag a s :
  Player._stop_flag (sys_player s) = true →
  Player._stop_flag (sys_player (step a s)) = true.
Proof.
  intros Hflag. destruct a as [| |m]; simpl; [| |done].
  - unfold poller_step. destruct (sys_poller s) as [| |line| |]; simpl; try done.
    pose proof (meta_update_keeps_flag line (sys_player s) (sys_world s)) as H.
    destruct (Player.meta_update _ _ _). simpl in *. by rewrite H.
  - unfold main_step. destruct (sys_main s); [done| |done].
    pose proof (stop_keeps_flag (sys_player s) (sys_world s)) as H.
    destruct (Player.stop _ _). simpl in *. by rewrite H.
Qed.

Lemma poller_step_main s : sys_main (poller_step s) = sys_main s.
Proof.
  unfold poller_step. destruct (sys_poller s); simpl; try done.
  by destruct (Player.meta_update _ _ _).
Qed.

(** Once [shutdown] has started, the flag is set. *)
Lemma step_flag_inv a s :
  (sys_main s ≠ MRunning → Player._stop_flag (sys_player s) = true) →
  sys_main (step a s) ≠ MRunning →
  Player._stop_flag (sys_player (step a s)) = true.
Proof.
  intros Hinv Hmain. destruct (sys_main s) eqn:Hm.
  - destruct a as [| |m]; simpl in *.
    + by rewrite poller_step_main, Hm in Hmain.
    + unfold main_step. by rewrite Hm.
    + done.
  - apply step_keeps_flag. by apply Hinv.
  - apply step_keeps_flag. by apply Hinv.
Qed.

Lemma run_flag_inv sched s :
  (sys_main s ≠ MRunning → Player._stop_flag (sys_player s) = true) →
  sys_main (run sched s) ≠ MRunning →
  Player._stop_flag (sys_player (run sched s)) = true.
Proof.
  revert s. induction sched as [|a sched IH]; intros s Hinv; simpl; [done|].
  apply IH. by apply step_flag_inv.
Qed.

(** The main thread's steps neither move nor wait for the metadata thread. *)
Lemma main_step_poller s : sys_poller (main_step s) = sys_poller s.
Proof.
  unfold main_step. destruct (sys_main s); simpl; try done.
Qed.

Lemma poller_pc_step a s :
  Player._stop_flag (sys_player s) = true →
  (moves_left (sys_poller (step a s))
   ≤ moves_left (sys_poller s) - (if is_poller a then 1 else 0))%nat
  ∧ (updates_left (sys_poller (step a s)) ≤ updates_left (sys_poller s))%nat
  ∧ (match a, sys_poller s with
     | Poller, PUpdate _ => updates_left (sys_poller (step a s)) = 0%nat
     | _, _ => True
     end).
Proof.
  intros Hflag. destruct a as [| |m]; simpl.
  - unfold poller_step. destruct (sys_poller s) as [| |line| |] eqn:Hpc; simpl.
    + rewrite Hflag. simpl. lia.
    + destruct (Player.meta_poll _) as [[l|]|]; simpl; lia.
    + destruct (Player.meta_update _ _ _). simpl. lia.
    + lia.
    + rewrite Hpc. simpl. lia.
  - rewrite main_step_poller. destruct (sys_poller s); simpl; lia.
  - destruct (sys_poller s); simpl; lia.
Qed.

Lemma poller_updates_bound sched s :
  Player._stop_flag (sys_player s) = true →
  (poller_updates sched s ≤ updates_left (sys_poller s))%nat.
Proof.
  revert s. induction sched as [|a sched IH]; intros s Hflag; simpl; [lia|].
  specialize (IH (step a s) (step_keeps_flag a s Hflag)).
  destruct (poller_pc_step a s Hflag) as (_ & Hle & Hupd).
  destruct a as [| |m]; try lia.
  destruct (sys_poller s) as [| |line| |]; simpl in *; lia.
Qed.

Lemma poller_moves_bound sched s :
  Player._stop_flag (sys_player s) = true →
  (moves_left (sys_poller (run sched s))
   ≤ moves_left (sys_poller s) - poller_moves sched)%nat.
Proof.
  revert s. induction sched as [|a sched IH]; intros s Hflag; simpl.
  - unfold poller_moves. simpl. lia.
  - specialize (IH (step a s) (step_keeps_flag a s Hflag)).
    destruct (poller_pc_step a s Hflag) as (Hle & _ & _).
    unfold poller_moves in *. simpl. destruct (is_poller a); simpl; lia.
Qed.

Lemma moves_left_0 pc : moves_left pc = 0%nat → pc = PDone.
Proof. by destruct pc. Qed.

End Threads.




(** ** The VU meter *)

Section Vu.

Variable lower : list N → list N.

Lemma vu_width_range w : 10 ≤ vu_width w ≤ 30.
Proof. unfold vu_width, Py.min, Py.max. repeat case_match; lia. Qed.

Lemma clamp_bounds n lo hi : lo ≤ hi → lo ≤ clamp n lo hi ≤ hi.
Proof. unfold clamp, Py.min, Py.max. repeat case_match; lia. Qed.

Lemma clamp_inside n lo hi : lo ≤ n ≤ hi → clamp n lo hi = n.
Proof. unfold clamp, Py.min, Py.max. repeat case_match; lia. Qed.

(** Every volume of 0..100 against every width of 10..30, by evaluation. *)
Lemma vu_base_table :
  forallb (λ v, forallb (vu_base_exact_at v) (map Z.of_nat (seq 10 21)))
          (map Z.of_nat (seq 0 101)) = true.
Proof. vm_compute. reflexivity. Qed.

Lemma in_range_of_nat lo len z :
  Z.of_nat lo ≤ z < Z.of_nat (lo + len) → In z (map Z.of_nat (seq lo len)).
Proof.
  intros Hz. apply in_map_iff. exists (Z.to_nat z). split; [lia|].
  apply in_seq. lia.
Qed.

Lemma vu_base_exact_at_true v wd :
  0 ≤ v ≤ 100 → 10 ≤ wd ≤ 30 → vu_base_exact_at v wd = true.
Proof.
  intros Hv Hwd.
  assert (In v (map Z.of_nat (seq 0 101))) as Hin1
    by (apply in_range_of_nat; simpl; lia).
  assert (In wd (map Z.of_nat (seq 10 21))) as Hin2
    by (apply in_range_of_nat; simpl; lia).
  pose proof (proj1 (forallb_forall _ _) vu_base_table v Hin1) as Hrow.
  exact (proj1 (forallb_forall _ _) Hrow wd Hin2).
Qed.

(** On volumes 0..100 the float product, truncated, is the exact quotient
    rounded down. *)
Lemma vu_base_exact (p : Player.t) wd :
  0 ≤ Player.get_volume p ≤ 100 → 10 ≤ wd ≤ 30 →
  vu_base p wd = Ret (Player.get_volume p * wd / 100).
Proof.
  intros Hv Hwd. pose proof (vu_base_exact_at_true _ _ Hv Hwd) as Ht.
  unfold vu_base_exact_at in Ht. unfold vu_base.
  destruct (PyFloat.to_int _) as [z|]; [|done].
  apply Z.eqb_eq in Ht. by rewrite Ht.
Qed.

Lemma find_none_all {A} (f : A → bool) (l : list A) :
  (∀ x, In x l → f x = false) → List.find f l = None.
Proof.
  induction l as [|x l IH]; intros H; simpl; [done|].
  rewrite (H x) by (by left). apply IH. intros y Hy. apply H. by right.
Qed.

(** The probe gives nothing when it is unavailable or no sink input is
    VLC's. *)
Lemma level_none (vu : PulseVU.t) (inputs : res (list SinkInput)) :
  PulseVU.ok vu = false
  ∨ (∃ l, inputs = Ret l ∧ ∀ si, In si l → PulseVU.is_vlc lower si = false) →
  PulseVU.level lower vu inputs = (None, vu).
Proof.
  unfold PulseVU.level. intros [Hok | (l & -> & Hl)].
  - by rewrite Hok.
  - destruct (PulseVU.ok vu); simpl; [|done].
    by rewrite find_none_all.
Qed.

Lemma vu_level_bounds w probe (p : Player.t) l :
  vu_level w probe p = Ret l → 0 ≤ l ≤ vu_width w.
Proof.
  pose proof (vu_width_range w) as Hw. unfold vu_level.
  destruct probe as [x|]; simpl.
  - intros [= <-]. apply clamp_bounds. lia.
  - destruct (vu_base p (vu_width w)) as [b|]; simpl; [|done].
    intros [= <-]. apply clamp_bounds. lia.
Qed.

End Vu.

(** C9, as the code has it: when the probe is unavailable or finds no sink
    input of VLC, the level for a volume of 0..100 is the exact value
    [volume * width / 100] rounded down (not to the nearest integer) while
    playing, and 0 while not playing; at any volume, a fallback level that
    is drawn while not playing is 0; and whatever the probe gave, a level
    that is drawn lies in [0, width]. *)
Theorem C9_vu_fallback (lower : list N → list N) (w : Z) (vu : PulseVU.t)
    (inputs : res (list SinkInput)) (p : Player.t) :
  PulseVU.ok vu = false
  ∨ (∃ l, inputs = Ret l ∧ ∀ si, In si l → PulseVU.is_vlc lower si = false) →
  0 ≤ Player.get_volume p ≤ 100 →
  let level := if Player.is_playing p
               then Player.get_volume p * vu_width w / 100 else 0 in
  (vu_frame lower w vu inputs p).1 = Ret level
  ∧ 0 ≤ level ≤ vu_width w
  ∧ (∀ q l, Player.is_playing q = false → vu_level w None q = Ret l → l = 0)
  ∧ (∀ probe q l, vu_level w probe q = Ret l → 0 ≤ l ≤ vu_width w).
Proof.
  intros Hprobe Hvol level.
  pose proof (vu_width_range w) as Hw.
  assert (0 ≤ level ≤ vu_width w) as Hlevel.
  { subst level. destruct (Player.is_playing p); [|lia]. split.
    - apply Z.div_pos; lia.
    - apply Z.div_le_upper_bound; nia. }
  split; [|split; [done|split]].
  - unfold vu_frame. rewrite (level_none lower vu inputs Hprobe). simpl.
    unfold vu_level. rewrite vu_base_exact by done. simpl.
    fold level. by rewrite clamp_inside.
  - intros q l Hq. unfold vu_level. rewrite Hq.
    destruct (vu_base q (vu_width w)) as [b|]; simpl; [|done].
    intros [= <-]. apply clamp_inside. lia.
  - intros probe q l. apply vu_level_bounds.
Qed.

Lemma C9_vu_fallback_witness :
  let p := Player.with_player
             (Engine.mk (Some (Py.lit "http://x")) meta0 true 70 false false)
             player0 in
  (vu_frame (λ s, s) 80 (PulseVU.mk false 0) (Ret []) p).1 = Ret 21.
Proof.
  intros p.
  destruct (C9_vu_fallback (λ s, s) 80 (PulseVU.mk false 0) (Ret []) p
              (or_introl eq_refl) ltac:(vm_compute; split; discriminate))
    as (H & _ & _ & _).
  rewrite H. vm_compute. reflexivity.
Defined.

(** C9 as stated fails: at volume 99 on a 10-column meter the exact value
    is 9.9, the spec's rounding gives 10, and the code draws 9, which is
    further than one half from 9.9. *)
Lemma C9_truncates_instead_of_rounding :
  let p := Player.with_player
             (Engine.mk (Some (Py.lit "http://x")) meta0 true 99 false false)
             player0 in
  vu_width 30 = 10
  ∧ Player.is_playing p = true
  ∧ Player.get_volume p = 99
  ∧ (vu_frame (λ s, s) 30 (PulseVU.mk false 0) (Ret []) p).1 = Ret 9
  ∧ spec_fallback_level 99 10 = 10
  ∧ ¬ (2 * Z.abs (100 * 9 - 99 * 10) ≤ 100).
Proof.
  repeat (split; [vm_compute; reflexivity|]). vm_compute. intros H. by apply H.
Qed.

(** * Further properties of the code *)

(** ** [clamp] *)

(** X1: for [lo <= hi], [clamp] lands in [lo, hi], leaves a value of that
    range alone, sends smaller values to [lo] and larger ones to [hi], and
    clamping twice is clamping once. *)
Theorem X1_clamp_range (n lo hi : Z) :
  lo ≤ hi →
  lo ≤ clamp n lo hi ≤ hi
  ∧ (lo ≤ n ≤ hi ↔ clamp n lo hi = n)
  ∧ (n < lo → clamp n lo hi = lo)
  ∧ (hi < n → clamp n lo hi = hi)
  ∧ clamp (clamp n lo hi) lo hi = clamp n lo hi.
Proof.
  intros Hlh. unfold clamp, Py.max, Py.min.
  repeat case_match; repeat split; intros; lia.
Qed.

Lemma X1_clamp_range_witness :
  clamp 105 0 100 = 100 ∧ clamp (-5) 0 100 = 0 ∧ clamp 70 0 100 = 70.
Proof.
  destruct (X1_clamp_range 105 0 100 ltac:(lia)) as (_ & _ & _ & Hhi & _).
  split; [apply Hhi; lia|]. split; reflexivity.
Defined.

(** ** Volume and playback control *)

(** X2: on an engine that answers, [get_volume] after [set_volume(v)]
    is [clamp(v, 0, 100)], so it lies in 0..100; the call changes nothing
    of the player but the engine's volume. *)
Theorem X2_set_volume_get_volume (v : Z) (p : Player.t) (w : World) :
  Engine.faulty (Player.player p) = false →
  let p' := (Player.set_volume v p w).1 in
  Player.get_volume p' = clamp v 0 100
  ∧ 0 ≤ Player.get_volume p' ≤ 100
  ∧ Player.is_playing p' = Player.is_playing p
  ∧ Engine.media (Player.player p') = Engine.media (Player.player p)
  ∧ Engine.muted (Player.player p') = Engine.muted (Player.player p)
  ∧ Player.now p' = Player.now p
  ∧ Player.volumes p' = Player.volumes p
  ∧ Player.state p' = Player.state p
  ∧ fs (Player.set_volume v p w).2 = fs w.
Proof.
  intros Hok p'. subst p'.
  destruct p as [[media meta playing vol muted faulty] now vols st flag].
  simpl in Hok. subst faulty.
  unfold Player.set_volume, Player.guarded, Player.get_volume, Player.is_playing.
  simpl. split; [done|]. split; [|done].
  unfold clamp, Py.max, Py.min. repeat case_match; lia.
Qed.

Lemma X2_set_volume_get_volume_witness :
  Player.get_volume (Player.set_volume 130 player0 world0).1 = 100.
Proof.
  destruct (X2_set_volume_get_volume 130 player0 world0 eq_refl) as (H & _).
  rewrite H. reflexivity.
Defined.

(** X3: while every engine call raises, [get_volume] is 0, [is_playing] is
    false, and [stop], [set_volume] and [toggle_mute] leave the player as it
    was. *)
Theorem X3_engine_failures_swallowed (v : Z) (p : Player.t) (w : World) :
  Engine.faulty (Player.player p) = true →
  Player.get_volume p = 0
  ∧ Player.is_playing p = false
  ∧ (Player.stop p w).1 = p
  ∧ (Player.set_volume v p w).1 = p
  ∧ (Player.toggle_mute p w).1 = p
  ∧ (Player.shutdown p w).1 = Player.with_stop_flag true p.
Proof.
  destruct p as [[media meta playing vol muted faulty] now vols st flag].
  simpl. intros ->. done.
Qed.

Lemma X3_engine_failures_swallowed_witness :
  let p := Player.with_player (Engine.mk None meta0 true 55 false true) player0 in
  Player.get_volume p = 0 ∧ Player.is_playing p = false.
Proof.
  intros p.
  destruct (X3_engine_failures_swallowed 10 p world0 eq_refl) as (H1 & H2 & _).
  by split.
Defined.

(** [save_json] leaves every file but the target and its temporary alone. *)
Lemma fs_save_json_other (json_dumps : json → list (list N)) path data w q :
  q ≠ path → q ≠ path ++ Py.lit ".tmp" →
  fs (save_json json_dumps path data w) !! q = fs w !! q.
Proof.
  intros Hq Hq'. unfold save_json. rewrite fs_emit_all_fs.
  unfold save_json_ops. rewrite app_assoc, run_ops_app.
  set (writes := [OpOpenTrunc (path ++ Py.lit ".tmp")] ++ _).
  assert (run_ops writes (fs w) !! q = fs w !! q) as Hw.
  { apply (run_ops_other (path ++ Py.lit ".tmp")); [|done].
    apply Forall_app. split; [repeat constructor|].
    apply Forall_forall. intros o Ho.
    apply list_elem_of_fmap in Ho as [x [-> _]]. eauto. }
  rewrite <- Hw. generalize (run_ops writes (fs w)). intros f. simpl.
  destruct (f !! (path ++ Py.lit ".tmp")); [|done].
  by rewrite lookup_insert_ne, lookup_delete_ne.
Qed.

(** X4: [save_station_volume] does nothing for an absent or empty uuid;
    otherwise it records the engine's current volume under that uuid,
    leaves the other stations' volumes alone, and saves the whole map to the
    volumes file without touching the state file. *)
Theorem X4_save_station_volume (json_dumps : json → list (list N))
    (uuid : option (list N)) (p : Player.t) (w : World) :
  let r := Player.save_station_volume json_dumps uuid p w in
  (Py.truthy_opt uuid = false → r = (p, w))
  ∧ (∀ u, uuid = Some u → u ≠ [] →
       Player.volumes r.1 !! u = Some (Player.get_volume p)
       ∧ (∀ u', u' ≠ u → Player.volumes r.1 !! u' = Player.volumes p !! u')
       ∧ Player.player r.1 = Player.player p
       ∧ fs r.2 !! VOL_FILE
         = Some (concat (json_dumps (JDict (JInt <$> Player.volumes r.1))))
       ∧ fs r.2 !! STATE_FILE = fs w !! STATE_FILE).
Proof.
  intros r. subst r. unfold Player.save_station_volume. split.
  - destruct uuid as [[|c u]|]; simpl; done.
  - intros u -> Hu. destruct u as [|c u]; [done|]. simpl.
    split; [by rewrite lookup_insert_eq|].
    split; [intros u' Hne; by rewrite lookup_insert_ne|].
    split; [done|]. split; [apply fs_save_json|].
    apply fs_save_json_other; intros E; vm_compute in E; discriminate.
Qed.

(** X5: [shutdown] is idempotent: a second call leaves the player as the
    first left it; after it the stop flag is set and [is_playing] is false,
    whether the engine answers or not. *)
Theorem X5_shutdown_idempotent (p : Player.t) (w w' : World) :
  let p1 := (Player.shutdown p w).1 in
  (Player.shutdown p1 w').1 = p1
  ∧ Player._stop_flag p1 = true
  ∧ Player.is_playing p1 = false
  ∧ (Player.stop (Player.stop p w).1 w').1 = (Player.stop p w).1.
Proof.
  destruct p as [[media meta playing vol muted faulty] now vols st flag].
  unfold Player.shutdown, Player.shutdown_set_flag, Player.stop, Player.guarded,
    Player.is_playing, Engine.stop, Engine.is_playing, Engine.guard.
  simpl. destruct faulty; simpl; done.
Qed.

(** ** Runs of [set_station] and [update_line] *)

Lemma update_line_depends text (s1 s2 : NowPlaying.t) w1 w2 :
  NowPlaying.line s1 = NowPlaying.line s2 →
  NowPlaying.history s1 = NowPlaying.history s2 →
  NowPlaying.max_history s1 = NowPlaying.max_history s2 →
  let r1 := (NowPlaying.update_line text s1 w1).1 in
  let r2 := (NowPlaying.update_line text s2 w2).1 in
  NowPlaying.line r1 = NowPlaying.line r2
  ∧ NowPlaying.history r1 = NowPlaying.history r2
  ∧ NowPlaying.max_history r1 = NowPlaying.max_history r2.
Proof.
  intros Hl Hh Hm. unfold NowPlaying.update_line.
  destruct (Py.truthy _); simpl; [|done].
  rewrite Hl. destruct (Py.eqb _ _); simpl; [done|].
  by rewrite Hh, Hm.
Qed.

Lemma np_run_history ops (s1 s2 : NowPlaying.t * World) :
  NowPlaying.line s1.1 = NowPlaying.line s2.1 →
  NowPlaying.history s1.1 = NowPlaying.history s2.1 →
  NowPlaying.max_history s1.1 = NowPlaying.max_history s2.1 →
  NowPlaying.line (np_run ops s1).1
  = NowPlaying.line (update_lines (updates_of ops) s2).1
  ∧ NowPlaying.history (np_run ops s1).1
    = NowPlaying.history (update_lines (updates_of ops) s2).1.
Proof.
  revert s1 s2. induction ops as [|o ops IH]; intros s1 s2 Hl Hh Hm; [done|].
  destruct o as [text|name uuid]; simpl.
  - destruct (update_line_depends text s1.1 s2.1 s1.2 s2.2 Hl Hh Hm)
      as (Hl' & Hh' & Hm').
    by apply IH.
  - by apply IH.
Qed.

(** X6: station switches never touch the metadata: after any run of
    [set_station] and [update_line] calls on a fresh [NowPlaying], the line
    and the history are those of the run's [update_line] calls alone; so
    the history still holds at most 200 entries without equal neighbours,
    headed by the current line. *)
Theorem X6_station_switches_keep_history (ops : list np_op) (w : World) :
  let self := (np_run ops (NowPlaying.init, w)).1 in
  let only := (update_lines (updates_of ops) (NowPlaying.init, w)).1 in
  NowPlaying.line self = NowPlaying.line only
  ∧ NowPlaying.history self = NowPlaying.history only
  ∧ (length (NowPlaying.history self) ≤ 200)%nat
  ∧ adjacent_distinct (NowPlaying.history self)
  ∧ (NowPlaying.history self ≠ [] →
     NowPlaying.history self !! 0%nat = Some (NowPlaying.line self)).
Proof.
  intros self only.
  destruct (np_run_history ops (NowPlaying.init, w) (NowPlaying.init, w))
    as [Hl Hh]; [done..|].
  destruct (update_lines_inv (updates_of ops) (NowPlaying.init, w) history_inv_init)
    as [_ Hlen Hadj Hhead].
  fold only in Hl, Hh, Hlen, Hadj, Hhead. fold self in Hl, Hh.
  rewrite Hl, Hh. auto.
Qed.

Lemma fs_emit_all_ops es w : fs (emit_all es w) = run_ops (fs_ops es) (fs w).
Proof.
  revert w. induction es as [|e es IH]; intros w; [done|].
  simpl. rewrite IH. by destruct e.
Qed.

Lemma env_emit_all es w : env (emit_all es w) = env w.
Proof. revert w. induction es as [|e es IH]; intros w; [done|]. simpl. by rewrite IH. Qed.

(** What [_write_nowplay] leaves in the file system. *)
Lemma write_nowplay_fs (self : NowPlaying.t) w :
  fs (NowPlaying._write_nowplay self w)
  = <[NOWPLAY_FILE := nowplay_text self (env w)]> (fs w).
Proof.
  unfold NowPlaying._write_nowplay, nowplay_text. rewrite fs_emit_all_ops.
  unfold NowPlaying.write_nowplay_events.
  change (Py.lit (String "010" EmptyString)) with [10%N].
  destruct (encodes (env w) (NowPlaying.out self ++ [10%N])).
  - replace (fs_ops _)
      with [OpMakedirs CACHE_DIR; OpOpenTrunc NOWPLAY_FILE;
            OpAppend NOWPLAY_FILE (NowPlaying.out self ++ [10%N])]
      by (by destruct (env_tmux (env w)), (which_tmux (env w))).
    cbn [run_ops fold_left apply_op].
    rewrite lookup_insert_eq. simpl. apply insert_insert_eq.
  - replace (fs_ops _) with [OpMakedirs CACHE_DIR; OpOpenTrunc NOWPLAY_FILE]
      by (by destruct (env_tmux (env w)), (which_tmux (env w))).
    done.
Qed.

Lemma write_nowplay_synced (self : NowPlaying.t) w :
  nowplay_synced self (NowPlaying._write_nowplay self w).
Proof.
  unfold nowplay_synced. rewrite write_nowplay_fs, lookup_insert_eq.
  unfold NowPlaying._write_nowplay. by rewrite env_emit_all.
Qed.

Lemma env_set_station name uuid (self : NowPlaying.t) w :
  env (NowPlaying.set_station name uuid self w).2 = env w.
Proof.
  unfold NowPlaying.set_station, NowPlaying._write_nowplay.
  cbn [snd emit env]. by rewrite env_emit_all.
Qed.

Lemma env_update_line text (self : NowPlaying.t) w :
  env (NowPlaying.update_line text self w).2 = env w.
Proof.
  unfold NowPlaying.update_line, NowPlaying._write_nowplay.
  destruct (Py.truthy _); cbn [negb snd]; [|done].
  destruct (Py.eqb _ _); cbn [negb snd emit env]; [done|].
  by rewrite env_emit_all.
Qed.

Lemma set_station_synced name uuid (self : NowPlaying.t) w :
  nowplay_synced (NowPlaying.set_station name uuid self w).1
                 (NowPlaying.set_station name uuid self w).2.
Proof.
  unfold NowPlaying.set_station. cbn [fst snd].
  unfold nowplay_synced. cbn [fs env emit].
  apply write_nowplay_synced.
Qed.

Lemma update_line_synced text (self : NowPlaying.t) w :
  nowplay_synced self w ∨ (NowPlaying.update_line text self w).1 ≠ self →
  nowplay_synced (NowPlaying.update_line text self w).1
                 (NowPlaying.update_line text self w).2.
Proof.
  unfold NowPlaying.update_line.
  destruct (Py.truthy _); cbn [negb fst snd]; [|tauto].
  destruct (Py.eqb _ _); cbn [negb fst snd]; [tauto|].
  intros _. unfold nowplay_synced. cbn [fs env emit].
  apply write_nowplay_synced.
Qed.

(** X7: the now-playing file follows the state: [set_station], and every
    [update_line] that changes the line, leave the file holding
    [station_name :: line] (stripped) and a newline when the locale's
    encoder accepts that text, and leave it empty when the encoder rejects
    it; a call that changes nothing leaves the files alone; so after a first
    [set_station] the file matches the state after any further calls. *)
Theorem X7_now_playing_file_follows_state (name uuid : option (list N))
    (ops : list np_op) (self : NowPlaying.t) (w : World) :
  let st := np_run (NpSetStation name uuid :: ops) (self, w) in
  let text := Py.strip (NowPlaying.station_name st.1 ++ Py.lit " :: "
                        ++ NowPlaying.line st.1) ++ [10%N] in
  fs st.2 !! NOWPLAY_FILE = Some (if encodes (env w) text then text else [])
  ∧ (∀ text s0 w0, (NowPlaying.update_line text s0 w0).1 ≠ s0 →
       let s1 := (NowPlaying.update_line text s0 w0).1 in
       let out := Py.strip (NowPlaying.station_name s1 ++ Py.lit " :: "
                            ++ NowPlaying.line s1) ++ [10%N] in
       fs (NowPlaying.update_line text s0 w0).2 !! NOWPLAY_FILE
       = Some (if encodes (env w0) out then out else []))
  ∧ (∀ text s0 w0, (NowPlaying.update_line text s0 w0).1 = s0 →
       fs (NowPlaying.update_line text s0 w0).2 = fs w0).
Proof.
  split; [|split].
  - unfold np_run. cbn [fold_left np_apply fst snd].
    assert (nowplay_synced (NowPlaying.set_station name uuid self w).1
                           (NowPlaying.set_station name uuid self w).2
            ∧ env (NowPlaying.set_station name uuid self w).2 = env w) as Hs
      by (split; [apply set_station_synced|apply env_set_station]).
    revert Hs. generalize (NowPlaying.set_station name uuid self w).
    induction ops as [|o ops IH]; intros st [Hs He].
    + unfold nowplay_synced, nowplay_text in Hs. by rewrite He in Hs.
    + cbn [fold_left]. apply IH. destruct o as [text|n u]; cbn [np_apply].
      * split; [apply update_line_synced; by left|].
        by rewrite env_update_line.
      * split; [apply set_station_synced|]. by rewrite env_set_station.
  - intros text s0 w0 Hne s1 out.
    pose proof (update_line_synced text s0 w0 (or_intror Hne)) as Hs.
    unfold nowplay_synced, nowplay_text in Hs. by rewrite env_update_line in Hs.
  - intros text s0 w0. unfold NowPlaying.update_line.
    destruct (Py.truthy _); simpl; [|done].
    destruct (Py.eqb _ _) eqn:He; simpl; [done|].
    intros E. apply (f_equal NowPlaying.line) in E. simpl in E.
    unfold Py.eqb in He. apply bool_decide_eq_false in He. by symmetry in E.
Qed.

(** Under an encoder that accepts ASCII only, the first [update_line] of
    the program leaves the now-playing file empty: the station name is
    still the em dash. *)
Example nowplay_file_empty_when_rejected :
  let ascii := forallb (λ c, (c <? 128)%N) in
  let w := {| fs := ∅; env := mkEnv false false ascii; log := [] |} in
  fs (NowPlaying.update_line (Some (Py.lit "Ready")) NowPlaying.init w).2
    !! NOWPLAY_FILE = Some [].
Proof. vm_compute. reflexivity. Qed.

Lemma update_line_twice (text : option (list N))
    (self : NowPlaying.t) (w w' : World) :
  (NowPlaying.update_line text (NowPlaying.update_line text self w).1 w').1
  = (NowPlaying.update_line text self w).1.
Proof.
  unfold NowPlaying.update_line.
  destruct (Py.truthy _) eqn:Ht; simpl.
  - destruct (Py.eqb _ (NowPlaying.line self)) eqn:He; simpl.
    + by rewrite ?Ht, ?He.
    + rewrite ?Ht. simpl. unfold Py.eqb at 1.
      by rewrite bool_decide_eq_true_2.
  - by rewrite ?Ht.
Qed.

(** X8: [update_line] is idempotent: repeating a call with the same text
    changes nothing more; one call adds at most one history entry, at the
    front, and never changes the station. *)
Theorem X8_update_line_idempotent (text : option (list N))
    (self : NowPlaying.t) (w w' : World) :
  let r := (NowPlaying.update_line text self w).1 in
  (NowPlaying.update_line text r w').1 = r
  ∧ (length (NowPlaying.history r) ≤ S (length (NowPlaying.history self)))%nat
  ∧ (NowPlaying.history r = NowPlaying.history self
     ∨ NowPlaying.history r
       = take (NowPlaying.max_history self) (NowPlaying.line r :: NowPlaying.history self))
  ∧ NowPlaying.station_name r = NowPlaying.station_name self
  ∧ NowPlaying.stationuuid r = NowPlaying.stationuuid self.
Proof.
  intros r. subst r. unfold NowPlaying.update_line.
  destruct (Py.truthy _) eqn:Ht; simpl.
  - destruct (Py.eqb _ (NowPlaying.line self)) eqn:He; simpl.
    + rewrite ?Ht, ?He. simpl. split; [done|]. split; [lia|]. auto.
    + rewrite ?Ht. simpl. unfold Py.eqb at 1.
      rewrite bool_decide_eq_true_2 by done. simpl.
      split; [done|]. split; [rewrite length_take; simpl; lia|]. auto.
  - rewrite ?Ht. simpl. split; [done|]. split; [lia|]. auto.
Qed.

(** ** The metadata loop, tick by tick *)


(** ** Saving, loading and the files of a first run *)

(** X10: what [save_json] wrote, [load_json] reads back: when the parser
    inverts the printer on [data], loading after saving returns [data],
    whatever the file held before and whatever the default is; the
    temporary file is gone. *)
Theorem X10_save_then_load (json_loads : list N → res json)
    (json_dumps : json → list (list N)) (path : list N) (data default : json)
    (w : World) :
  json_loads (concat (json_dumps data)) = Ret data →
  load_json json_loads path default (save_json json_dumps path data w) = Ret data
  ∧ fs (save_json json_dumps path data w) !! (path ++ Py.lit ".tmp") = None.
Proof.
  intros Hrt. split.
  - unfold load_json, open_read. rewrite fs_save_json. simpl. by rewrite Hrt.
  - unfold save_json. rewrite fs_emit_all_fs. unfold save_json_ops.
    rewrite app_assoc, run_ops_app.
    pose proof (run_ops_appends (path ++ Py.lit ".tmp") (json_dumps data)
                  (<[path ++ Py.lit ".tmp" := []]> (fs w)) []
                  (lookup_insert_eq _ _ _)) as Ht.
    simpl in Ht. simpl. rewrite Ht.
    rewrite lookup_insert_ne
      by (intros E; symmetry in E; by apply tmp_ne_path in E).
    apply lookup_delete_eq.
Qed.

Lemma X10_save_then_load_witness :
  load_json (loads_table [(Py.lit "dict", JDict ∅)]) VOL_FILE JNull
    (save_json dumps_kind VOL_FILE (JDict ∅) world0)
  = Ret (JDict ∅).
Proof. apply X10_save_then_load. reflexivity. Defined.

Section PlayAndResume.

Variable json_dumps : json → list (list N).

(** What a successful [play_station] leaves behind. *)
Lemma play_station_success (station : Station.t) (p : Player.t) (w : World)
    (url : list N) :
  Station.url_resolved station = Some url → url ≠ [] →
  Engine.faulty (Player.player p) = false →
  let out := Player.play_station json_dumps station p w in
  let n := (NowPlaying.set_station
              (Some (default (Py.lit "Unknown") (Station.name station)))
              (Station.stationuuid station) (Player.now p)
              (emit (EvEngine CallStop) w)).1 in
  out.1.1 = Ret true
  ∧ Player.state out.1.2
    = <[Py.lit "last_stationuuid" := json_of_opt_str (Station.stationuuid station)]>
        (Player.state p)
  ∧ fs out.2 !! STATE_FILE = Some (concat (json_dumps (JDict (Player.state out.1.2))))
  ∧ Player.volumes out.1.2 = Player.volumes p
  ∧ Player.now out.1.2 = n
  ∧ Engine.media (Player.player out.1.2) = Some url
  ∧ Player.is_playing out.1.2 = true
  ∧ Player._stop_flag out.1.2 = Player._stop_flag p.
Proof.
  intros Hurl Hne Hok.
  destruct p as [[media meta playing vol muted faulty] now vols st flag].
  simpl in Hok. subst faulty.
  unfold Player.play_station. rewrite Hurl.
  destruct url as [|c url]; [done|].
  Local Opaque emit save_json NowPlaying.set_station clamp.
  simpl.
  destruct (NowPlaying.set_station _ _ _ _) as [n w0].
  unfold Player.apply_station_volume, Player.with_player, Player.with_now. simpl.
  unfold Player.get_volume, Player.set_volume, Player.guarded,
    Player.with_state, Player.with_player, Player.is_playing. simpl.
  destruct (if Py.truthy_opt (Station.stationuuid station) then _ else _) as [v|];
    simpl.
  - by rewrite fs_save_json.
  - destruct (vol <=? 0); simpl; by rewrite fs_save_json.
  Local Transparent emit save_json NowPlaying.set_station clamp.
Qed.

End PlayAndResume.

(** X11: the station played last is the one the next start reads: after a
    successful [play_station], when the parser inverts the printer on the
    saved state, [autostart_last] on the resulting files returns the
    station's uuid ([None] for a station without one); and the station name
    shown is the station's, or ["Unknown"] when it has none. *)
Theorem X11_last_station_is_read_back (json_loads : list N → res json)
    (json_dumps : json → list (list N)) (station : Station.t) (p : Player.t)
    (w : World) (url : list N) :
  Station.url_resolved station = Some url → url ≠ [] →
  Engine.faulty (Player.player p) = false →
  let out := Player.play_station json_dumps station p w in
  json_loads (concat (json_dumps (JDict (Player.state out.1.2))))
  = Ret (JDict (Player.state out.1.2)) →
  autostart_last json_loads out.2
  = Ret (json_of_opt_str (Station.stationuuid station))
  ∧ NowPlaying.station_name (Player.now out.1.2)
    = Py.or_else (Station.name station) (Py.lit "Unknown")
  ∧ NowPlaying.stationuuid (Player.now out.1.2) = Station.stationuuid station
  ∧ NowPlaying.history (Player.now out.1.2) = NowPlaying.history (Player.now p)
  ∧ NowPlaying.line (Player.now out.1.2) = NowPlaying.line (Player.now p).
Proof.
  intros Hurl Hne Hok out Hrt.
  destruct (play_station_success json_dumps station p w url Hurl Hne Hok)
    as (_ & Hstate & Hfile & _ & Hnow & _).
  fold out in Hstate, Hfile, Hnow. split.
  - unfold autostart_last, load_json, open_read. rewrite Hfile. simpl.
    rewrite Hrt. simpl. rewrite Hstate. by rewrite lookup_insert_eq.
  - rewrite Hnow. unfold NowPlaying.set_station. simpl.
    split; [|done]. by destruct (Station.name station) as [[|c n]|].
Qed.

Lemma X11_last_station_is_read_back_witness :
  let out := Player.play_station dumps_kind station_abc player0 world0 in
  autostart_last
    (loads_table [(Py.lit "dict", JDict (Player.state out.1.2))]) out.2
  = Ret (JStr (Py.lit "abc")).
Proof.
  intros out.
  exact (proj1 (X11_last_station_is_read_back
                  (loads_table [(Py.lit "dict", JDict (Player.state out.1.2))])
                  dumps_kind station_abc player0 world0 (Py.lit "http://x")
                  eq_refl ltac:(discriminate) eq_refl eq_refl)).
Defined.

Lemma ensure_dirs_other (json_dumps : json → list (list N)) w path :
  path ≠ FAV_FILE → path ≠ STATE_FILE → path ≠ VOL_FILE →
  fs (ensure_dirs json_dumps w) !! path = fs w !! path.
Proof.
  intros H1 H2 H3. unfold ensure_dirs. simpl fold_left.
  by rewrite !ensure_file_other by (simpl; congruence).
Qed.

(** X12: [ensure_dirs] never overwrites: every file that exists keeps its
    content (also a corrupt one); afterwards the favorites, state and
    volumes files exist; no other file is touched; and a second call
    changes no file. *)
Theorem X12_ensure_dirs_keeps_files (json_dumps : json → list (list N)) (w : World) :
  let w' := ensure_dirs json_dumps w in
  (∀ path c, fs w !! path = Some c → fs w' !! path = Some c)
  ∧ is_Some (fs w' !! FAV_FILE)
  ∧ is_Some (fs w' !! STATE_FILE)
  ∧ is_Some (fs w' !! VOL_FILE)
  ∧ (∀ path, path ≠ FAV_FILE → path ≠ STATE_FILE → path ≠ VOL_FILE →
       fs w' !! path = fs w !! path)
  ∧ fs (ensure_dirs json_dumps w') = fs w'.
Proof.
  intros w'. destruct (ensure_dirs_files json_dumps w) as (Hf & Hs & Hv).
  fold w' in Hf, Hs, Hv.
  assert (∀ w0 path c, fs w0 !! path = Some c →
            fs (ensure_dirs json_dumps w0) !! path = Some c) as Hkeep.
  { intros w0 path c Hc.
    destruct (ensure_dirs_files json_dumps w0) as (Hf0 & Hs0 & Hv0).
    destruct (decide (path = FAV_FILE)) as [->|H1]; [by rewrite Hf0, Hc|].
    destruct (decide (path = STATE_FILE)) as [->|H2]; [by rewrite Hs0, Hc|].
    destruct (decide (path = VOL_FILE)) as [->|H3]; [by rewrite Hv0, Hc|].
    by rewrite ensure_dirs_other. }
  split; [apply Hkeep|].
  split; [by rewrite Hf|]. split; [by rewrite Hs|]. split; [by rewrite Hv|].
  split; [intros path; apply ensure_dirs_other|].
  apply map_eq. intros path.
  destruct (fs w' !! path) as [c|] eqn:Hc; [by apply Hkeep|].
  rewrite ensure_dirs_other; [done|intros ->..].
  - by rewrite Hf in Hc.
  - by rewrite Hs in Hc.
  - by rewrite Hv in Hc.
Qed.

(** X13: on a first run, with none of the three files present, the files
    [ensure_dirs] creates load as the defaults: the empty map for favorites
    and volumes, and [{"last_stationuuid": null, "show_history": true}] for
    the state, provided the parser inverts the printer on these two values;
    [autostart_last] then finds no station. *)
Theorem X13_first_run_defaults (json_loads : list N → res json)
    (json_dumps : json → list (list N)) (w : World) :
  fs w !! FAV_FILE = None → fs w !! STATE_FILE = None → fs w !! VOL_FILE = None →
  json_loads (concat (json_dumps (JDict ∅))) = Ret (JDict ∅) →
  json_loads (concat (json_dumps STATE_DEFAULT)) = Ret STATE_DEFAULT →
  let w' := ensure_dirs json_dumps w in
  load_favorites json_loads w' = Ret (JDict ∅)
  ∧ load_volumes json_loads w' = Ret (JDict ∅)
  ∧ load_state json_loads w' = Ret STATE_DEFAULT
  ∧ autostart_last json_loads w' = Ret JNull.
Proof.
  intros Hf Hs Hv Hrt1 Hrt2 w'.
  destruct (ensure_dirs_files json_dumps w) as (Hf' & Hs' & Hv').
  fold w' in Hf', Hs', Hv'. rewrite Hf in Hf'. rewrite Hs in Hs'. rewrite Hv in Hv'.
  unfold load_favorites, load_volumes, load_state, autostart_last, load_json, open_read.
  rewrite Hf', Hs', Hv'. simpl. rewrite Hrt1, Hrt2. done.
Qed.

Lemma X13_first_run_defaults_witness :
  load_favorites loads_shape (ensure_dirs dumps_shape world0) = Ret (JDict ∅)
  ∧ load_state loads_shape (ensure_dirs dumps_shape world0) = Ret STATE_DEFAULT.
Proof.
  destruct (X13_first_run_defaults loads_shape dumps_shape world0
              eq_refl eq_refl eq_refl eq_refl eq_refl) as (H1 & _ & H2 & _).
  by split.
Defined.

(** ** The sink-input probe *)

Lemma starts_with_spec (needle hay : list N) :
  starts_with needle hay = true ↔ ∃ suf, hay = needle ++ suf.
Proof.
  revert hay. induction needle as [|a needle IH]; intros hay; simpl.
  - split; [eauto|done].
  - destruct hay as [|b hay].
    + split; [done|]. by intros [suf Hs].
    + rewrite andb_true_iff, N.eqb_eq, IH. split.
      * intros [-> [suf ->]]. eauto.
      * intros [suf [= -> ->]]. eauto.
Qed.

(** [needle in hay] holds exactly when [hay] has [needle] as a substring. *)
Lemma contains_spec (needle hay : list N) :
  contains needle hay = true ↔ ∃ pre suf, hay = pre ++ needle ++ suf.
Proof.
  induction hay as [|b hay IH].
  - simpl. rewrite orb_false_r, starts_with_spec. split.
    + intros [suf Hs]. by exists [], suf.
    + intros (pre & suf & Hs). destruct pre; [eauto|done].
  - change (contains needle (b :: hay))
      with (starts_with needle (b :: hay) || contains needle hay).
    rewrite orb_true_iff, starts_with_spec, IH. split.
    + intros [[suf Hs] | (pre & suf & Hs)].
      * by exists [], suf.
      * exists (b :: pre), suf. by rewrite Hs.
    + intros (pre & suf & Hs). destruct pre as [|c pre].
      * left. eauto.
      * right. injection Hs as -> ->. eauto.
Qed.

(** X14: a sink input is taken for VLC's exactly when its lowered
    application name or its lowered binary name has ["vlc"] as a substring;
    the third test of the source, for ["libvlc"] in the application name,
    never decides. *)
Theorem X14_vlc_sink_test (lower : list N → list N) (si : SinkInput) :
  let app := lower (Py.or_else (application_name si) []) in
  let binname := lower (Py.or_else (application_process_binary si) []) in
  PulseVU.is_vlc lower si
  = contains (Py.lit "vlc") app || contains (Py.lit "vlc") binname
  ∧ (PulseVU.is_vlc lower si = true
     ↔ (∃ pre suf, app = pre ++ Py.lit "vlc" ++ suf)
       ∨ (∃ pre suf, binname = pre ++ Py.lit "vlc" ++ suf)).
Proof.
  intros app binname.
  assert (PulseVU.is_vlc lower si
          = contains (Py.lit "vlc") app || contains (Py.lit "vlc") binname) as Heq.
  { unfold PulseVU.is_vlc. fold app binname.
    destruct (contains (Py.lit "libvlc") app) eqn:Hlib; [|by rewrite orb_false_r].
    apply contains_spec in Hlib as (pre & suf & Hs).
    assert (contains (Py.lit "vlc") app = true) as ->; [|done].
    apply contains_spec. exists (pre ++ Py.lit "lib"), suf.
    rewrite Hs, <- app_assoc. reflexivity. }
  split; [done|].
  by rewrite Heq, orb_true_iff, !contains_spec.
Qed.

Section Smoothing.

Variable lower : list N → list N.

Lemma smoothed_full last target :
  PyFloat.ltb (sink_raw target) (PyFloat.of_Z 1) = false →
  PulseVU.smoothed last target = smooth last 30.
Proof.
  intros Hfull. unfold PulseVU.smoothed. fold (sink_raw target).
  unfold PyFloat.clamp01, PyFloat.min. by rewrite Hfull.
Qed.

Lemma smoothed_silent last target :
  PyFloat.ltb (sink_raw target) (PyFloat.of_Z 1) = true →
  PyFloat.ltb (PyFloat.of_Z 0) (sink_raw target) = false →
  PulseVU.smoothed last target = smooth last 0.
Proof.
  intros Hlt Hsil. unfold PulseVU.smoothed. fold (sink_raw target).
  unfold PyFloat.clamp01, PyFloat.min. rewrite Hlt.
  unfold PyFloat.max. by rewrite Hsil.
Qed.

(** The smoothing step at full and at zero input, on every level of
    0..30, by evaluation. *)
Lemma smooth_table :
  forallb (λ last,
    match smooth last 30, smooth last 0 with
    | Ret up, Ret down =>
        (last <=? up) && ((28 <? last) || (up <=? 28))
        && ((28 <=? last) || (last <? up))
        && (down <=? last) && (0 <=? down) && ((last <=? 0) || (down <? last))
    | _, _ => false
    end) (map Z.of_nat (seq 0 31)) = true.
Proof. vm_compute. reflexivity. Qed.

Lemma smooth_cases last :
  0 ≤ last ≤ 30 →
  ∃ up down, smooth last 30 = Ret up ∧ smooth last 0 = Ret down
    ∧ last ≤ up ∧ (last ≤ 28 → up ≤ 28) ∧ (last < 28 → last < up)
    ∧ 0 ≤ down ≤ last ∧ (0 < last → down < last).
Proof.
  intros Hl.
  pose proof (proj1 (forallb_forall _ _) smooth_table last
                (in_range_of_nat 0 31 last ltac:(simpl; lia))) as Ht.
  simpl in Ht.
  destruct (smooth last 30) as [up|]; [|done].
  destruct (smooth last 0) as [down|]; [|done].
  exists up, down. split; [done|]. split; [done|].
  repeat (apply andb_prop in Ht as [Ht ?]).
  repeat match goal with
         | H : _ || _ = true |- _ => apply orb_prop in H
         end.
  lia.
Qed.

End Smoothing.

Lemma level_found (lower : list N → list N) (vu : PulseVU.t) l target :
  PulseVU.ok vu = true →
  List.find (PulseVU.is_vlc lower) l = Some target →
  PulseVU.level lower vu (Ret l)
  = match PulseVU.smoothed (PulseVU._last_level vu) target with
    | Ret new => (Some new, PulseVU.mk true new)
    | Raise => (None, vu)
    end.
Proof.
  intros Hok Hfind. unfold PulseVU.level. rewrite Hok. simpl. rewrite Hfind.
  by destruct (PulseVU.smoothed _ _).
Qed.

(** X15: with VLC's sink input at full volume at every poll, the readings
    of a meter whose level is at most 28 never fall and never pass 28: a
    fresh meter climbs 12, 19, 23, 25, 27, 28 and stays at 28 of 30. *)
Theorem X15_full_volume_stalls_at_28 (lower : list N → list N) (vu : PulseVU.t)
    (polls : list (res (list SinkInput))) :
  PulseVU.ok vu = true →
  0 ≤ PulseVU._last_level vu ≤ 28 →
  Forall (full_volume_poll lower) polls →
  Forall (λ r, ∃ n, r = Some n ∧ PulseVU._last_level vu ≤ n ≤ 28)
         (level_run lower vu polls)
  ∧ (∀ inputs, full_volume_poll lower inputs → PulseVU._last_level vu < 28 →
       ∃ n, (PulseVU.level lower vu inputs).1 = Some n ∧ PulseVU._last_level vu < n).
Proof.
  intros Hok Hlast Hpolls. split.
  - revert vu Hok Hlast.
    induction Hpolls as [|inputs polls (l & target & -> & Hfind & Hfull) _ IH];
      intros vu Hok Hlast; simpl; [constructor|].
    rewrite (level_found lower vu l target Hok Hfind), smoothed_full by done.
    destruct (smooth_cases (PulseVU._last_level vu) ltac:(lia))
      as (up & down & -> & _ & Hup & H28 & _).
    simpl. constructor; [exists up; split; [done|lia]|].
    eapply Forall_impl; [apply IH; simpl; [done|lia]|].
    simpl. intros r (n & -> & Hn). exists n. split; [done|lia].
  - intros inputs (l & target & -> & Hfind & Hfull) Hlt.
    rewrite (level_found lower vu l target Hok Hfind), smoothed_full by done.
    destruct (smooth_cases (PulseVU._last_level vu) ltac:(lia))
      as (up & down & -> & _ & _ & _ & Hup & _).
    exists up. split; [done|lia].
Qed.

Lemma X15_full_volume_stalls_at_28_witness :
  level_run (λ s, s) (PulseVU.mk true 0)
    (replicate 8 (Ret [sink_vlc_full]))
  = [Some 12; Some 19; Some 23; Some 25; Some 27; Some 28; Some 28; Some 28]
  ∧ Forall (λ r, ∃ n, r = Some n ∧ 0 ≤ n ≤ 28)
      (level_run (λ s, s) (PulseVU.mk true 0) (replicate 8 (Ret [sink_vlc_full]))).
Proof.
  split; [vm_compute; reflexivity|].
  apply (X15_full_volume_stalls_at_28 (λ s, s) (PulseVU.mk true 0)
           (replicate 8 (Ret [sink_vlc_full])) eq_refl).
  - simpl. lia.
  - apply Forall_replicate. exists [sink_vlc_full], sink_vlc_full.
    split; [done|]. split; vm_compute; reflexivity.
Defined.

(** X16: with VLC's sink input at zero volume (its largest channel below
    1.0 and not above 0.0), a reading from a level of 0..30 is stored as
    the new level, is not above the old one, and is strictly below it
    unless the old one was 0: the meter decays to 0. *)
Theorem X16_silent_sink_decays (lower : list N → list N) (vu : PulseVU.t)
    (l : list SinkInput) (target : SinkInput) :
  PulseVU.ok vu = true →
  List.find (PulseVU.is_vlc lower) l = Some target →
  PyFloat.ltb (sink_raw target) (PyFloat.of_Z 1) = true →
  PyFloat.ltb (PyFloat.of_Z 0) (sink_raw target) = false →
  0 ≤ PulseVU._last_level vu ≤ 30 →
  ∃ n, PulseVU.level lower vu (Ret l) = (Some n, PulseVU.mk true n)
    ∧ 0 ≤ n ≤ PulseVU._last_level vu
    ∧ (0 < PulseVU._last_level vu → n < PulseVU._last_level vu).
Proof.
  intros Hok Hfind Hlt Hsil Hlast.
  rewrite (level_found lower vu l target Hok Hfind), smoothed_silent by done.
  destruct (smooth_cases (PulseVU._last_level vu) Hlast)
    as (up & down & _ & -> & _ & _ & _ & Hdown & Hstrict).
  exists down. split; [done|]. split; [lia|done].
Qed.

Lemma X16_silent_sink_decays_witness :
  PulseVU.level (λ s, s) (PulseVU.mk true 28)
    (Ret [mkSinkInput None (Some (Py.lit "/usr/bin/vlc")) (VolFlat (PyFloat.of_Z 0))])
  = (Some 16, PulseVU.mk true 16).
Proof.
  destruct (X16_silent_sink_decays (λ s, s) (PulseVU.mk true 28)
              [mkSinkInput None (Some (Py.lit "/usr/bin/vlc")) (VolFlat (PyFloat.of_Z 0))]
              (mkSinkInput None (Some (Py.lit "/usr/bin/vlc")) (VolFlat (PyFloat.of_Z 0)))
              eq_refl eq_refl eq_refl eq_refl ltac:(simpl; lia))
    as (n & Hn & _).
  rewrite Hn. vm_compute in Hn. by injection Hn as <-.
Defined.

(** ** The station browser *)

Section BrowserProps.

Variable json_loads : list N → res json.
Variable json_dumps : json → list (list N).

Implicit Types (b : Browser.t) (p : Player.t) (w : World)
  (stations : list Station.t).

Lemma py_index_ok {A} (l : list A) (i : Z) :
  0 ≤ i < py_len l → ∃ x, py_index l i = Ret x ∧ l !! Z.to_nat i = Some x.
Proof.
  unfold py_index, py_len. intros Hi.
  destruct (i <? 0) eqn:Hneg; [lia|].
  destruct ((0 <=? i) && (i <? Z.of_nat (length l))) eqn:Hin; [|lia].
  destruct (l !! Z.to_nat i) as [x|] eqn:Hx; [eauto|].
  apply lookup_ge_None in Hx. lia.
Qed.

Lemma first_hit_spec {A} (f : A → bool) (l : list A) (i0 i : Z) (x : A) :
  first_hit f l i0 = Some (i, x) →
  i0 ≤ i < i0 + py_len l
  ∧ l !! Z.to_nat (i - i0) = Some x
  ∧ f x = true
  ∧ (∀ j y, (j < Z.to_nat (i - i0))%nat → l !! j = Some y → f y = false).
Proof.
  unfold py_len. revert i0. induction l as [|a l IH]; intros i0; simpl; [done|].
  destruct (f a) eqn:Ha.
  - intros [= <- <-]. rewrite Z.sub_diag. simpl.
    split; [lia|]. split; [done|]. split; [done|]. intros j y Hj. lia.
  - intros Hhit. destruct (IH _ Hhit) as (Hi & Hx & Hfx & Hbefore).
    split; [lia|].
    replace (Z.to_nat (i - i0)) with (S (Z.to_nat (i - (i0 + 1)))) by lia.
    split; [done|]. split; [done|].
    intros [|j] y Hj; simpl; [by intros [= <-]|].
    apply Hbefore. lia.
Qed.

Lemma first_hit_none {A} (f : A → bool) (l : list A) (i0 : Z) :
  first_hit f l i0 = None ↔ ∀ x, x ∈ l → f x = false.
Proof.
  revert i0. induction l as [|a l IH]; intros i0; simpl.
  - split; [|done]. intros _ x Hx. by apply elem_of_nil in Hx.
  - destruct (f a) eqn:Ha.
    + split; [done|]. intros H. rewrite H in Ha; [done|]. by left.
    + rewrite IH. split.
      * intros H x Hx. apply elem_of_cons in Hx as [->|Hx]; auto.
      * intros H x Hx. apply H. by right.
Qed.

Lemma stop_faulty p w :
  Engine.faulty (Player.player (Player.stop p w).1) = Engine.faulty (Player.player p).
Proof.
  destruct p as [[media meta playing vol muted faulty] now vols st flag].
  unfold Player.stop, Player.guarded, Engine.stop, Engine.guard. simpl.
  by destruct faulty.
Qed.

Lemma set_volume_faulty v p w :
  Engine.faulty (Player.player (Player.set_volume v p w).1)
  = Engine.faulty (Player.player p).
Proof.
  destruct p as [[media meta playing vol muted faulty] now vols st flag].
  unfold Player.set_volume, Player.guarded, Engine.audio_set_volume, Engine.guard.
  simpl. by destruct faulty.
Qed.

Lemma toggle_mute_faulty p w :
  Engine.faulty (Player.player (Player.toggle_mute p w).1)
  = Engine.faulty (Player.player p).
Proof.
  destruct p as [[media meta playing vol muted faulty] now vols st flag].
  unfold Player.toggle_mute, Player.guarded, Engine.audio_toggle_mute, Engine.guard.
  simpl. by destruct faulty.
Qed.

Lemma save_station_volume_player uuid p w :
  Player.player (Player.save_station_volume json_dumps uuid p w).1 = Player.player p.
Proof.
  unfold Player.save_station_volume.
  destruct uuid as [u|]; [|done]. by destruct (Py.truthy u).
Qed.

(** On an engine that answers, [play_station] returns. *)
Lemma play_station_returns (station : Station.t) p w :
  Engine.faulty (Player.player p) = false →
  ∃ r p' w', Player.play_station json_dumps station p w = (Ret r, p', w')
    ∧ Engine.faulty (Player.player p') = false.
Proof.
  intros Hok. destruct (Station.url_resolved station) as [[|c url]|] eqn:Hurl.
  - exists false, p, w. unfold Player.play_station. by rewrite Hurl.
  - destruct p as [[media meta playing vol muted faulty] now vols st flag].
    simpl in Hok. subst faulty.
    unfold Player.play_station. rewrite Hurl.
    Local Opaque emit save_json NowPlaying.set_station clamp.
    simpl.
    destruct (NowPlaying.set_station _ _ _ _) as [n w0].
    unfold Player.apply_station_volume, Player.with_player, Player.with_now. simpl.
    unfold Player.get_volume, Player.set_volume, Player.guarded,
      Player.with_state, Player.with_player. simpl.
    destruct (if Py.truthy_opt (Station.stationuuid station) then _ else _) as [v|];
      simpl; [eauto 10|].
    destruct (vol <=? 0); simpl; eauto 10.
    Local Transparent emit save_json NowPlaying.set_station clamp.
  - exists false, p, w. unfold Player.play_station. by rewrite Hurl.
Qed.

Lemma load_json_returns path default w :
  ∃ v, load_json json_loads path default w = Ret v.
Proof.
  unfold load_json, open_read.
  destruct (fs w !! path) as [c|]; simpl; [|eauto].
  destruct (json_loads c); simpl; eauto.
Qed.

End BrowserProps.

Section BrowserNav.

Variable json_loads : list N → res json.
Variable json_dumps : json → list (list N).

Lemma volume_key_nav d stations (b : Browser.t) (p : Player.t) (w : World) :
  Browser.nav_ok stations b →
  Engine.faulty (Player.player p) = false →
  ∃ b' p' w',
    Browser.volume_key json_loads json_dumps d stations b p w
    = Ret (Browser.Continue, b', p', w')
    ∧ Browser.selected b' = Browser.selected b
    ∧ Browser.offset b' = Browser.offset b
    ∧ Browser.show_history b' = Browser.show_history b
    ∧ Browser.hist_sel b' = Browser.hist_sel b
    ∧ Engine.faulty (Player.player p') = false.
Proof.
  intros [Hsel Hoff] Hok. unfold Browser.volume_key.
  destruct (py_index_ok stations (Browser.selected b) Hsel) as (st & Hst & _).
  pose proof (set_volume_faulty (Player.get_volume p + d) p w) as Hf.
  destruct (Player.set_volume _ p w) as [p1 w1]. simpl in Hf.
  rewrite Hst. simpl.
  pose proof (save_station_volume_player json_dumps (Station.stationuuid st) p1 w1) as Hp.
  destruct (Player.save_station_volume _ _ p1 w1) as [p2 w2]. simpl in Hp.
  destruct (load_json_returns json_loads VOL_FILE (JDict ∅) w2) as [v ->]. simpl.
  eexists _, _, _. split; [done|]. simpl. repeat split; auto. congruence.
Qed.

Ltac fin :=
  repeat split; intros;
  unfold Browser.nav_ok, Browser.visible in *; simpl in *;
  auto; try lia; try congruence.

Lemma on_key_nav lh n key k2 stations (b : Browser.t) (p : Player.t) (w : World) :
  Browser.nav_ok stations b →
  Engine.faulty (Player.player p) = false →
  ∃ o b' p' w',
    Browser.on_key json_loads json_dumps lh n key k2 stations b p w = Ret (o, b', p', w')
    ∧ Browser.nav_ok stations b'
    ∧ Engine.faulty (Player.player p') = false
    ∧ (5 ≤ lh → Browser.visible lh b → Browser.visible lh b')
    ∧ (key_in key [104; 72] = false →
       Browser.show_history b' = Browser.show_history b)
    ∧ (0 ≤ Browser.hist_sel b ≤ Py.max 0 (n - 1) →
       0 ≤ Browser.hist_sel b' ≤ Py.max 0 (n - 1)).
Proof.
  intros [Hsel Hoff] Hok. unfold Browser.on_key.
  pose (conj Hsel Hoff) as Hnav.
  assert (0 ≤ Py.max 0 (n - 1)) as Hmax by (unfold Py.max; case_match; lia).
  destruct (py_index_ok stations (Browser.selected b) Hsel) as (st & Hst & _).
  destruct ((key =? KEY_UP) && (0 <? Browser.selected b)) eqn:K1.
  { eexists _, _, _, _. split; [done|]. unfold Browser.nav_ok, Browser.visible. simpl.
    destruct (_ <? Browser.offset b) eqn:E; fin. }
  destruct ((key =? KEY_DOWN) && _) eqn:K2.
  { eexists _, _, _, _. split; [done|]. unfold Browser.nav_ok, Browser.visible. simpl.
    destruct (_ <=? _) eqn:E; fin. }
  destruct (key_in key [10; 13]) eqn:K3.
  { rewrite Hst. simpl.
    destruct (play_station_returns json_dumps st p w Hok) as (r & p' & w' & -> & Hok').
    eexists _, _, _, _. split; [done|]. fin. }
  destruct (key_in key [115; 83]) eqn:K4.
  { pose proof (stop_faulty p w) as Hf. destruct (Player.stop p w) as [p' w'].
    eexists _, _, _, _. split; [done|]. simpl in Hf. fin. }
  destruct (key_in key [109; 77]) eqn:K5.
  { pose proof (toggle_mute_faulty p w) as Hf. destruct (Player.toggle_mute p w) as [p' w'].
    eexists _, _, _, _. split; [done|]. simpl in Hf. fin. }
  destruct (key_in key [43; 61]) eqn:K6.
  { destruct (volume_key_nav 5 stations b p w (conj Hsel Hoff) Hok)
      as (b' & p' & w' & -> & Hs & Ho & Hsh & Hhs & Hok').
    eexists _, _, _, _. split; [done|].
    unfold Browser.nav_ok, Browser.visible. rewrite Hs, Ho, Hsh, Hhs. fin. }
  destruct (key_in key [45; 95]) eqn:K7.
  { destruct (volume_key_nav (-5) stations b p w (conj Hsel Hoff) Hok)
      as (b' & p' & w' & -> & Hs & Ho & Hsh & Hhs & Hok').
    eexists _, _, _, _. split; [done|].
    unfold Browser.nav_ok, Browser.visible. rewrite Hs, Ho, Hsh, Hhs. fin. }
  destruct (key_in key [104; 72]) eqn:K8.
  { eexists _, _, _, _. split; [done|]. fin. }
  destruct (Browser.show_history b && (key =? KEY_PPAGE)) eqn:K9.
  { eexists _, _, _, _. split; [done|]. simpl.
    pose proof (clamp_bounds (Browser.hist_sel b + 5) 0 _ Hmax).
    fin. }
  destruct (Browser.show_history b && (key =? KEY_NPAGE)) eqn:K10.
  { eexists _, _, _, _. split; [done|]. simpl.
    pose proof (clamp_bounds (Browser.hist_sel b - 5) 0 _ Hmax).
    fin. }
  destruct (is_slot_key key) eqn:K11.
  { rewrite Hst. simpl. destruct (Station.stationuuid st) as [su|].
    - destruct (Py.truthy su); eexists _, _, _, _; (split; [done|]);
        fin.
    - eexists _, _, _, _. split; [done|]. fin. }
  destruct (key_in key [103; 71]) eqn:K12.
  { destruct (is_slot_key k2);
      [|eexists _, _, _, _; split; [done|]; fin].
    destruct (Browser.favs b !! chr k2) as [target|];
      [|eexists _, _, _, _; split; [done|]; fin].
    destruct (Py.truthy target);
      [|eexists _, _, _, _; split; [done|]; fin].
    eexists _, _, _, _. split; [done|].
    unfold Browser.goto.
    destruct (first_hit _ stations 0) as [[i x]|] eqn:Hhit;
      [|fin].
    apply first_hit_spec in Hhit as (Hi & _).
    unfold Browser.nav_ok, Browser.visible, Py.max. simpl.
    case_match; fin. }
  destruct (key_in key [98; 66]) eqn:K13.
  { pose proof (stop_faulty p w) as Hf. destruct (Player.stop p w) as [p' w'].
    eexists _, _, _, _. split; [done|]. simpl in Hf. fin. }
  destruct (key_in key [113; 81]); eexists _, _, _, _; (split; [done|]);
    fin.
Qed.

Lemma list_h_ge h show : 5 ≤ Browser.list_h h show.
Proof. unfold Browser.list_h, Py.max. case_match; lia. Qed.

End BrowserNav.

Section BrowserFrame.

Variable json_loads : list N → res json.
Variable json_dumps : json → list (list N).
Variable lower : list N → list N.
Variable int_of_str : list N → res Z.

Implicit Types (b : Browser.t) (p : Player.t) (w : World)
  (stations : list Station.t) (t : Term).

(** Every volume of -100..100 against every width of 10..30, by
    evaluation. *)
Lemma vu_base_returns_table :
  forallb (λ v, forallb (vu_base_returns_at v) (map Z.of_nat (seq 10 21)))
          (map (λ i, Z.of_nat i - 100) (seq 0 201)) = true.
Proof. vm_compute. reflexivity. Qed.

Lemma vu_level_returns wd probe p :
  -100 ≤ Player.get_volume p ≤ 100 → ∃ n, vu_level wd probe p = Ret n.
Proof.
  intros Hv. unfold vu_level. destruct probe as [l|]; simpl; [eauto|].
  assert (In (Player.get_volume p) (map (λ i, Z.of_nat i - 100) (seq 0 201))) as Hin1.
  { apply in_map_iff. exists (Z.to_nat (Player.get_volume p + 100)).
    split; [lia|]. apply in_seq. lia. }
  assert (In (vu_width wd) (map Z.of_nat (seq 10 21))) as Hin2.
  { pose proof (vu_width_range wd). apply in_range_of_nat. simpl. lia. }
  pose proof (proj1 (forallb_forall _ _) vu_base_returns_table _ Hin1) as Hrow.
  pose proof (proj1 (forallb_forall _ _) Hrow _ Hin2) as Hat.
  unfold vu_base_returns_at in Hat. unfold vu_base.
  destruct (PyFloat.to_int _) as [z|]; [simpl; eauto|done].
Qed.

Lemma get_volume_range p :
  -100 ≤ Engine.volume (Player.player p) ≤ 100 → -100 ≤ Player.get_volume p ≤ 100.
Proof.
  unfold Player.get_volume, Engine.audio_get_volume, Engine.guard.
  destruct (Engine.faulty _); simpl; lia.
Qed.

Lemma volmark_ok vols st :
  volumes_numeric int_of_str vols → ∃ m, Browser.volmark int_of_str vols st = Ret m.
Proof.
  intros (d & -> & Hd). unfold Browser.volmark.
  destruct (Station.stationuuid st) as [su|]; [|eauto].
  destruct (Py.truthy su); [|eauto]. simpl.
  case_bool_decide as Hin; simpl; [|eauto].
  destruct Hin as [x Hx]. rewrite Hx. simpl.
  destruct (Hd su x Hx) as [n ->]. simpl. eauto.
Qed.

Lemma draw_rows_ok vols (view : list Station.t) :
  volumes_numeric int_of_str vols → Browser.draw_rows int_of_str vols view = Ret tt.
Proof.
  intros Hv. induction view as [|st view IH]; [done|].
  cbn [Browser.draw_rows]. destruct (volmark_ok vols st Hv) as [m ->]. exact IH.
Qed.

Lemma stop_volume p w :
  Engine.volume (Player.player (Player.stop p w).1) = Engine.volume (Player.player p).
Proof.
  destruct p as [[media meta playing vol muted faulty] now vols st flag].
  unfold Player.stop, Player.guarded, Engine.stop, Engine.guard. simpl.
  by destruct faulty.
Qed.

Lemma toggle_mute_volume p w :
  Engine.volume (Player.player (Player.toggle_mute p w).1)
  = Engine.volume (Player.player p).
Proof.
  destruct p as [[media meta playing vol muted faulty] now vols st flag].
  unfold Player.toggle_mute, Player.guarded, Engine.audio_toggle_mute, Engine.guard.
  simpl. by destruct faulty.
Qed.

Lemma set_volume_range v p w :
  -100 ≤ Engine.volume (Player.player p) ≤ 100 →
  -100 ≤ Engine.volume (Player.player (Player.set_volume v p w).1) ≤ 100.
Proof.
  destruct p as [[media meta playing vol muted faulty] now vols st flag].
  unfold Player.set_volume, Player.guarded, Engine.audio_set_volume, Engine.guard.
  simpl. pose proof (clamp_bounds v 0 100 ltac:(lia)).
  destruct faulty; simpl; lia.
Qed.

Lemma play_station_range (station : Station.t) p w :
  -100 ≤ Engine.volume (Player.player p) ≤ 100 →
  -100 ≤ Engine.volume
           (Player.player (Player.play_station json_dumps station p w).1.2) ≤ 100.
Proof.
  intros Hr. unfold Player.play_station.
  destruct (Station.url_resolved station) as [[|c url]|]; [done| |done].
  destruct p as [[media meta playing vol muted faulty] now vols st flag].
  simpl in Hr.
  Local Opaque emit save_json NowPlaying.set_station clamp.
  destruct faulty; simpl.
  - destruct (NowPlaying.set_station _ _ _ _) as [n w0]. simpl. lia.
  - destruct (NowPlaying.set_station _ _ _ _) as [n w0].
    unfold Player.apply_station_volume, Player.with_player, Player.with_now. simpl.
    unfold Player.get_volume, Player.set_volume, Player.guarded,
      Player.with_state, Player.with_player. simpl.
    destruct (if Py.truthy_opt (Station.stationuuid station) then _ else _) as [v|];
      simpl.
    + pose proof (clamp_bounds v 0 100 ltac:(lia)). lia.
    + destruct (vol <=? 0); simpl; [|lia].
      pose proof (clamp_bounds 70 0 100 ltac:(lia)). lia.
  Local Transparent emit save_json NowPlaying.set_station clamp.
Qed.

Lemma load_volumes_numeric path w v :
  (∀ c x, json_loads c = Ret x → volumes_numeric int_of_str x) →
  load_json json_loads path (JDict ∅) w = Ret v → volumes_numeric int_of_str v.
Proof.
  intros Hparse. unfold load_json, open_read.
  assert (volumes_numeric int_of_str (JDict ∅)) as Hempty.
  { exists ∅. split; [done|]. intros k x Hx. by rewrite lookup_empty in Hx. }
  destruct (fs w !! path) as [c|]; simpl; [|by intros [= <-]].
  destruct (json_loads c) as [x|] eqn:Hc; simpl; [|by intros [= <-]].
  intros [= <-]. eauto.
Qed.

Lemma volume_key_keeps d stations b p w o b' p' w' :
  (∀ c x, json_loads c = Ret x → volumes_numeric int_of_str x) →
  Browser.volume_key json_loads json_dumps d stations b p w = Ret (o, b', p', w') →
  -100 ≤ Engine.volume (Player.player p) ≤ 100 →
  -100 ≤ Engine.volume (Player.player p') ≤ 100
  ∧ volumes_numeric int_of_str (Browser.volumes b').
Proof.
  intros Hparse. unfold Browser.volume_key. intros Hr Hrange.
  pose proof (set_volume_range (Player.get_volume p + d) p w Hrange) as Hv.
  destruct (Player.set_volume _ p w) as [p1 w1]. simpl in Hv.
  destruct (py_index stations (Browser.selected b)) as [st|]; [|done]. simpl in Hr.
  pose proof (save_station_volume_player json_dumps (Station.stationuuid st) p1 w1) as Hp.
  destruct (Player.save_station_volume _ _ p1 w1) as [p2 w2]. simpl in Hp.
  destruct (load_json json_loads VOL_FILE (JDict ∅) w2) as [v|] eqn:Hl; [|done].
  simpl in Hr. injection Hr as <- <- <- <-. simpl.
  split; [by rewrite Hp|]. by apply (load_volumes_numeric VOL_FILE w2).
Qed.

(** The keys keep the engine's volume in range and the volumes map
    numeric. *)
Lemma on_key_keeps lh n key k2 stations b p w o b' p' w' :
  (∀ c x, json_loads c = Ret x → volumes_numeric int_of_str x) →
  Browser.on_key json_loads json_dumps lh n key k2 stations b p w = Ret (o, b', p', w') →
  -100 ≤ Engine.volume (Player.player p) ≤ 100 →
  volumes_numeric int_of_str (Browser.volumes b) →
  -100 ≤ Engine.volume (Player.player p') ≤ 100
  ∧ volumes_numeric int_of_str (Browser.volumes b').
Proof.
  intros Hparse Hr Hrange Hnum. unfold Browser.on_key in Hr.
  destruct ((key =? KEY_UP) && (0 <? Browser.selected b)).
  { by injection Hr as <- <- <- <-. }
  destruct ((key =? KEY_DOWN) && _).
  { by injection Hr as <- <- <- <-. }
  destruct (key_in key [10; 13]).
  { destruct (py_index stations (Browser.selected b)) as [st|]; [|done]. simpl in Hr.
    pose proof (play_station_range st p w Hrange) as Hp.
    destruct (Player.play_station json_dumps st p w) as [[[r|] p1] w1]; [|done].
    injection Hr as <- <- <- <-. by split. }
  destruct (key_in key [115; 83]).
  { pose proof (stop_volume p w) as Hs. destruct (Player.stop p w) as [p1 w1].
    injection Hr as <- <- <- <-. simpl in Hs. split; [by rewrite Hs|done]. }
  destruct (key_in key [109; 77]).
  { pose proof (toggle_mute_volume p w) as Hs. destruct (Player.toggle_mute p w) as [p1 w1].
    injection Hr as <- <- <- <-. simpl in Hs. split; [by rewrite Hs|done]. }
  destruct (key_in key [43; 61]).
  { by apply (volume_key_keeps 5 stations b p w o b' p' w'). }
  destruct (key_in key [45; 95]).
  { by apply (volume_key_keeps (-5) stations b p w o b' p' w'). }
  destruct (key_in key [104; 72]).
  { by injection Hr as <- <- <- <-. }
  destruct (Browser.show_history b && (key =? KEY_PPAGE)).
  { by injection Hr as <- <- <- <-. }
  destruct (Browser.show_history b && (key =? KEY_NPAGE)).
  { by injection Hr as <- <- <- <-. }
  destruct (is_slot_key key).
  { destruct (py_index stations (Browser.selected b)) as [st|]; [|done]. simpl in Hr.
    destruct (Station.stationuuid st) as [su|]; [|by injection Hr as <- <- <- <-].
    destruct (Py.truthy su); by injection Hr as <- <- <- <-. }
  destruct (key_in key [103; 71]).
  { destruct (is_slot_key k2); [|by injection Hr as <- <- <- <-].
    destruct (Browser.favs b !! chr k2) as [target|]; [|by injection Hr as <- <- <- <-].
    destruct (Py.truthy target); [|by injection Hr as <- <- <- <-].
    injection Hr as <- <- <- <-. split; [done|].
    unfold Browser.goto. by destruct (first_hit _ stations 0) as [[i x]|]. }
  destruct (key_in key [98; 66]).
  { pose proof (stop_volume p w) as Hs. destruct (Player.stop p w) as [p1 w1].
    injection Hr as <- <- <- <-. simpl in Hs. split; [by rewrite Hs|done]. }
  destruct (key_in key [113; 81]); by injection Hr as <- <- <- <-.
Qed.

Lemma frame_inv t stations b (vu : PulseVU.t) p w :
  (∀ c x, json_loads c = Ret x → volumes_numeric int_of_str x) →
  frame_ok int_of_str stations b p →
  draw_banner t = Ret tt →
  let lh := Browser.list_h (maxyx t).1 (Browser.show_history b) in
  let n := py_len (NowPlaying.history (Player.now p)) in
  ∃ o b' vu' p' w',
    Browser.frame json_loads json_dumps lower int_of_str t stations b vu p w
    = Ret (o, b', vu', p', w')
    ∧ frame_ok int_of_str stations b' p'
    ∧ (Browser.visible lh b → Browser.visible lh b')
    ∧ (key_in (getch t) [104; 72] = false →
       Browser.show_history b' = Browser.show_history b)
    ∧ (Browser.show_history b = true →
       0 ≤ Browser.hist_sel b' ≤ Py.max 0 (n - 1)).
Proof.
  intros Hparse [Hnav Hok Hrange Hnum] Hbanner lh n.
  unfold Browser.frame. rewrite Hbanner. cbn [mbind res_bind].
  subst lh. destruct (maxyx t) as [h wd]. cbn [fst].
  set (lh := Browser.list_h h (Browser.show_history b)).
  rewrite (draw_rows_ok _ _ Hnum). cbn [mbind res_bind].
  unfold NowPlaying.snapshot. fold n.
  unfold vu_frame. destruct (PulseVU.level lower vu (sink_inputs t)) as [probe vu'].
  destruct (vu_level_returns wd probe p (get_volume_range p Hrange)) as [lvl ->].
  cbn [mbind res_bind].
  assert (Browser.selected (Browser.render_clamp h n b) = Browser.selected b
          ∧ Browser.offset (Browser.render_clamp h n b) = Browser.offset b
          ∧ Browser.show_history (Browser.render_clamp h n b) = Browser.show_history b
          ∧ Browser.volumes (Browser.render_clamp h n b) = Browser.volumes b)
    as (Hs & Ho & Hsh & Hvs).
  { unfold Browser.render_clamp.
    destruct (Browser.show_history b) eqn:E; simpl; rewrite ?E; auto. }
  destruct (on_key_nav json_loads json_dumps lh n (getch t) (getch_goto t) stations
              (Browser.render_clamp h n b) p (emit EvRelease (emit EvAcquire w)))
    as (o & b' & p' & w' & Hr & Hnav' & Hok' & Hvis & Hshow & Hhist); [|done|].
  { unfold Browser.nav_ok. by rewrite Hs, Ho. }
  destruct (on_key_keeps _ _ _ _ _ _ _ _ _ _ _ _ Hparse Hr Hrange) as [Hrange' Hnum'].
  { by rewrite Hvs. }
  rewrite Hr. cbn [mbind res_bind mret res_ret].
  exists o, b', vu', p', w'. split; [done|]. split; [by constructor|].
  split; [|split].
  - intros Hv. apply Hvis; [apply list_h_ge|].
    unfold Browser.visible. by rewrite Hs, Ho.
  - intros Hk. by rewrite Hshow, Hsh.
  - intros Htrue. apply Hhist.
    unfold Browser.render_clamp. rewrite Htrue. simpl.
    apply clamp_bounds. unfold Py.max. case_match; lia.
Qed.

Lemma frame_ok_start stations favs volumes state p :
  stations ≠ [] →
  Engine.faulty (Player.player p) = false →
  -100 ≤ Player.get_volume p ≤ 100 →
  volumes_numeric int_of_str volumes →
  frame_ok int_of_str stations (browser_start favs volumes state) p.
Proof.
  intros Hne Hok Hv Hnum. split; [|done| |done].
  - unfold Browser.nav_ok, py_len. simpl. destruct stations; [done|simpl; lia].
  - unfold Player.get_volume, Engine.audio_get_volume, Engine.guard in Hv.
    by rewrite Hok in Hv.
Qed.

End BrowserFrame.







(** A pass raises before a key is read when curses refuses a banner line,
    as on a terminal of five rows, and when a station it draws has a stored
    volume that is no number. *)
Lemma frame_raises_while_drawing :
  (∀ json_loads json_dumps lower int_of_str t stations b vu p w,
     draw_banner t = Raise →
     Browser.frame json_loads json_dumps lower int_of_str t stations b vu p w = Raise)
  ∧ draw_banner (screen 5 80 113 0) = Raise
  ∧ Browser.frame loads_empty_dict dumps_kind (λ s, s) (λ _, Raise)
      (screen 24 80 113 0) [station_abc]
      (browser_start ∅ (JDict {[Py.lit "abc" := JNull]}) ∅)
      (PulseVU.mk false 0) player0 world0
    = Raise.
Proof.
  split; [|split; vm_compute; reflexivity].
  intros. unfold Browser.frame. by rewrite H.
Qed.

Section BrowserKeys.

Variable json_loads : list N → res json.
Variable json_dumps : json → list (list N).

Ltac key_consts := unfold KEY_UP, KEY_DOWN, KEY_PPAGE, KEY_NPAGE in *.

Lemma is_slot_key_range key : is_slot_key key = true ↔ 49 ≤ key ≤ 57.
Proof. unfold is_slot_key. rewrite andb_true_iff, Z.leb_le, Z.ltb_lt. lia. Qed.

(** A digit key reaches the favorites branch. *)
Lemma on_key_slot lh n key k2 stations (b : Browser.t) (p : Player.t) (w : World) :
  is_slot_key key = true →
  Browser.on_key json_loads json_dumps lh n key k2 stations b p w
  = (st ← py_index stations (Browser.selected b);
     match Station.stationuuid st with
     | Some su =>
         if Py.truthy su then
           mret (Browser.Continue,
                 Browser.mk (Browser.selected b) (Browser.offset b)
                   (Browser.show_history b) (Browser.hist_sel b)
                   (Browser.hist_scroll b) (<[chr key := su]> (Browser.favs b))
                   (Browser.volumes b) (Browser.state b),
                 p, save_json json_dumps FAV_FILE
                      (JDict (JStr <$> <[chr key := su]> (Browser.favs b))) w)
         else mret (Browser.Continue, b, p, w)
     | None => mret (Browser.Continue, b, p, w)
     end).
Proof.
  intros Hk. unfold Browser.on_key. rewrite Hk.
  apply is_slot_key_range in Hk. key_consts. unfold key_in, existsb.
  repeat match goal with
         | |- context [key =? ?c] => rewrite (proj2 (Z.eqb_neq key c)) by lia
         end.
  simpl. by rewrite !andb_false_r.
Qed.

(** [g] or [G] reaches the goto branch. *)
Lemma on_key_goto lh n key k2 stations (b : Browser.t) (p : Player.t) (w : World) :
  key_in key [103; 71] = true →
  Browser.on_key json_loads json_dumps lh n key k2 stations b p w
  = if is_slot_key k2 then
      match Browser.favs b !! chr k2 with
      | Some target =>
          if Py.truthy target
          then mret (Browser.Continue, Browser.goto target stations b, p, w)
          else mret (Browser.Continue, b, p, w)
      | None => mret (Browser.Continue, b, p, w)
      end
    else mret (Browser.Continue, b, p, w).
Proof.
  intros Hk. unfold key_in in Hk. simpl in Hk.
  rewrite orb_false_r, orb_true_iff, !Z.eqb_eq in Hk.
  unfold Browser.on_key.
  destruct Hk as [-> | ->]; simpl; by rewrite !andb_false_r.
Qed.

(** [h] or [H] reaches the history toggle. *)
Lemma on_key_history lh n key k2 stations (b : Browser.t) (p : Player.t) (w : World) :
  key_in key [104; 72] = true →
  Browser.on_key json_loads json_dumps lh n key k2 stations b p w
  = mret (Browser.Continue,
          Browser.mk (Browser.selected b) (Browser.offset b)
            (negb (Browser.show_history b)) (Browser.hist_sel b) (Browser.hist_scroll b)
            (Browser.favs b) (Browser.volumes b)
            (<[Py.lit "show_history" := JBool (negb (Browser.show_history b))]>
               (Browser.state b)),
          p,
          save_json json_dumps STATE_FILE
            (JDict (<[Py.lit "show_history" := JBool (negb (Browser.show_history b))]>
                      (Browser.state b))) w).
Proof.
  intros Hk. unfold key_in in Hk. simpl in Hk.
  rewrite orb_false_r, orb_true_iff, !Z.eqb_eq in Hk.
  unfold Browser.on_key.
  destruct Hk as [-> | ->]; reflexivity.
Qed.

(** The volume keys reach [volume_key]. *)
Lemma on_key_volume lh n key k2 stations (b : Browser.t) (p : Player.t) (w : World) :
  key_in key [43; 61; 45; 95] = true →
  Browser.on_key json_loads json_dumps lh n key k2 stations b p w
  = Browser.volume_key json_loads json_dumps
      (if key_in key [43; 61] then 5 else -5) stations b p w.
Proof.
  intros Hk. unfold key_in in Hk. simpl in Hk.
  rewrite orb_false_r, !orb_true_iff, !Z.eqb_eq in Hk.
  unfold Browser.on_key.
  destruct Hk as [-> | [-> | [-> | ->]]]; reflexivity.
Qed.

End BrowserKeys.

(** X20: a favorite is found again: pressing a digit on a station with a
    uuid stores that uuid under the digit's slot (replacing what the slot
    held), saves the favorites file and moves nothing; pressing [g] and the
    digit later, from any selection, selects the first station of the list
    with that uuid (the same station when uuids are not repeated before it)
    and starts the window at most three rows above it. *)
Theorem X20_favorite_is_found_again (json_loads : list N → res json)
    (json_dumps : json → list (list N)) (lh n slot : Z)
    (stations : list Station.t) (b : Browser.t) (p : Player.t) (w : World)
    (st : Station.t) (su : list N) :
  is_slot_key slot = true →
  0 ≤ Browser.selected b < py_len stations →
  stations !! Z.to_nat (Browser.selected b) = Some st →
  Station.stationuuid st = Some su → su ≠ [] →
  let fv := <[chr slot := su]> (Browser.favs b) in
  ∃ b1 w1,
    Browser.on_key json_loads json_dumps lh n slot 0 stations b p w
    = Ret (Browser.Continue, b1, p, w1)
    ∧ Browser.favs b1 = fv
    ∧ Browser.selected b1 = Browser.selected b
    ∧ Browser.offset b1 = Browser.offset b
    ∧ fs w1 !! FAV_FILE = Some (concat (json_dumps (JDict (JStr <$> fv))))
    ∧ ∀ key b2 p2 w2, key_in key [103; 71] = true → Browser.favs b2 = fv →
        ∃ i b3 st',
          Browser.on_key json_loads json_dumps lh n key slot stations b2 p2 w2
          = Ret (Browser.Continue, b3, p2, w2)
          ∧ Browser.selected b3 = i
          ∧ Browser.offset b3 = Py.max 0 (i - 3)
          ∧ 0 ≤ i ≤ Browser.selected b
          ∧ stations !! Z.to_nat i = Some st'
          ∧ Station.stationuuid st' = Some su
          ∧ (∀ j y, (j < Z.to_nat i)%nat → stations !! j = Some y →
               Station.stationuuid y ≠ Some su).
Proof.
  intros Hslot Hsel Hst Hsu Hne fv.
  destruct (py_index_ok stations _ Hsel) as (st0 & Hidx & Hst0).
  assert (st0 = st) as -> by congruence.
  assert (Py.truthy su = true) as Htr by (by destruct su).
  eexists _, _. split.
  { rewrite on_key_slot by done. rewrite Hidx. simpl. rewrite Hsu, Htr. reflexivity. }
  simpl. split; [done|]. split; [done|]. split; [done|].
  split; [apply fs_save_json|].
  intros key b2 p2 w2 Hkey Hfv.
  rewrite on_key_goto by done. rewrite Hslot, Hfv. unfold fv.
  rewrite lookup_insert_eq, Htr. unfold Browser.goto.
  destruct (first_hit _ stations 0) as [[i x]|] eqn:Hhit.
  - apply first_hit_spec in Hhit as (Hi & Hx & Hfx & Hbefore).
    rewrite Z.sub_0_r in *. apply bool_decide_eq_true in Hfx.
    exists i, (Browser.with_nav i (Py.max 0 (i - 3)) b2), x.
    split; [done|]. split; [done|]. split; [done|].
    split.
    + split; [lia|]. destruct (Z_lt_le_dec (Browser.selected b) i) as [Hlt|]; [|lia].
      specialize (Hbefore (Z.to_nat (Browser.selected b)) st ltac:(lia) Hst).
      apply bool_decide_eq_false in Hbefore. done.
    + split; [done|]. split; [done|].
      intros j y Hj Hy. specialize (Hbefore j y Hj Hy).
      by apply bool_decide_eq_false in Hbefore.
  - exfalso. rewrite first_hit_none in Hhit.
    specialize (Hhit st (list_elem_of_lookup_2 _ _ _ Hst)).
    by apply bool_decide_eq_false in Hhit.
Qed.

Lemma X20_favorite_is_found_again_witness :
  ∃ b1 w1,
    Browser.on_key loads_shape dumps_shape 10 0 51 0 [station_abc; station_abc]
      (Browser.mk 1 0 true 0 0 ∅ (JDict ∅) ∅) player0 world0
    = Ret (Browser.Continue, b1, player0, w1)
    ∧ Browser.favs b1 = {[ Py.lit "3" := Py.lit "abc" ]}.
Proof.
  destruct (X20_favorite_is_found_again loads_shape dumps_shape 10 0 51
              [station_abc; station_abc] (Browser.mk 1 0 true 0 0 ∅ (JDict ∅) ∅)
              player0 world0 station_abc (Py.lit "abc")
              eq_refl ltac:(unfold py_len; simpl; lia) eq_refl eq_refl
              ltac:(discriminate))
    as (b1 & w1 & Hr & Hfv & _).
  exists b1, w1. split; [exact Hr|]. rewrite Hfv. reflexivity.
Defined.

(** X21: [g] changes nothing unless it finds a station: when the key after
    it is no digit 1-9, or its slot holds no favorite, or no station of the
    list has the favorite's uuid, the browser, the player and the world stay
    as they were. *)
Theorem X21_goto_without_target (json_loads : list N → res json)
    (json_dumps : json → list (list N)) (lh n key k2 : Z)
    (stations : list Station.t) (b : Browser.t) (p : Player.t) (w : World) :
  key_in key [103; 71] = true →
  is_slot_key k2 = false
  ∨ Browser.favs b !! chr k2 = None
  ∨ Browser.favs b !! chr k2 = Some []
  ∨ (∃ target, Browser.favs b !! chr k2 = Some target
       ∧ ∀ st, st ∈ stations → Station.stationuuid st ≠ Some target) →
  Browser.on_key json_loads json_dumps lh n key k2 stations b p w
  = Ret (Browser.Continue, b, p, w).
Proof.
  intros Hkey Hcase. rewrite on_key_goto by done.
  destruct (is_slot_key k2); [|done].
  destruct Hcase as [? | [-> | [-> | (target & -> & Hno)]]]; [done..|].
  destruct (Py.truthy target); [|done].
  unfold Browser.goto.
  replace (first_hit _ stations 0) with (@None (Z * Station.t)); [done|].
  symmetry. apply first_hit_none. intros st Hst.
  apply bool_decide_eq_false. by apply Hno.
Qed.

Lemma X21_goto_without_target_witness :
  Browser.on_key loads_shape dumps_shape 10 0 103 120 [station_abc]
    (Browser.mk 0 0 true 0 0 ∅ (JDict ∅) ∅) player0 world0
  = Ret (Browser.Continue, Browser.mk 0 0 true 0 0 ∅ (JDict ∅) ∅, player0, world0).
Proof.
  apply X21_goto_without_target; [reflexivity|]. left. reflexivity.
Defined.

(** X22: the history toggle saves the browser's own copy of the state:
    [h] flips [show_history], records it in that copy and writes the copy
    to the state file, so the file's [last_stationuuid] is then the one the
    browser loaded at its start, also after [play_station] has saved another
    one; pressing [h] twice restores the flag. *)
Theorem X22_history_toggle_saves_own_copy (json_loads : list N → res json)
    (json_dumps : json → list (list N)) (lh n key k2 : Z)
    (stations : list Station.t) (b : Browser.t) (p : Player.t) (w : World) :
  key_in key [104; 72] = true →
  ∃ b1 w1,
    Browser.on_key json_loads json_dumps lh n key k2 stations b p w
    = Ret (Browser.Continue, b1, p, w1)
    ∧ Browser.show_history b1 = negb (Browser.show_history b)
    ∧ Browser.state b1
      = <[Py.lit "show_history" := JBool (negb (Browser.show_history b))]> (Browser.state b)
    ∧ Browser.state b1 !! Py.lit "last_stationuuid"
      = Browser.state b !! Py.lit "last_stationuuid"
    ∧ fs w1 !! STATE_FILE = Some (concat (json_dumps (JDict (Browser.state b1))))
    ∧ (∀ p' w', ∃ b2 w2,
         Browser.on_key json_loads json_dumps lh n key k2 stations b1 p' w'
         = Ret (Browser.Continue, b2, p', w2)
         ∧ Browser.show_history b2 = Browser.show_history b).
Proof.
  intros Hkey. eexists _, _. split; [by rewrite on_key_history|].
  simpl. split; [done|]. split; [done|].
  split; [rewrite lookup_insert_ne; [done|by vm_compute]|].
  split; [apply fs_save_json|].
  intros p' w'. eexists _, _. split; [by rewrite on_key_history|].
  simpl. apply negb_involutive.
Qed.

Lemma X22_history_toggle_saves_own_copy_witness :
  let out := Player.play_station dumps_kind station_abc player0 world0 in
  ∃ b1 w1,
    Browser.on_key loads_shape dumps_kind 10 0 104 0 [station_abc]
      (browser_start ∅ (JDict ∅) {[ Py.lit "last_stationuuid" := JNull ]})
      out.1.2 out.2
    = Ret (Browser.Continue, b1, out.1.2, w1)
    ∧ Player.state out.1.2 !! Py.lit "last_stationuuid" = Some (JStr (Py.lit "abc"))
    ∧ Browser.state b1 !! Py.lit "last_stationuuid" = Some JNull
    ∧ fs w1 !! STATE_FILE = Some (concat (dumps_kind (JDict (Browser.state b1)))).
Proof.
  intros out.
  destruct (X22_history_toggle_saves_own_copy loads_shape dumps_kind 10 0 104 0
              [station_abc]
              (browser_start ∅ (JDict ∅) {[ Py.lit "last_stationuuid" := JNull ]})
              out.1.2 out.2 eq_refl)
    as (b1 & w1 & Hr & _ & _ & Hlast & Hfile & _).
  exists b1, w1. split; [exact Hr|]. split; [vm_compute; reflexivity|].
  split; [rewrite Hlast; vm_compute; reflexivity|exact Hfile].
Defined.

Lemma set_volume_effect (v : Z) (p : Player.t) (w : World) :
  Engine.faulty (Player.player p) = false →
  Player.get_volume (Player.set_volume v p w).1 = clamp v 0 100
  ∧ Player.volumes (Player.set_volume v p w).1 = Player.volumes p
  ∧ fs (Player.set_volume v p w).2 = fs w.
Proof.
  destruct p as [[media meta playing vol muted faulty] now vols st flag].
  simpl. intros ->. done.
Qed.

Lemma save_station_volume_effect (json_dumps : json → list (list N))
    (uuid : option (list N)) (p : Player.t) (w : World) :
  let r := Player.save_station_volume json_dumps uuid p w in
  (Py.truthy_opt uuid = false → r = (p, w))
  ∧ (∀ u, uuid = Some u → u ≠ [] →
       Player.volumes r.1 !! u = Some (Player.get_volume p)
       ∧ (∀ u', u' ≠ u → Player.volumes r.1 !! u' = Player.volumes p !! u')
       ∧ Player.player r.1 = Player.player p
       ∧ fs r.2 !! VOL_FILE
         = Some (concat (json_dumps (JDict (JInt <$> Player.volumes r.1))))
       ∧ fs r.2 !! STATE_FILE = fs w !! STATE_FILE).
Proof.
  intros r. subst r. unfold Player.save_station_volume. split.
  - destruct uuid as [[|c u]|]; simpl; done.
  - intros u -> Hu. destruct u as [|c u]; [done|]. simpl.
    split; [by rewrite lookup_insert_eq|].
    split; [intros u' Hne; by rewrite lookup_insert_ne|].
    split; [done|]. split; [apply fs_save_json|].
    apply fs_save_json_other; intros E; vm_compute in E; discriminate.
Qed.

(** X23: the volume keys move the volume by 5 within 0..100 and remember
    it for the selected station: on an engine that answers, after [+] or
    [=] ([-] or [_]) the volume is [clamp(volume + 5, 0, 100)]
    ([clamp(volume - 5, 0, 100)]); when the selected station has a uuid the
    new volume is stored under it and the volumes file saved; the selection
    does not move. *)
Theorem X23_volume_keys (json_loads : list N → res json)
    (json_dumps : json → list (list N)) (lh n key k2 : Z)
    (stations : list Station.t) (b : Browser.t) (p : Player.t) (w : World)
    (st : Station.t) :
  key_in key [43; 61; 45; 95] = true →
  0 ≤ Browser.selected b < py_len stations →
  stations !! Z.to_nat (Browser.selected b) = Some st →
  Engine.faulty (Player.player p) = false →
  let d := if key_in key [43; 61] then 5 else -5 in
  let v := clamp (Player.get_volume p + d) 0 100 in
  ∃ b' p' w',
    Browser.on_key json_loads json_dumps lh n key k2 stations b p w
    = Ret (Browser.Continue, b', p', w')
    ∧ Player.get_volume p' = v
    ∧ 0 ≤ v ≤ 100
    ∧ Browser.selected b' = Browser.selected b
    ∧ Browser.offset b' = Browser.offset b
    ∧ Browser.favs b' = Browser.favs b
    ∧ (∀ u, Station.stationuuid st = Some u → u ≠ [] →
         Player.volumes p' !! u = Some v
         ∧ fs w' !! VOL_FILE
           = Some (concat (json_dumps (JDict (JInt <$> Player.volumes p')))))
    ∧ (Py.truthy_opt (Station.stationuuid st) = false →
         Player.volumes p' = Player.volumes p ∧ fs w' = fs w).
Proof.
  intros Hkey Hsel Hst Hok d v.
  rewrite on_key_volume by done. fold d. unfold Browser.volume_key.
  destruct (py_index_ok stations _ Hsel) as (st0 & Hidx & Hst0).
  assert (st0 = st) as -> by congruence.
  pose proof (set_volume_effect (Player.get_volume p + d) p w Hok) as (Hv & Hvols & Hfs).
  destruct (Player.set_volume _ p w) as [p1 w1]. simpl in Hv, Hvols, Hfs.
  rewrite Hidx. simpl.
  pose proof (save_station_volume_player json_dumps (Station.stationuuid st) p1 w1) as Hp.
  pose proof (save_station_volume_effect json_dumps (Station.stationuuid st) p1 w1) as [Hnone Hsome].
  destruct (Player.save_station_volume _ _ p1 w1) as [p2 w2]. simpl in Hp, Hnone, Hsome.
  destruct (load_json_returns json_loads VOL_FILE (JDict ∅) w2) as [vols ->]. simpl.
  eexists _, _, _. split; [done|]. simpl.
  assert (Player.get_volume p2 = v) as Hv2.
  { unfold Player.get_volume. rewrite Hp. exact Hv. }
  split; [done|]. split; [apply clamp_bounds; lia|].
  split; [done|]. split; [done|]. split; [done|]. split.
  - intros u Hu Hne. destruct (Hsome u Hu Hne) as (Hl & _ & _ & Hfile & _).
    split; [|done]. rewrite Hl. f_equal. exact Hv.
  - intros Hfalse. injection (Hnone Hfalse) as -> ->. by split.
Qed.

Lemma X23_volume_keys_witness :
  ∃ b' p' w',
    Browser.on_key loads_shape dumps_shape 10 0 45 0 [station_abc]
      (browser_start ∅ (JDict ∅) ∅) player0 world0
    = Ret (Browser.Continue, b', p', w')
    ∧ Player.get_volume p' = 0
    ∧ Player.volumes p' !! Py.lit "abc" = Some 0.
Proof.
  destruct (X23_volume_keys loads_shape dumps_shape 10 0 45 0 [station_abc]
              (browser_start ∅ (JDict ∅) ∅) player0 world0 station_abc
              eq_refl ltac:(unfold py_len; simpl; lia) eq_refl eq_refl)
    as (b' & p' & w' & Hr & Hv & _ & _ & _ & _ & Hu & _).
  exists b', p', w'. split; [exact Hr|]. split; [exact Hv|].
  exact (proj1 (Hu (Py.lit "abc") eq_refl ltac:(discriminate))).
Defined.

Ltac fin2 :=
  repeat match goal with
         | |- _ ∧ _ => split
         | |- _ ↔ _ => split
         end; intros; auto; try done; try discriminate; try congruence.

(** X24: which keys can write: a key other than Enter, [+ = - _], [h H]
    and the digits 1-9 never changes a file; unless it is also one of
    [s S m M b B] it changes neither the player nor the world at all; the
    loop ends exactly on [b B] (back) and [q Q] (quit), whatever the state. *)
Theorem X24_keys_that_change_nothing (json_loads : list N → res json)
    (json_dumps : json → list (list N)) (lh n key k2 : Z)
    (stations : list Station.t) (b : Browser.t) (p : Player.t) (w : World) :
  key_in key [10; 13] = false →
  key_in key [43; 61] = false → key_in key [45; 95] = false →
  key_in key [104; 72] = false →
  is_slot_key key = false →
  ∃ o b' p' w',
    Browser.on_key json_loads json_dumps lh n key k2 stations b p w
    = Ret (o, b', p', w')
    ∧ fs w' = fs w
    ∧ Player.volumes p' = Player.volumes p
    ∧ Player.state p' = Player.state p
    ∧ Player.now p' = Player.now p
    ∧ Browser.favs b' = Browser.favs b
    ∧ (key_in key [115; 83] = false → key_in key [109; 77] = false →
       key_in key [98; 66] = false → p' = p ∧ w' = w)
    ∧ (o = Browser.Back ↔ key_in key [98; 66] = true)
    ∧ (o = Browser.Quit ↔ key_in key [113; 81] = true).
Proof.
  intros K3 K6 K7 K8 K11. unfold Browser.on_key.
  rewrite K3, K6, K7, K8, K11.
  assert (∀ c, key_in key [c] = (key =? c)) as Hone
    by (intros c; unfold key_in; simpl; apply orb_false_r).
  unfold key_in in *. simpl in *. rewrite ?orb_false_r in *.
  destruct ((key =? KEY_UP) && _) eqn:K1.
  { apply andb_prop in K1 as [K1 _]. apply Z.eqb_eq in K1. subst key.
    eexists _, _, _, _. split; [done|]. simpl. fin2. }
  destruct ((key =? KEY_DOWN) && _) eqn:K2.
  { apply andb_prop in K2 as [K2 _]. apply Z.eqb_eq in K2. subst key.
    eexists _, _, _, _. split; [done|]. simpl. fin2. }
  destruct ((key =? 115) || (key =? 83)) eqn:K4.
  { destruct p as [[media meta playing vol muted faulty] now vols st flag].
    unfold Player.stop, Player.guarded, Engine.stop, Engine.guard. simpl.
    apply orb_prop in K4 as [K4|K4]; apply Z.eqb_eq in K4; subst key;
      destruct faulty; simpl; eexists _, _, _, _; (split; [done|]);
      simpl; fin2. }
  destruct ((key =? 109) || (key =? 77)) eqn:K5.
  { destruct p as [[media meta playing vol muted faulty] now vols st flag].
    unfold Player.toggle_mute, Player.guarded, Engine.audio_toggle_mute, Engine.guard.
    simpl.
    apply orb_prop in K5 as [K5|K5]; apply Z.eqb_eq in K5; subst key;
      destruct faulty; simpl; eexists _, _, _, _; (split; [done|]);
      simpl; fin2. }
  destruct (Browser.show_history b && (key =? KEY_PPAGE)) eqn:K9.
  { apply andb_prop in K9 as [_ K9]. apply Z.eqb_eq in K9. subst key.
    eexists _, _, _, _. split; [done|]. simpl. fin2. }
  destruct (Browser.show_history b && (key =? KEY_NPAGE)) eqn:K10.
  { apply andb_prop in K10 as [_ K10]. apply Z.eqb_eq in K10. subst key.
    eexists _, _, _, _. split; [done|]. simpl. fin2. }
  destruct ((key =? 103) || (key =? 71)) eqn:K12.
  { assert (∃ b', (if is_slot_key k2
                   then match Browser.favs b !! chr k2 with
                        | Some target =>
                            if Py.truthy target
                            then mret (Browser.Continue,
                                       Browser.goto target stations b, p, w)
                            else mret (Browser.Continue, b, p, w)
                        | None => mret (Browser.Continue, b, p, w)
                        end
                   else mret (Browser.Continue, b, p, w))
                  = Ret (Browser.Continue, b', p, w)
                  ∧ Browser.favs b' = Browser.favs b) as (b' & -> & Hfv).
    { destruct (is_slot_key k2); [|by exists b].
      destruct (Browser.favs b !! chr k2) as [t|]; [|by exists b].
      destruct (Py.truthy t); [|by exists b].
      eexists. split; [done|]. unfold Browser.goto.
      by destruct (first_hit _ stations 0) as [[i x]|]. }
    apply orb_prop in K12 as [K12|K12]; apply Z.eqb_eq in K12; subst key;
      eexists _, _, _, _; (split; [done|]); simpl in *; fin2. }
  destruct ((key =? 98) || (key =? 66)) eqn:K13.
  { destruct p as [[media meta playing vol muted faulty] now vols st flag].
    unfold Player.stop, Player.guarded, Engine.stop, Engine.guard. simpl.
    apply orb_prop in K13 as [K13|K13]; apply Z.eqb_eq in K13; subst key;
      destruct faulty; simpl; eexists _, _, _, _; (split; [done|]);
      simpl; fin2. }
  destruct ((key =? 113) || (key =? 81)) eqn:K14;
    eexists _, _, _, _; (split; [done|]); simpl; fin2.
Qed.

Lemma X24_keys_that_change_nothing_witness :
  ∃ o b' p' w',
    Browser.on_key loads_shape dumps_shape 10 0 107 0 [station_abc]
      (browser_start ∅ (JDict ∅) ∅) player0 world0
    = Ret (o, b', p', w')
    ∧ p' = player0 ∧ w' = world0 ∧ o ≠ Browser.Quit.
Proof.
  destruct (X24_keys_that_change_nothing loads_shape dumps_shape 10 0 107 0
              [station_abc] (browser_start ∅ (JDict ∅) ∅) player0 world0
              eq_refl eq_refl eq_refl eq_refl eq_refl)
    as (o & b' & p' & w' & Hr & _ & _ & _ & _ & _ & Hsame & _ & Hquit).
  exists o, b', p', w'. split; [exact Hr|].
  destruct (Hsame eq_refl eq_refl eq_refl) as [-> ->].
  split; [done|]. split; [done|].
  intros Hq. apply Hquit in Hq. discriminate.
Defined.

(** X25: the autostart of [main] resumes the station played last: with no
    saved uuid, or no station of the search result carrying it, nothing
    happens; otherwise [play_station] is called on the first station of
    the result with that uuid and on no other: when that station has a
    non-empty resolved URL and the engine answers, it is then the current,
    playing station; when it has no resolved URL, nothing happens. *)
Theorem X25_autostart_resumes_first_match (json_dumps : json → list (list N))
    (last : json) (stations : list Station.t) (p : Player.t) (w : World) :
  (json_truthy last = false ∨ (∀ st, st ∈ stations → uuid_is last st = false) →
   Browser.autostart json_dumps last stations p w = Ret (p, w))
  ∧ (∀ st url,
       json_truthy last = true →
       List.find (uuid_is last) stations = Some st →
       Station.url_resolved st = Some url → url ≠ [] →
       Engine.faulty (Player.player p) = false →
       ∃ u p' w',
         last = JStr u ∧ Station.stationuuid st = Some u
         ∧ Browser.autostart json_dumps last stations p w = Ret (p', w')
         ∧ NowPlaying.stationuuid (Player.now p') = Some u
         ∧ Engine.media (Player.player p') = Some url
         ∧ Player.is_playing p' = true)
  ∧ (∀ st,
       json_truthy last = true →
       List.find (uuid_is last) stations = Some st →
       Py.truthy_opt (Station.url_resolved st) = false →
       Browser.autostart json_dumps last stations p w = Ret (p, w)).
Proof.
  split; [|split].
  - unfold Browser.autostart. intros [-> | Hno]; [done|].
    destruct (json_truthy last); [|done].
    replace (List.find (uuid_is last) stations) with (@None Station.t); [done|].
    symmetry. apply find_none_all. intros st Hst. apply Hno.
    by apply list_elem_of_In.
  - intros st url Htr Hfind Hurl Hne Hok.
    apply find_some in Hfind as Hmatch. destruct Hmatch as [_ Hmatch].
    unfold uuid_is in Hmatch.
    destruct (Station.stationuuid st) as [u|] eqn:Hu.
    + destruct last as [| | | |s| |]; try done.
      apply bool_decide_eq_true in Hmatch. subst s.
      destruct (play_station_success json_dumps st p w url Hurl Hne Hok)
        as (Hret & _ & _ & _ & Hnow & Hmedia & Hplay & _).
      unfold Browser.autostart. rewrite Htr, Hfind.
      destruct (Player.play_station json_dumps st p w) as [[r p'] w'].
      simpl in *. subst r. exists u, p', w'.
      split; [done|]. split; [done|]. split; [done|].
      rewrite Hnow. by rewrite Hu.
    + destruct last; try done.
  - intros st Htr Hfind Hurl.
    unfold Browser.autostart. rewrite Htr, Hfind.
    unfold Player.play_station. by rewrite Hurl.
Qed.

(** ** Drawing *)

Lemma py_slice_to_take {A} (l : list A) (n : Z) :
  0 ≤ n → py_slice_to l n = take (Z.to_nat n) l.
Proof.
  intros Hn. unfold py_slice_to, py_slice, py_bound, py_len. simpl.
  destruct (n <? 0) eqn:E; [lia|].
  rewrite (Z.min_l 0) by lia. change (Z.to_nat 0) with 0%nat.
  rewrite drop_0, Z.sub_0_r.
  destruct (Z_le_gt_dec n (Z.of_nat (length l))).
  - by rewrite Z.min_l.
  - rewrite Z.min_r by lia. rewrite Nat2Z.id.
    rewrite !take_ge by lia. done.
Qed.

Lemma ljust_len (width : Z) (s : list N) :
  py_len s ≤ width → py_len (ljust width s) = width.
Proof.
  unfold ljust, py_len. intros H. rewrite length_app, length_replicate. lia.
Qed.

(** X26: the status bar fills its row and no more: on a terminal of at
    least 1 row and 2 columns [status_bar] writes, at row [h - 1] and
    column 0, the text cut to [w - 1] characters and padded with spaces to
    exactly [w - 1], so the last column stays free; on a smaller terminal
    it draws nothing. *)
Theorem X26_status_bar_fills_row (h w : Z) (text : list N) :
  (status_bar h w text = None ↔ h < 1 ∨ w < 2)
  ∧ (∀ d, status_bar h w text = Some d →
       d_y d = h - 1 ∧ d_x d = 0
       ∧ py_len (d_text d) = w - 1
       ∧ d_text d = take (Z.to_nat (w - 1)) text
                    ++ replicate (Z.to_nat (w - 1 - py_len text)) 32%N).
Proof.
  unfold status_bar.
  destruct ((h <? 1) || (w <? 2)) eqn:E.
  - apply orb_prop in E. split; [split; [lia|done]|done].
  - apply orb_false_elim in E as [E1 E2]. split; [split; [done|lia]|].
    intros d [= <-]. simpl.
    assert (Py.max 0 (w - 1) = w - 1) as -> by (unfold Py.max; case_match; lia).
    rewrite py_slice_to_take by lia.
    split; [done|]. split; [done|]. split.
    + apply ljust_len. unfold py_len. rewrite length_take. lia.
    + unfold ljust, py_len. rewrite length_take. f_equal.
      destruct (Z_le_gt_dec (w - 1) (Z.of_nat (length text))).
      * replace (Z.to_nat (w - 1 - Z.of_nat (length text))) with 0%nat by lia.
        replace (Z.to_nat (w - 1 - _)) with 0%nat by lia. done.
      * f_equal. lia.
Qed.

Lemma history_rows_lookup view i0 selected box_y box_w scroll k line :
  view !! k = Some line →
  history_rows view i0 selected box_y box_w scroll !! k
  = Some (mkDraw (box_y + 1 + (i0 + Z.of_nat k)) 4
            (ljust (box_w - 4) (py_slice_to line (box_w - 4)))
            (scroll + (i0 + Z.of_nat k) =? selected) false).
Proof.
  revert i0 k. induction view as [|l view IH]; intros i0 k; [done|].
  destruct k as [|k]; simpl.
  - intros [= ->]. by rewrite Z.add_0_r.
  - intros Hk. rewrite (IH _ _ Hk). do 3 f_equal; lia.
Qed.

Lemma history_rows_length view i0 selected box_y box_w scroll :
  length (history_rows view i0 selected box_y box_w scroll) = length view.
Proof. revert i0. induction view as [|l view IH]; intros i0; simpl; [done|by rewrite IH]. Qed.

(** X27: the history box draws its entries inside its border: for a box
    at least 4 wide and 2 high and a scroll position of 0 or more, after
    the border and the title come at most [box_h - 2] rows; row [k] shows
    history entry [scroll + k], cut and padded to exactly [box_w - 4]
    characters, at column 4 of a row strictly between the top and the
    bottom border, in reverse video exactly when it is the selected
    entry. *)
Theorem X27_history_box_rows (history : list (list N))
    (selected box_y box_h box_w scroll : Z) :
  4 ≤ box_w → 2 ≤ box_h → 0 ≤ scroll →
  let rows := drop (Z.to_nat (box_h + 1))
                (draw_history_box history selected box_y box_h box_w scroll) in
  (Z.of_nat (length rows) ≤ box_h - 2)
  ∧ Z.of_nat (length rows) = Z.max 0 (Z.min (box_h - 2) (py_len history - scroll))
  ∧ (∀ k d, rows !! k = Some d →
       ∃ line, history !! (Z.to_nat scroll + k)%nat = Some line
         ∧ d_text d = ljust (box_w - 4) (take (Z.to_nat (box_w - 4)) line)
         ∧ py_len (d_text d) = box_w - 4
         ∧ d_x d = 4
         ∧ d_y d = box_y + 1 + Z.of_nat k
         ∧ box_y < d_y d < box_y + box_h - 1
         ∧ (d_reverse d = true ↔ scroll + Z.of_nat k = selected)).
Proof.
  intros Hw Hh Hs rows.
  set (view := py_slice history scroll (scroll + (box_h - 2))).
  assert (rows = history_rows view 0 selected box_y box_w scroll) as ->.
  { subst rows. unfold draw_history_box. fold view.
    rewrite !app_assoc. apply drop_app_length'.
    rewrite !length_app, length_map. unfold py_range.
    rewrite length_map, length_seq. simpl. lia. }
  rewrite history_rows_length.
  assert (view = take (Z.to_nat (box_h - 2)) (drop (Z.to_nat scroll) history)) as Hview.
  { subst view. unfold py_slice, py_bound, py_len.
    destruct (scroll <? 0) eqn:E1; [lia|].
    destruct (scroll + (box_h - 2) <? 0) eqn:E2; [lia|].
    destruct (Z_le_gt_dec scroll (Z.of_nat (length history))).
    - rewrite (Z.min_l scroll) by lia.
      destruct (Z_le_gt_dec (scroll + (box_h - 2)) (Z.of_nat (length history))).
      + rewrite Z.min_l by lia. f_equal. lia.
      + rewrite Z.min_r by lia.
        rewrite !take_ge; [done|rewrite length_drop; lia..].
    - rewrite !drop_ge by lia. by rewrite !take_nil. }
  assert (Z.of_nat (length view)
          = Z.max 0 (Z.min (box_h - 2) (py_len history - scroll))) as Hlen.
  { rewrite Hview, length_take, length_drop. unfold py_len. lia. }
  split; [lia|]. split; [done|].
  intros k d Hd.
  assert (k < length view)%nat as Hk.
  { apply lookup_lt_Some in Hd. by rewrite history_rows_length in Hd. }
  destruct (lookup_lt_is_Some_2 view k Hk) as [line Hline].
  rewrite (history_rows_lookup _ _ _ _ _ _ _ _ Hline) in Hd.
  injection Hd as <-. simpl.
  exists line. rewrite Hview in Hline.
  apply lookup_take_Some in Hline as [Hline Hk'].
  rewrite lookup_drop in Hline.
  split; [done|]. rewrite py_slice_to_take by lia.
  split; [done|]. split.
  { apply ljust_len. unfold py_len. rewrite length_take. lia. }
  split; [done|]. split; [done|]. split; [lia|].
  by rewrite Z.eqb_eq.
Qed.

Lemma X27_history_box_rows_witness :
  let rows := drop 11 (draw_history_box [Py.lit "Song B"; Py.lit "Song A"]
                         1 20 10 12 0) in
  Z.of_nat (length rows) = 2
  ∧ ∀ k d, rows !! k = Some d → py_len (d_text d) = 8 ∧ d_x d = 4.
Proof.
  intros rows.
  destruct (X27_history_box_rows [Py.lit "Song B"; Py.lit "Song A"] 1 20 10 12 0
              ltac:(lia) ltac:(lia) ltac:(lia)) as (_ & Hlen & Hrows).
  split; [exact Hlen|].
  intros k d Hd. destruct (Hrows k d Hd) as (line & _ & _ & Hl & Hx & _).
  by split.
Defined.

(** ** Failure while a station is started, the thread without shutdown,
    and volumes across stations *)

Lemma write_nowplay_other (self : NowPlaying.t) w q :
  q ≠ NOWPLAY_FILE →
  fs (NowPlaying._write_nowplay self w) !! q = fs w !! q.
Proof. intros Hq. by rewrite write_nowplay_fs, lookup_insert_ne. Qed.

Lemma set_station_other name uuid (self : NowPlaying.t) w q :
  q ≠ NOWPLAY_FILE →
  fs (NowPlaying.set_station name uuid self w).2 !! q = fs w !! q.
Proof.
  intros Hq. unfold NowPlaying.set_station. cbn [snd emit fs].
  by rewrite write_nowplay_other.
Qed.

(** X28: when the engine raises while the media is loaded, [play_station]
    raises too, after the switch has already been published: the
    now-playing state carries the new station, and the now-playing file
    holds its line (or is empty, when the locale's encoder rejects that
    line), while the saved state, the state file and the volumes are as
    before. *)
Theorem X28_play_station_fails_half_way (json_dumps : json → list (list N))
    (station : Station.t) (p : Player.t) (w : World) (url : list N) :
  Station.url_resolved station = Some url → url ≠ [] →
  Engine.faulty (Player.player p) = true →
  let out := Player.play_station json_dumps station p w in
  let name := Py.or_else (Station.name station) (Py.lit "Unknown") in
  let text := Py.strip (name ++ Py.lit " :: " ++ NowPlaying.line (Player.now p))
              ++ [10%N] in
  out.1.1 = Raise
  ∧ NowPlaying.station_name (Player.now out.1.2) = name
  ∧ NowPlaying.stationuuid (Player.now out.1.2) = Station.stationuuid station
  ∧ NowPlaying.line (Player.now out.1.2) = NowPlaying.line (Player.now p)
  ∧ fs out.2 !! NOWPLAY_FILE = Some (if encodes (env w) text then text else [])
  ∧ Player.state out.1.2 = Player.state p
  ∧ Player.volumes out.1.2 = Player.volumes p
  ∧ Player.player out.1.2 = Player.player p
  ∧ fs out.2 !! STATE_FILE = fs w !! STATE_FILE.
Proof.
  intros Hurl Hne Hbad.
  destruct p as [[media meta playing vol muted faulty] now vols st flag].
  simpl in Hbad. subst faulty.
  unfold Player.play_station. rewrite Hurl.
  destruct url as [|c url]; [done|].
  pose proof (set_station_synced
                (Some (default (Py.lit "Unknown") (Station.name station)))
                (Station.stationuuid station) now (emit (EvEngine CallStop) w)) as Hsync.
  pose proof (env_set_station
                (Some (default (Py.lit "Unknown") (Station.name station)))
                (Station.stationuuid station) now (emit (EvEngine CallStop) w)) as Henv.
  pose proof (set_station_other
                (Some (default (Py.lit "Unknown") (Station.name station)))
                (Station.stationuuid station) now (emit (EvEngine CallStop) w)
                STATE_FILE ltac:(intros E; vm_compute in E; discriminate)) as Hfs.
  assert (NowPlaying.station_name
            (NowPlaying.set_station
               (Some (default (Py.lit "Unknown") (Station.name station)))
               (Station.stationuuid station) now (emit (EvEngine CallStop) w)).1
          = Py.or_else (Station.name station) (Py.lit "Unknown")
          ∧ NowPlaying.stationuuid
              (NowPlaying.set_station
                 (Some (default (Py.lit "Unknown") (Station.name station)))
                 (Station.stationuuid station) now (emit (EvEngine CallStop) w)).1
            = Station.stationuuid station
          ∧ NowPlaying.line
              (NowPlaying.set_station
                 (Some (default (Py.lit "Unknown") (Station.name station)))
                 (Station.stationuuid station) now (emit (EvEngine CallStop) w)).1
            = NowPlaying.line now) as (Hname & Huuid & Hline).
  { unfold NowPlaying.set_station. simpl. split; [|done].
    by destruct (Station.name station) as [[|c0 n0]|]. }
  unfold nowplay_synced, nowplay_text, NowPlaying.out in Hsync.
  rewrite Hname, Hline, Henv in Hsync.
  Local Opaque emit NowPlaying.set_station.
  simpl.
  destruct (NowPlaying.set_station _ _ _ _) as [n w0]. simpl in *.
  Local Transparent emit NowPlaying.set_station.
  simpl. done.
Qed.

Lemma X28_play_station_fails_half_way_witness :
  let p := Player.with_player (Engine.mk None meta0 false 40 false true) player0 in
  let out := Player.play_station dumps_kind station_abc p world0 in
  out.1.1 = Raise
  ∧ NowPlaying.station_name (Player.now out.1.2) = Py.lit "Radio X"
  ∧ fs out.2 !! NOWPLAY_FILE
    = Some (Py.lit "Radio X :: " ++ [Py.em_dash] ++ [10%N])
  ∧ fs out.2 !! STATE_FILE = None.
Proof.
  intros p out.
  destruct (X28_play_station_fails_half_way dumps_kind station_abc p world0
              (Py.lit "http://x") eq_refl ltac:(discriminate) eq_refl)
    as (Hr & Hname & _ & _ & Hfile & _ & _ & _ & Hfs).
  split; [exact Hr|]. split; [exact Hname|]. split; [exact Hfile|]. exact Hfs.
Defined.

(** X29: the metadata thread ends only through [shutdown]: along any
    schedule in which the main thread does not move, the stop flag stays
    clear and the thread has not ended. *)
Theorem X29_poller_runs_until_shutdown (p : Player.t) (w : World)
    (sched : list actor) :
  Forall (λ a, a ≠ Main) sched →
  let s := run sched (sys_start p w) in
  Player._stop_flag (sys_player s) = false
  ∧ sys_poller s ≠ PDone
  ∧ sys_main s = MRunning.
Proof.
  intros Hsched.
  assert (Player._stop_flag (sys_player (sys_start p w)) = false
          ∧ sys_poller (sys_start p w) ≠ PDone
          ∧ sys_main (sys_start p w) = MRunning) as Hinit by done.
  revert Hinit. generalize (sys_start p w).
  induction Hsched as [|a sched Ha _ IH]; intros s Hs; [exact Hs|].
  simpl. apply IH. destruct Hs as (Hflag & Hpc & Hmain).
  destruct a as [| |m]; [|done|done].
  simpl. unfold poller_step.
  destruct (sys_poller s) as [| |line| |] eqn:E; simpl.
  - rewrite Hflag. done.
  - by destruct (Player.meta_poll _) as [[l|]|].
  - pose proof (meta_update_keeps_flag line (sys_player s) (sys_world s)) as Hk.
    destruct (Player.meta_update _ _ _). simpl in *. by rewrite Hk.
  - done.
  - done.
Qed.

Lemma X29_poller_runs_until_shutdown_witness :
  sys_poller (run (replicate 9 Poller) (sys_start player0 world0)) ≠ PDone.
Proof.
  refine (proj1 (proj2 (X29_poller_runs_until_shutdown player0 world0
                          (replicate 9 Poller) _))).
  apply Forall_replicate. discriminate.
Defined.

(** X30: a station plays at the volume saved for it: when the volume map
    is the one [save_station_volume] left for a non-empty uuid and the
    engine answers, [play_station] of a station with that uuid and a
    non-empty resolved URL sets the volume to the saved one clamped to
    0..100, which is the saved one itself when that was in 0..100; for a
    station without a resolved URL it returns [False] and sets nothing. *)
Theorem X30_saved_volume_is_applied (json_dumps : json → list (list N))
    (station : Station.t) (p p0 : Player.t) (w w0 : World) (u : list N) :
  Station.stationuuid station = Some u → u ≠ [] →
  Engine.faulty (Player.player p) = false →
  Player.volumes p
  = Player.volumes (Player.save_station_volume json_dumps (Some u) p0 w0).1 →
  let out := Player.play_station json_dumps station p w in
  (∀ url, Station.url_resolved station = Some url → url ≠ [] →
     Player.get_volume out.1.2 = clamp (Player.get_volume p0) 0 100
     ∧ (0 ≤ Player.get_volume p0 ≤ 100 →
        Player.get_volume out.1.2 = Player.get_volume p0))
  ∧ (Py.truthy_opt (Station.url_resolved station) = false →
     out = (Ret false, p, w)).
Proof.
  intros Hu Hune Hok Hvols. split.
  - intros url Hurl Hne.
    destruct (save_station_volume_effect json_dumps (Some u) p0 w0) as [_ Hsaved].
    destruct (Hsaved u eq_refl Hune) as (Hl & _). rewrite <- Hvols in Hl.
    assert (Player.get_volume (Player.play_station json_dumps station p w).1.2
            = clamp (Player.get_volume p0) 0 100) as Hv.
    { destruct p as [[media meta playing vol muted faulty] now vols st flag].
      simpl in Hok, Hl. subst faulty.
      unfold Player.play_station. rewrite Hurl, Hu.
      destruct url as [|c url]; [done|].
      destruct u as [|c0 u]; [done|].
      Local Opaque emit save_json NowPlaying.set_station clamp.
      simpl.
      destruct (NowPlaying.set_station _ _ _ _) as [n w1].
      unfold Player.apply_station_volume, Player.with_player, Player.with_now. simpl.
      rewrite Hl. simpl.
      unfold Player.get_volume, Player.set_volume, Player.guarded,
        Player.with_state, Player.with_player. simpl.
      Local Transparent emit save_json NowPlaying.set_station clamp.
      done. }
    split; [exact Hv|]. intros Hr. simpl. rewrite Hv. by apply clamp_inside.
  - intros Hurl. unfold Player.play_station. by rewrite Hurl.
Qed.

Lemma X30_saved_volume_is_applied_witness :
  let p0 := Player.with_player (Engine.mk None meta0 false 35 false false) player0 in
  let p1 := (Player.save_station_volume dumps_kind (Some (Py.lit "abc")) p0 world0).1 in
  let p2 := (Player.set_volume 90 p1 world0).1 in
  Player.get_volume p2 = 90
  ∧ Player.get_volume (Player.play_station dumps_kind station_abc p2 world0).1.2 = 35.
Proof.
  intros p0 p1 p2. split; [reflexivity|].
  refine (proj2 (proj1 (X30_saved_volume_is_applied dumps_kind station_abc p2 p0
                          world0 world0 (Py.lit "abc")
                          eq_refl ltac:(discriminate) eq_refl eq_refl)
                   (Py.lit "http://x") eq_refl ltac:(discriminate)) _).
  vm_compute. split; discriminate.
Defined.
